(** * immerseindia: the dashboard's client-side data layer

    A shallow embedding of the TypeScript sources
      - [services/api.ts]   (request construction, [handleResponse]),
      - [App.tsx]           (session restore, [fetchAllData], [handleLogout]),
      - [ExperienceManager.tsx], [ItineraryManager.tsx], [ImageManager.tsx]
                            (per-collection fetch and delete handlers),
      - [figma/ImageWithFallback.tsx] ([handleError], [handleLoad]),
    followed by the properties of the synchronisation layer.

    Conventions.  A JavaScript value that comes out of [response.json()] is a
    [jsval]; [undefined] only ever arises from a property read and is the
    [None] of [option jsval].  Numbers are the integer-valued ones the
    application uses (identifiers, pages, epoch milliseconds).  Strings are
    byte strings (UTF-8).  React state is a field of [World]; a state setter
    is a field update; a prop captured by a handler's closure is an explicit
    argument of the handler. *)

From Stdlib Require Import ZArith String Ascii List Bool DecimalString.
From stdpp Require Import base gmap strings list option.

Local Open Scope string_scope.
Local Open Scope Z_scope.
#[local] Set Warnings "-register-all".

(** ** JavaScript values *)

Inductive jsval : Type :=
| JNull
| JBool (b : bool)
| JNum (n : Z)
| JStr (s : string)
| JArr (xs : list jsval)
| JObj (fields : list (string * jsval)).

Inductive exn : Type :=
| Error (message : string)
| TypeError (message : string)
| SyntaxError (message : string).

Inductive outcome (A : Type) : Type :=
| Ok (a : A)
| Throw (e : exn).
Arguments Ok {A} a.
Arguments Throw {A} e.

(** [ToBoolean] on a value; [undefined] is handled by [truthy_opt]. *)
Definition truthy (v : jsval) : bool :=
  match v with
  | JNull => false
  | JBool b => b
  | JNum n => negb (n =? 0)
  | JStr s => negb (String.eqb s "")
  | JArr _ | JObj _ => true
  end.

Definition truthy_opt (v : option jsval) : bool :=
  match v with
  | Some v => truthy v
  | None => false
  end.

Definition truthy_str (s : option string) : bool :=
  match s with
  | Some s => negb (String.eqb s "")
  | None => false
  end.

Fixpoint assoc (k : string) (fields : list (string * jsval)) : option jsval :=
  match fields with
  | [] => None
  | (k', v) :: rest => if String.eqb k k' then Some v else assoc k rest
  end.

Definition Z_toString (n : Z) : string := NilZero.string_of_int (Z.to_int n).

(** [v.k] for a named (non-index) property [k]: a [TypeError] on [null],
    [undefined] where the property is absent. *)
Definition get (v : jsval) (k : string) : outcome (option jsval) :=
  match v with
  | JNull =>
      Throw (TypeError ("Cannot read properties of null (reading '" +:+ k +:+ "')"))
  | JObj fields => Ok (assoc k fields)
  | JArr xs =>
      Ok (if String.eqb k "length" then Some (JNum (Z.of_nat (length xs))) else None)
  | JStr s =>
      Ok (if String.eqb k "length" then Some (JNum (Z.of_nat (String.length s))) else None)
  | JBool _ | JNum _ => Ok None
  end.

(** [a || b] where [a] is the result of a property read. *)
Definition or_else (a : option jsval) (b : jsval) : jsval :=
  match a with
  | Some v => if truthy v then v else b
  | None => b
  end.

Fixpoint join (sep : string) (parts : list string) : string :=
  match parts with
  | [] => ""
  | [p] => p
  | p :: rest => p +:+ sep +:+ join sep rest
  end.

(** [String(v)], as applied by [new Error(v)] and by template literals. *)
Fixpoint ToString (v : jsval) : string :=
  match v with
  | JNull => "null"
  | JBool true => "true"
  | JBool false => "false"
  | JNum n => Z_toString n
  | JStr s => s
  | JArr xs =>
      join "," (List.map (fun x => match x with JNull => "" | _ => ToString x end) xs)
  | JObj _ => "[object Object]"
  end.

(** ** [JSON.stringify] *)

Definition dquote : ascii := "034"%char.
Definition backslash : ascii := "092"%char.

Definition hex_digit (n : N) : ascii :=
  if (n <? 10)%N then ascii_of_N (48 + n) else ascii_of_N (87 + n).

Definition HEX_digit (n : N) : ascii :=
  if (n <? 10)%N then ascii_of_N (48 + n) else ascii_of_N (55 + n).

Definition escape_char (c : ascii) : string :=
  let n := N_of_ascii c in
  if Ascii.eqb c dquote then String backslash (String dquote "")
  else if Ascii.eqb c backslash then String backslash (String backslash "")
  else if (n =? 8)%N then String backslash "b"
  else if (n =? 9)%N then String backslash "t"
  else if (n =? 10)%N then String backslash "n"
  else if (n =? 12)%N then String backslash "f"
  else if (n =? 13)%N then String backslash "r"
  else if (n <? 32)%N then
    String backslash ("u00" +:+ String (hex_digit (n / 16)) (String (hex_digit (n mod 16)) ""))
  else String c "".

Fixpoint escape (s : string) : string :=
  match s with
  | EmptyString => ""
  | String c rest => escape_char c +:+ escape rest
  end.

Definition quote (s : string) : string :=
  String dquote (escape s) +:+ String dquote "".

Fixpoint JSON_stringify (v : jsval) : string :=
  match v with
  | JNull => "null"
  | JBool true => "true"
  | JBool false => "false"
  | JNum n => Z_toString n
  | JStr s => quote s
  | JArr xs => "[" +:+ join "," (List.map JSON_stringify xs) +:+ "]"
  | JObj fields =>
      "{" +:+ join "," (List.map (fun kv => quote (fst kv) +:+ ":" +:+ JSON_stringify (snd kv)) fields) +:+ "}"
  end.

(** ** [URLSearchParams] *)

Definition is_unreserved (c : ascii) : bool :=
  let n := N_of_ascii c in
  ((48 <=? n) && (n <=? 57) || (65 <=? n) && (n <=? 90) || (97 <=? n) && (n <=? 122)
   || (n =? 42) || (n =? 45) || (n =? 46) || (n =? 95))%N.

Definition urlencode_char (c : ascii) : string :=
  let n := N_of_ascii c in
  if is_unreserved c then String c ""
  else if (n =? 32)%N then "+"
  else String "%"%char (String (HEX_digit (n / 16)) (String (HEX_digit (n mod 16)) "")).

Fixpoint urlencode (s : string) : string :=
  match s with
  | EmptyString => ""
  | String c rest => urlencode_char c +:+ urlencode rest
  end.

Definition URLSearchParams := list (string * string).

Definition URLSearchParams_toString (q : URLSearchParams) : string :=
  join "&" (List.map (fun kv => urlencode (fst kv) +:+ "=" +:+ urlencode (snd kv)) q).

(** ** Requests and responses *)

Inductive method : Type := GET | POST | PUT | DELETE.

Inductive FormDataEntry : Type :=
| Text (value : string)
| File (name : string) (size : N).

(** A [FormData] object: its entries in [append] order. *)
Definition FormData := list (string * FormDataEntry).

(** The argument of [create]/[update], typed [FormData | any]:
    what [data instanceof FormData] tells apart. *)
Inductive payload : Type :=
| Plain (v : jsval)
| Multipart (fd : FormData).

Definition instanceof_FormData (data : payload) : bool :=
  match data with
  | Multipart _ => true
  | Plain _ => false
  end.

(** [JSON.stringify(data)]: a [FormData] has no own enumerable property. *)
Definition JSON_stringify_any (data : payload) : string :=
  match data with
  | Plain v => JSON_stringify v
  | Multipart _ => "{}"
  end.

Inductive body : Type :=
| BodyText (text : string)
| BodyFormData (fd : FormData).

Record request : Type := {
  url : string;
  verb : method;
  headers : gmap string string;
  body_of : option body
}.

(** [fetch(url)] with no init object. *)
Definition plain_get (u : string) : request :=
  {| url := u; verb := GET; headers := ∅; body_of := None |}.

Record Response : Type := {
  status : Z;
  json : outcome jsval  (* what [response.json()] settles to *)
}.

Definition ok (r : Response) : bool := (200 <=? status r) && (status r <=? 299).

#[global] Instance method_eq_dec : EqDecision method.
Proof. solve_decision. Defined.
#[global] Instance FormDataEntry_eq_dec : EqDecision FormDataEntry.
Proof. solve_decision. Defined.
#[global] Instance body_eq_dec : EqDecision body.
Proof. solve_decision. Defined.
#[global] Instance request_eq_dec : EqDecision request.
Proof. solve_decision. Defined.

(** ** The world a handler runs in

    The browser side: [localStorage], the requests handed to [fetch] (all of
    them in [sent], the unanswered ones in [pending]), the answers the
    network will give to the next requests in the order they are issued
    ([net]; an exhausted script is an unreachable server), the toasts and
    console lines produced, and the page reloads.  Then the React state of
    [App] and of the three manager components. *)

Inductive fetch_outcome : Type :=
| NetworkFailure
| Responded (r : Response).

Inductive toast : Type :=
| toast_success (message : string)
| toast_error (message : string).

Record Browser : Type := {
  REACT_APP_API_URL : option string;
  localStorage : gmap string string;
  pending : list request;
  sent : list request;
  net : list fetch_outcome;
  toasts : list toast;
  console : list string;
  reloads : nat
}.

Record AppData : Type := {
  experiences : jsval;
  itineraries : jsval;
  images : jsval;
  updates : jsval
}.

Record AppState : Type := {
  user : jsval;
  data : AppData;
  isLoading : bool;
  connectionError : bool
}.

(** A manager component: its copy of the collection and its busy flag. *)
Record ManagerState : Type := {
  items : jsval;
  busy : bool
}.

Record World : Type := {
  browser : Browser;
  app : AppState;
  experienceManager : ManagerState;
  itineraryManager : ManagerState;
  imageManager : ManagerState
}.

Definition with_browser (f : Browser -> Browser) (w : World) : World :=
  {| browser := f (browser w); app := app w;
     experienceManager := experienceManager w;
     itineraryManager := itineraryManager w;
     imageManager := imageManager w |}.

Definition with_app (f : AppState -> AppState) (w : World) : World :=
  {| browser := browser w; app := f (app w);
     experienceManager := experienceManager w;
     itineraryManager := itineraryManager w;
     imageManager := imageManager w |}.

Definition with_experienceManager (f : ManagerState -> ManagerState) (w : World) : World :=
  {| browser := browser w; app := app w;
     experienceManager := f (experienceManager w);
     itineraryManager := itineraryManager w;
     imageManager := imageManager w |}.

Definition with_itineraryManager (f : ManagerState -> ManagerState) (w : World) : World :=
  {| browser := browser w; app := app w;
     experienceManager := experienceManager w;
     itineraryManager := f (itineraryManager w);
     imageManager := imageManager w |}.

Definition with_imageManager (f : ManagerState -> ManagerState) (w : World) : World :=
  {| browser := browser w; app := app w;
     experienceManager := experienceManager w;
     itineraryManager := itineraryManager w;
     imageManager := f (imageManager w) |}.

Definition set_localStorage (ls : gmap string string) (b : Browser) : Browser :=
  {| REACT_APP_API_URL := REACT_APP_API_URL b; localStorage := ls;
     pending := pending b; sent := sent b; net := net b;
     toasts := toasts b; console := console b; reloads := reloads b |}.

Definition set_traffic (p s : list request) (n : list fetch_outcome) (b : Browser) : Browser :=
  {| REACT_APP_API_URL := REACT_APP_API_URL b; localStorage := localStorage b;
     pending := p; sent := s; net := n;
     toasts := toasts b; console := console b; reloads := reloads b |}.

Definition add_toast (t : toast) (b : Browser) : Browser :=
  {| REACT_APP_API_URL := REACT_APP_API_URL b; localStorage := localStorage b;
     pending := pending b; sent := sent b; net := net b;
     toasts := toasts b ++ [t]; console := console b; reloads := reloads b |}.

Definition add_console (line : string) (b : Browser) : Browser :=
  {| REACT_APP_API_URL := REACT_APP_API_URL b; localStorage := localStorage b;
     pending := pending b; sent := sent b; net := net b;
     toasts := toasts b; console := console b ++ [line]; reloads := reloads b |}.

Definition add_reload (b : Browser) : Browser :=
  {| REACT_APP_API_URL := REACT_APP_API_URL b; localStorage := localStorage b;
     pending := pending b; sent := sent b; net := net b;
     toasts := toasts b; console := console b; reloads := S (reloads b) |}.

Definition set_user (u : jsval) (a : AppState) : AppState :=
  {| user := u; data := data a; isLoading := isLoading a; connectionError := connectionError a |}.

Definition set_data (d : AppData) (a : AppState) : AppState :=
  {| user := user a; data := d; isLoading := isLoading a; connectionError := connectionError a |}.

Definition set_isLoading (b : bool) (a : AppState) : AppState :=
  {| user := user a; data := data a; isLoading := b; connectionError := connectionError a |}.

Definition set_connectionError (b : bool) (a : AppState) : AppState :=
  {| user := user a; data := data a; isLoading := isLoading a; connectionError := b |}.

Definition set_items (v : jsval) (m : ManagerState) : ManagerState :=
  {| items := v; busy := busy m |}.

Definition set_busy (b : bool) (m : ManagerState) : ManagerState :=
  {| items := items m; busy := b |}.

(** [{ ...data, experiences: v }] and its three siblings. *)
Definition with_experiences (v : jsval) (d : AppData) : AppData :=
  {| experiences := v; itineraries := itineraries d; images := images d; updates := updates d |}.

Definition with_itineraries (v : jsval) (d : AppData) : AppData :=
  {| experiences := experiences d; itineraries := v; images := images d; updates := updates d |}.

Definition with_images (v : jsval) (d : AppData) : AppData :=
  {| experiences := experiences d; itineraries := itineraries d; images := v; updates := updates d |}.

Definition no_data : AppData :=
  {| experiences := JArr []; itineraries := JArr []; images := JArr []; updates := JArr [] |}.

(** ** Handlers: state passing with exceptions *)

Definition M (A : Type) : Type := World -> outcome A * World.

#[global] Instance M_ret : MRet M := fun A a w => (Ok a, w).

#[global] Instance M_bind : MBind M := fun A B k m w =>
  match m w with
  | (Ok a, w') => k a w'
  | (Throw e, w') => (Throw e, w')
  end.

Definition throw {A} (e : exn) : M A := fun w => (Throw e, w).

Definition lift {A} (o : outcome A) : M A := fun w => (o, w).

Definition modify (f : World -> World) : M unit := fun w => (Ok tt, f w).

Definition try_catch {A} (m : M A) (handler : exn -> M A) : M A := fun w =>
  match m w with
  | (Ok a, w') => (Ok a, w')
  | (Throw e, w') => handler e w'
  end.

Definition finally {A} (m : M A) (cleanup : M unit) : M A := fun w =>
  match m w with
  | (r, w') =>
      match cleanup w' with
      | (Ok _, w'') => (r, w'')
      | (Throw e, w'') => (Throw e, w'')
      end
  end.

(** A call to an async function whose promise nobody awaits. *)
Definition detached (m : M unit) : M unit := fun w => (Ok tt, snd (m w)).

Definition run (m : M unit) (w : World) : World := snd (m w).

(** *** Browser primitives *)

Definition getItem (k : string) : M (option string) :=
  fun w => (Ok (localStorage (browser w) !! k), w).

Definition setItem (k v : string) : M unit :=
  modify (with_browser (fun b => set_localStorage (<[k := v]> (localStorage b)) b)).

Definition removeItem (k : string) : M unit :=
  modify (with_browser (fun b => set_localStorage (delete k (localStorage b)) b)).

Definition toast_ (t : toast) : M unit := modify (with_browser (add_toast t)).

Definition console_error (line : string) : M unit := modify (with_browser (add_console line)).

Definition window_location_reload : M unit := modify (with_browser add_reload).

Fixpoint remove_first (req : request) (l : list request) : list request :=
  match l with
  | [] => []
  | r :: rest => if decide (r = req) then rest else r :: remove_first req rest
  end.

(** [fetch] in its two halves: the request leaves when [fetch] is called,
    the promise settles when the answer (or the failure) comes back. *)
Definition issue (req : request) (w : World) : World :=
  with_browser (fun b => set_traffic (pending b ++ [req]) (sent b ++ [req]) (net b) b) w.

Definition settle (req : request) (o : fetch_outcome) : M Response := fun w =>
  let w' := with_browser (fun b => set_traffic (remove_first req (pending b)) (sent b) (net b) b) w in
  match o with
  | NetworkFailure => (Throw (TypeError "Failed to fetch"), w')
  | Responded r => (Ok r, w')
  end.

Definition next_answer (w : World) : fetch_outcome * World :=
  match net (browser w) with
  | [] => (NetworkFailure, w)
  | o :: rest => (o, with_browser (fun b => set_traffic (pending b) (sent b) rest b) w)
  end.

Definition fetch (req : request) : M Response := fun w =>
  let (o, w') := next_answer (issue req w) in
  settle req o w'.

(** ** services/api.ts *)

Definition API_BASE_URL (REACT_APP_API_URL : option string) : string :=
  match REACT_APP_API_URL with
  | Some u => if String.eqb u "" then "http://localhost:5000/api" else u
  | None => "http://localhost:5000/api"
  end.

(** [{ ...(token && { Authorization: `Bearer ${token}` }) }] spread into [h]. *)
Definition spread_auth (token : option string) (h : gmap string string) : gmap string string :=
  match token with
  | Some t => if String.eqb t "" then h else <["Authorization" := "Bearer " +:+ t]> h
  | None => h
  end.

Definition getAuthHeaders (localStorage : gmap string string) : gmap string string :=
  let token := localStorage !! "authToken" in
  spread_auth token {["Content-Type" := "application/json"]}.

Definition handleResponse (response : Response) : outcome jsval :=
  if negb (ok response) then
    let error :=
      match json response with
      | Ok v => v
      | Throw _ => JObj [("error", JStr "Network error")]
      end in
    match get error "error" with
    | Throw e => Throw e
    | Ok field =>
        match field with
        | Some m =>
            if truthy m then Throw (Error (ToString m))
            else Throw (Error ("HTTP " +:+ Z_toString (status response)))
        | None => Throw (Error ("HTTP " +:+ Z_toString (status response)))
        end
    end
  else json response.

Record ListParams : Type := {
  page : option Z;
  limit : option Z;
  region : option string;
  search : option string
}.

Definition when {A} (b : bool) (l : list A) : list A := if b then l else [].

Definition list_query (params : option ListParams) : URLSearchParams :=
  match params with
  | None => []
  | Some p =>
      List.concat
        [ match page p with
          | Some n => when (negb (n =? 0)) [("page", Z_toString n)]
          | None => []
          end;
          match limit p with
          | Some n => when (negb (n =? 0)) [("limit", Z_toString n)]
          | None => []
          end;
          match region p with
          | Some r => when (negb (String.eqb r "") && negb (String.eqb r "All")) [("region", r)]
          | None => []
          end;
          match search p with
          | Some s => when (negb (String.eqb s "")) [("search", s)]
          | None => []
          end ]
  end.

Definition list_url (base path : string) (params : option ListParams) : string :=
  let queryParams := URLSearchParams_toString (list_query params) in
  base +:+ path +:+ (if String.eqb queryParams "" then "" else "?" +:+ queryParams).

(** The header and body of the dual-payload [create]/[update]. *)
Definition dual_headers (localStorage : gmap string string) (data : payload) : gmap string string :=
  let token := localStorage !! "authToken" in
  let isFormData := instanceof_FormData data in
  let h := spread_auth token ∅ in
  if negb isFormData then <["Content-Type" := "application/json"]> h else h.

Definition dual_body (data : payload) : body :=
  match data with
  | Multipart fd => BodyFormData fd
  | Plain _ => BodyText (JSON_stringify_any data)
  end.

(** An API method: build the request from the configured base URL and the
    stored token, [await fetch(...)], then [handleResponse]. *)
Definition send (mk : string -> gmap string string -> request) : M jsval := fun w =>
  (response ← fetch (mk (API_BASE_URL (REACT_APP_API_URL (browser w))) (localStorage (browser w)));
   lift (handleResponse response)) w.

Definition setAuthToken (token : string) : M unit :=
  try_catch (setItem "authToken" token) (fun e => mret tt).

Definition clearAuthToken : M unit :=
  try_catch (removeItem "authToken") (fun e => mret tt).

Module authAPI.
Definition logout : M unit := removeItem "authToken".
Definition login_request (base email password : string) : request :=
  {| url := base +:+ "/auth/login"; verb := POST;
     headers := {["Content-Type" := "application/json"]};
     body_of := Some (BodyText (JSON_stringify
                  (JObj [("email", JStr email); ("password", JStr password)]))) |}.
Definition login (email password : string) : M jsval :=
  data ← send (fun base _ => login_request base email password);
  token ← lift (get data "token");
  (if truthy_opt token
   then setAuthToken (match token with Some t => ToString t | None => "undefined" end)
   else mret tt) ;;
  mret data.
Definition getProfile_request (base : string) (localStorage : gmap string string) : request :=
  {| url := base +:+ "/auth/profile"; verb := GET;
     headers := getAuthHeaders localStorage; body_of := None |}.
Definition getProfile : M jsval :=
  send (fun base localStorage => getProfile_request base localStorage).
End authAPI.

Module experiencesAPI.
Definition getAll_request (base : string) (params : option ListParams) : request :=
  plain_get (list_url base "/experiences" params).
Definition getById_request (base id : string) : request :=
  plain_get (base +:+ "/experiences/" +:+ id).
Definition create_request (base : string) (localStorage : gmap string string) (data : payload) : request :=
  {| url := base +:+ "/experiences"; verb := POST;
     headers := dual_headers localStorage data; body_of := Some (dual_body data) |}.
Definition update_request (base : string) (localStorage : gmap string string) (id : string) (data : payload) : request :=
  {| url := base +:+ "/experiences/" +:+ id; verb := PUT;
     headers := dual_headers localStorage data; body_of := Some (dual_body data) |}.
Definition delete_request (base : string) (localStorage : gmap string string) (id : string) : request :=
  {| url := base +:+ "/experiences/" +:+ id; verb := DELETE;
     headers := getAuthHeaders localStorage; body_of := None |}.
Definition getAll (params : option ListParams) : M jsval :=
  send (fun base _ => getAll_request base params).
Definition getById (id : string) : M jsval :=
  send (fun base _ => getById_request base id).
Definition create (data : payload) : M jsval :=
  send (fun base localStorage => create_request base localStorage data).
Definition update (id : string) (data : payload) : M jsval :=
  send (fun base localStorage => update_request base localStorage id data).
Definition delete (id : string) : M jsval :=
  send (fun base localStorage => delete_request base localStorage id).
End experiencesAPI.

Module itinerariesAPI.
Definition getAll_request (base : string) (params : option ListParams) : request :=
  plain_get (list_url base "/itineraries" params).
Definition getById_request (base id : string) : request :=
  plain_get (base +:+ "/itineraries/" +:+ id).
Definition create_request (base : string) (localStorage : gmap string string) (data : payload) : request :=
  {| url := base +:+ "/itineraries"; verb := POST;
     headers := dual_headers localStorage data; body_of := Some (dual_body data) |}.
Definition update_request (base : string) (localStorage : gmap string string) (id : string) (data : payload) : request :=
  {| url := base +:+ "/itineraries/" +:+ id; verb := PUT;
     headers := dual_headers localStorage data; body_of := Some (dual_body data) |}.
Definition delete_request (base : string) (localStorage : gmap string string) (id : string) : request :=
  {| url := base +:+ "/itineraries/" +:+ id; verb := DELETE;
     headers := getAuthHeaders localStorage; body_of := None |}.
Definition getAll (params : option ListParams) : M jsval :=
  send (fun base _ => getAll_request base params).
Definition getById (id : string) : M jsval :=
  send (fun base _ => getById_request base id).
Definition create (data : payload) : M jsval :=
  send (fun base localStorage => create_request base localStorage data).
Definition update (id : string) (data : payload) : M jsval :=
  send (fun base localStorage => update_request base localStorage id data).
Definition delete (id : string) : M jsval :=
  send (fun base localStorage => delete_request base localStorage id).
End itinerariesAPI.

Module imagesAPI.
Definition getAll_request (base : string) (params : option ListParams) : request :=
  plain_get (list_url base "/images" params).
Definition getById_request (base id : string) : request :=
  plain_get (base +:+ "/images/" +:+ id).
Definition create_request (base : string) (localStorage : gmap string string) (formData : FormData) : request :=
  {| url := base +:+ "/images"; verb := POST;
     headers := spread_auth (localStorage !! "authToken") ∅;
     body_of := Some (BodyFormData formData) |}.
Definition update_request (base : string) (localStorage : gmap string string) (id : string) (formData : FormData) : request :=
  {| url := base +:+ "/images/" +:+ id; verb := PUT;
     headers := spread_auth (localStorage !! "authToken") ∅;
     body_of := Some (BodyFormData formData) |}.
Definition delete_request (base : string) (localStorage : gmap string string) (id : string) : request :=
  {| url := base +:+ "/images/" +:+ id; verb := DELETE;
     headers := getAuthHeaders localStorage; body_of := None |}.
Definition getAll (params : option ListParams) : M jsval :=
  send (fun base _ => getAll_request base params).
Definition getById (id : string) : M jsval :=
  send (fun base _ => getById_request base id).
Definition create (formData : FormData) : M jsval :=
  send (fun base localStorage => create_request base localStorage formData).
Definition update (id : string) (formData : FormData) : M jsval :=
  send (fun base localStorage => update_request base localStorage id formData).
Definition delete (id : string) : M jsval :=
  send (fun base localStorage => delete_request base localStorage id).
End imagesAPI.

Module updatesAPI.
Definition getAll_request (base : string) : request :=
  plain_get (base +:+ "/updates").
Definition getById_request (base id : string) : request :=
  plain_get (base +:+ "/updates/" +:+ id).
Definition create_request (base : string) (localStorage : gmap string string) (data : payload) : request :=
  {| url := base +:+ "/updates"; verb := POST;
     headers := getAuthHeaders localStorage;
     body_of := Some (BodyText (JSON_stringify_any data)) |}.
Definition update_request (base : string) (localStorage : gmap string string) (id : string) (data : payload) : request :=
  {| url := base +:+ "/updates/" +:+ id; verb := PUT;
     headers := getAuthHeaders localStorage;
     body_of := Some (BodyText (JSON_stringify_any data)) |}.
Definition delete_request (base : string) (localStorage : gmap string string) (id : string) : request :=
  {| url := base +:+ "/updates/" +:+ id; verb := DELETE;
     headers := getAuthHeaders localStorage; body_of := None |}.
Definition getAll : M jsval :=
  send (fun base _ => getAll_request base).
Definition getById (id : string) : M jsval :=
  send (fun base _ => getById_request base id).
Definition create (data : payload) : M jsval :=
  send (fun base localStorage => create_request base localStorage data).
Definition update (id : string) (data : payload) : M jsval :=
  send (fun base localStorage => update_request base localStorage id data).
Definition delete (id : string) : M jsval :=
  send (fun base localStorage => delete_request base localStorage id).
End updatesAPI.

(** ** App.tsx *)

Definition setUser (u : jsval) : M unit := modify (with_app (set_user u)).
Definition setData (d : AppData) : M unit := modify (with_app (set_data d)).
Definition setIsLoading (b : bool) : M unit := modify (with_app (set_isLoading b)).
Definition setConnectionError (b : bool) : M unit := modify (with_app (set_connectionError b)).

(** [promise.catch(err => { console.error(label, err); return { data: [] }; })] *)
Definition or_empty (label : string) (promise : M jsval) : M jsval :=
  try_catch promise
    (fun err => console_error label ;; mret (JObj [("data", JArr [])])).

Definition fetchAllData : M unit :=
  setIsLoading true ;;
  setConnectionError false ;;
  finally
    (try_catch
       (experiencesRes ← or_empty "Failed to fetch experiences:" (experiencesAPI.getAll None);
        itinerariesRes ← or_empty "Failed to fetch itineraries:" (itinerariesAPI.getAll None);
        imagesRes ← or_empty "Failed to fetch images:" (imagesAPI.getAll None);
        updatesRes ← or_empty "Failed to fetch updates:" updatesAPI.getAll;
        e ← lift (get experiencesRes "data");
        i ← lift (get itinerariesRes "data");
        g ← lift (get imagesRes "data");
        u ← lift (get updatesRes "data");
        setData {| experiences := or_else e (JArr []);
                   itineraries := or_else i (JArr []);
                   images := or_else g (JArr []);
                   updates := or_else u (JArr []) |})
       (fun error =>
          console_error "Critical error loading data:" ;;
          setConnectionError true ;;
          toast_ (toast_error "Unable to connect to server. Please check your internet connection.") ;;
          setData no_data))
    (setIsLoading false).

Definition handleLogout : M unit :=
  try_catch
    (removeItem "user" ;;
     removeItem "token" ;;
     removeItem "authToken" ;;
     authAPI.logout ;;
     setUser JNull ;;
     setData no_data ;;
     setConnectionError false ;;
     toast_ (toast_success "Logged out successfully"))
    (fun error =>
       console_error "Logout error:" ;;
       window_location_reload).

Definition handleUpdateData (newData : AppData) : M unit := setData newData.

Definition handleRetry : M unit := fun w =>
  if truthy (user (app w)) then detached fetchAllData w
  else setIsLoading false w.

Section Startup.

(** [JSON.parse], the platform's: [Throw (SyntaxError _)] on text that is
    not JSON. *)
Variable JSON_parse : string -> outcome jsval.

(** The effect run once when [App] mounts. *)
Definition App_useEffect : M unit :=
  token ← getItem "token";
  storedUser ← getItem "user";
  if truthy_str token && truthy_str storedUser then
    try_catch
      (setAuthToken (default "" token) ;;
       parsed ← lift (JSON_parse (default "" storedUser));
       setUser parsed ;;
       detached fetchAllData)
      (fun error =>
         console_error "Error parsing stored user data:" ;;
         handleLogout)
  else
    setIsLoading false.

End Startup.

(** The state [App] mounts in. *)
Definition App_initial : AppState :=
  {| user := JNull; data := no_data; isLoading := true; connectionError := false |}.

(** What [App] renders. *)
Inductive screen : Type :=
| LoginPage
| LoadingSpinner
| ConnectionErrorPage
| Dashboard.

Definition App_render (a : AppState) : screen :=
  if negb (truthy (user a)) then LoginPage
  else if isLoading a then LoadingSpinner
  else if connectionError a then ConnectionErrorPage
  else Dashboard.

(** ** ExperienceManager.tsx *)

Module ExperienceManager.

Definition setExperiences (v : jsval) : M unit := modify (with_experienceManager (set_items v)).
Definition setIsLoading (b : bool) : M unit := modify (with_experienceManager (set_busy b)).

(** [data] is the prop captured by the closure; [onUpdateData] is [App]'s
    [handleUpdateData]. *)
Definition fetchExperiences (data : AppData) : M unit :=
  setIsLoading true ;;
  finally
    (try_catch
       (response ← experiencesAPI.getAll None;
        d ← lift (get response "data");
        let experiencesData := or_else d response in
        setExperiences experiencesData ;;
        handleUpdateData (with_experiences experiencesData data))
       (fun error =>
          toast_ (toast_error "Failed to load experiences") ;;
          console_error "Error fetching experiences:"))
    (setIsLoading false).

(** [confirmed] is the answer given to [window.confirm]. *)
Definition handleDeleteExperience (data : AppData) (confirmed : bool) (id : string) : M unit :=
  if confirmed then
    try_catch
      (experiencesAPI.delete id ;;
       fetchExperiences data ;;
       toast_ (toast_success "Experience deleted successfully"))
      (fun error =>
         console_error "Error deleting experience:" ;;
         toast_ (toast_error "Failed to delete experience"))
  else mret tt.

Definition handleDelete (id : string) : M unit := mret tt.

(** [fetchExperiences] cut at its [await]: what has happened when the call
    returns its promise, and what happens when the awaited [fetch] settles
    with [o]. *)
Definition list_request (w : World) : request :=
  experiencesAPI.getAll_request (API_BASE_URL (REACT_APP_API_URL (browser w))) None.

Definition fetchExperiences_called (w : World) : World :=
  issue (list_request w) (run (setIsLoading true) w).

Definition fetchExperiences_resumed (data : AppData) (o : fetch_outcome) : M unit :=
  finally
    (try_catch
       (response ← (fun w => (r ← settle (list_request w) o; lift (handleResponse r)) w);
        d ← lift (get response "data");
        let experiencesData := or_else d response in
        setExperiences experiencesData ;;
        handleUpdateData (with_experiences experiencesData data))
       (fun error =>
          toast_ (toast_error "Failed to load experiences") ;;
          console_error "Error fetching experiences:"))
    (setIsLoading false).

End ExperienceManager.

(** ** ItineraryManager.tsx *)

Module ItineraryManager.

Definition setItineraries (v : jsval) : M unit := modify (with_itineraryManager (set_items v)).
Definition setIsLoading (b : bool) : M unit := modify (with_itineraryManager (set_busy b)).

Definition fetchItineraries (data : AppData) : M unit :=
  setIsLoading true ;;
  finally
    (try_catch
       (response ← itinerariesAPI.getAll None;
        d ← lift (get response "data");
        let itinerariesData := or_else d response in
        setItineraries itinerariesData ;;
        handleUpdateData (with_itineraries itinerariesData data))
       (fun error =>
          toast_ (toast_error "Failed to load itineraries") ;;
          console_error "Error fetching itineraries:"))
    (setIsLoading false).

(** [fetchItineraries] cut at its [await], as [fetchExperiences] is. *)
Definition list_request (w : World) : request :=
  itinerariesAPI.getAll_request (API_BASE_URL (REACT_APP_API_URL (browser w))) None.

Definition fetchItineraries_called (w : World) : World :=
  issue (list_request w) (run (setIsLoading true) w).

Definition fetchItineraries_resumed (data : AppData) (o : fetch_outcome) : M unit :=
  finally
    (try_catch
       (response ← (fun w => (r ← settle (list_request w) o; lift (handleResponse r)) w);
        d ← lift (get response "data");
        let itinerariesData := or_else d response in
        setItineraries itinerariesData ;;
        handleUpdateData (with_itineraries itinerariesData data))
       (fun error =>
          toast_ (toast_error "Failed to load itineraries") ;;
          console_error "Error fetching itineraries:"))
    (setIsLoading false).

Definition handleDelete (data : AppData) (confirmed : bool) (id : string) : M unit :=
  if confirmed then
    try_catch
      (itinerariesAPI.delete id ;;
       fetchItineraries data ;;
       toast_ (toast_success "Itinerary deleted successfully"))
      (fun error =>
         toast_ (toast_error "Failed to delete itinerary") ;;
         console_error "Error deleting itinerary:")
  else mret tt.

End ItineraryManager.

(** ** ImageManager.tsx *)

Module ImageManager.

Definition setImages (v : jsval) : M unit := modify (with_imageManager (set_items v)).
Definition setIsLoading (b : bool) : M unit := modify (with_imageManager (set_busy b)).

(** [img.id !== id] *)
Definition id_differs (id : string) (img : jsval) : outcome bool :=
  match get img "id" with
  | Throw e => Throw e
  | Ok (Some (JStr s)) => Ok (negb (String.eqb s id))
  | Ok _ => Ok true
  end.

Fixpoint filter_out (id : string) (imgs : list jsval) : outcome (list jsval) :=
  match imgs with
  | [] => Ok []
  | img :: rest =>
      match id_differs id img with
      | Throw e => Throw e
      | Ok keep =>
          match filter_out id rest with
          | Throw e => Throw e
          | Ok rest' => Ok (if keep then img :: rest' else rest')
          end
      end
  end.

(** [images.filter(img => img.id !== id)] *)
Definition images_filter (images : jsval) (id : string) : outcome jsval :=
  match images with
  | JArr imgs =>
      match filter_out id imgs with
      | Ok l => Ok (JArr l)
      | Throw e => Throw e
      end
  | JNull => Throw (TypeError "Cannot read properties of null (reading 'filter')")
  | _ => Throw (TypeError "images.filter is not a function")
  end.

Definition handleDelete (data : AppData) (confirmed : bool) (id : string) : M unit :=
  if confirmed then
    setIsLoading true ;;
    finally
      (try_catch
         (imagesAPI.delete id ;;
          images ← (fun w => (Ok (items (imageManager w)), w));
          newImages ← lift (images_filter images id);
          setImages newImages ;;
          handleUpdateData (with_images newImages data) ;;
          toast_ (toast_success "Image deleted successfully"))
         (fun error =>
            toast_ (toast_error "Failed to delete image") ;;
            console_error "Error deleting image:"))
      (setIsLoading false)
  else mret tt.

Definition fetchImages (data : AppData) : M unit :=
  setIsLoading true ;;
  finally
    (try_catch
       (response ← imagesAPI.getAll None;
        d ← lift (get response "data");
        let imageData := or_else (Some (or_else d response)) (JArr []) in
        setImages imageData ;;
        handleUpdateData (with_images imageData data))
       (fun error =>
          toast_ (toast_error "Failed to load images") ;;
          console_error "Error fetching images:" ;;
          setImages (JArr [])))
    (setIsLoading false).

(** [fetchImages] cut at its [await]. *)
Definition list_request (w : World) : request :=
  imagesAPI.getAll_request (API_BASE_URL (REACT_APP_API_URL (browser w))) None.

Definition fetchImages_called (w : World) : World :=
  issue (list_request w) (run (setIsLoading true) w).

Definition fetchImages_resumed (data : AppData) (o : fetch_outcome) : M unit :=
  finally
    (try_catch
       (response ← (fun w => (r ← settle (list_request w) o; lift (handleResponse r)) w);
        d ← lift (get response "data");
        let imageData := or_else (Some (or_else d response)) (JArr []) in
        setImages imageData ;;
        handleUpdateData (with_images imageData data))
       (fun error =>
          toast_ (toast_error "Failed to load images") ;;
          console_error "Error fetching images:" ;;
          setImages (JArr [])))
    (setIsLoading false).

End ImageManager.

(** ** figma/ImageWithFallback.tsx *)

Module ImageWithFallback.

Record Props : Type := {
  src : string;
  fallbackSrc_prop : option string
}.

(** The destructuring default [fallbackSrc = '/api/placeholder/400/300']. *)
Definition fallbackSrc (p : Props) : string :=
  default "/api/placeholder/400/300" (fallbackSrc_prop p).

Record State : Type := {
  imgSrc : string;
  hasError : bool
}.

Definition initial (p : Props) : State := {| imgSrc := src p; hasError := false |}.

Definition handleError (p : Props) (s : State) : State :=
  if negb (hasError s) && negb (String.eqb (fallbackSrc p) "")
     && negb (String.eqb (imgSrc s) (fallbackSrc p))
  then {| imgSrc := fallbackSrc p; hasError := true |}
  else s.

Definition handleLoad (p : Props) (s : State) : State :=
  {| imgSrc := imgSrc s; hasError := false |}.

Inductive event : Type := onError | onLoad.

Definition handle (p : Props) (s : State) (e : event) : State :=
  match e with
  | onError => handleError p s
  | onLoad => handleLoad p s
  end.

(** The changes of the displayed source, as pairs (before, after), while the
    events of [evs] arrive one after the other from state [s]. *)
Fixpoint changes (p : Props) (s : State) (evs : list event) : list (string * string) :=
  match evs with
  | [] => []
  | e :: rest =>
      let s' := handle p s e in
      if String.eqb (imgSrc s') (imgSrc s) then changes p s' rest
      else (imgSrc s, imgSrc s') :: changes p s' rest
  end.

End ImageWithFallback.


(** ** A JSON reader

    [App]'s mount effect is stated over any [JSON.parse]; the examples run it
    with this reader of the JSON texts that have integer numbers and no
    [\u] escape. *)

Definition is_ws (c : ascii) : bool :=
  let n := N_of_ascii c in ((n =? 32) || (n =? 9) || (n =? 10) || (n =? 13))%N.

Fixpoint skip_ws (s : string) : string :=
  match s with
  | String c rest => if is_ws c then skip_ws rest else s
  | EmptyString => s
  end.

Definition digit_of (c : ascii) : option Z :=
  let n := N_of_ascii c in
  if ((48 <=? n) && (n <=? 57))%N then Some (Z.of_N (n - 48)) else None.

Fixpoint read_digits (s : string) (acc : Z) : Z * string :=
  match s with
  | String c rest =>
      match digit_of c with
      | Some d => read_digits rest (10 * acc + d)
      | None => (acc, s)
      end
  | EmptyString => (acc, s)
  end.

(** An integer literal: no leading zero, no fraction, no exponent. *)
Definition read_int (s : string) : option (Z * string) :=
  match s with
  | String c rest =>
      match digit_of c with
      | Some 0 =>
          match rest with
          | String c' _ =>
              if match digit_of c' with Some _ => true | None => false end || Ascii.eqb c' "."
                 || Ascii.eqb c' "e" || Ascii.eqb c' "E"
              then None else Some (0, rest)
          | EmptyString => Some (0, rest)
          end
      | Some d =>
          let (n, rest') := read_digits rest d in
          match rest' with
          | String c' _ =>
              if Ascii.eqb c' "." || Ascii.eqb c' "e" || Ascii.eqb c' "E"
              then None else Some (n, rest')
          | EmptyString => Some (n, rest')
          end
      | None => None
      end
  | EmptyString => None
  end.

Definition unescape (c : ascii) : option ascii :=
  if Ascii.eqb c dquote then Some dquote
  else if Ascii.eqb c backslash then Some backslash
  else if Ascii.eqb c "/" then Some "/"%char
  else if Ascii.eqb c "b" then Some "008"%char
  else if Ascii.eqb c "f" then Some "012"%char
  else if Ascii.eqb c "n" then Some "010"%char
  else if Ascii.eqb c "r" then Some "013"%char
  else if Ascii.eqb c "t" then Some "009"%char
  else None.

(** The characters of a string literal after its opening quote. *)
Fixpoint read_chars (s : string) : option (string * string) :=
  match s with
  | EmptyString => None
  | String c rest =>
      if Ascii.eqb c dquote then Some ("", rest)
      else if Ascii.eqb c backslash then
        match rest with
        | String e rest' =>
            match unescape e, read_chars rest' with
            | Some ch, Some (str, after) => Some (String ch str, after)
            | _, _ => None
            end
        | EmptyString => None
        end
      else if (N_of_ascii c <? 32)%N then None
      else
        match read_chars rest with
        | Some (str, after) => Some (String c str, after)
        | None => None
        end
  end.

Fixpoint expect (word s : string) : option string :=
  match word, s with
  | EmptyString, _ => Some s
  | String a word', String b s' => if Ascii.eqb a b then expect word' s' else None
  | _, _ => None
  end.

Fixpoint read_value (fuel : nat) (s : string) : option (jsval * string) :=
  match fuel with
  | O => None
  | S fuel =>
      match skip_ws s with
      | EmptyString => None
      | String c rest =>
          if Ascii.eqb c "n" then option_map (pair JNull) (expect "ull" rest)
          else if Ascii.eqb c "t" then option_map (pair (JBool true)) (expect "rue" rest)
          else if Ascii.eqb c "f" then option_map (pair (JBool false)) (expect "alse" rest)
          else if Ascii.eqb c dquote then
            match read_chars rest with
            | Some (str, after) => Some (JStr str, after)
            | None => None
            end
          else if Ascii.eqb c "[" then
            match skip_ws rest with
            | String "]" after => Some (JArr [], after)
            | _ =>
                match read_elements fuel rest with
                | Some (xs, after) => Some (JArr xs, after)
                | None => None
                end
            end
          else if Ascii.eqb c "{" then
            match skip_ws rest with
            | String "}" after => Some (JObj [], after)
            | _ =>
                match read_members fuel rest with
                | Some (fields, after) => Some (JObj fields, after)
                | None => None
                end
            end
          else if Ascii.eqb c "-" then
            match read_int rest with
            | Some (n, after) => Some (JNum (- n), after)
            | None => None
            end
          else
            match read_int (String c rest) with
            | Some (n, after) => Some (JNum n, after)
            | None => None
            end
      end
  end
with read_elements (fuel : nat) (s : string) : option (list jsval * string) :=
  match fuel with
  | O => None
  | S fuel =>
      match read_value fuel s with
      | Some (v, after) =>
          match skip_ws after with
          | String "]" after' => Some ([v], after')
          | String "," after' =>
              match read_elements fuel after' with
              | Some (vs, rest) => Some (v :: vs, rest)
              | None => None
              end
          | _ => None
          end
      | None => None
      end
  end
with read_members (fuel : nat) (s : string) : option (list (string * jsval) * string) :=
  match fuel with
  | O => None
  | S fuel =>
      match skip_ws s with
      | String c rest =>
          if Ascii.eqb c dquote then
            match read_chars rest with
            | Some (k, after) =>
                match skip_ws after with
                | String ":" after' =>
                    match read_value fuel after' with
                    | Some (v, after'') =>
                        match skip_ws after'' with
                        | String "}" rest' => Some ([(k, v)], rest')
                        | String "," rest' =>
                            match read_members fuel rest' with
                            | Some (kvs, rest'') => Some ((k, v) :: kvs, rest'')
                            | None => None
                            end
                        | _ => None
                        end
                    | None => None
                    end
                | _ => None
                end
            | None => None
            end
          else None
      | EmptyString => None
      end
  end.

Definition read_json (text : string) : outcome jsval :=
  match read_value (2 * String.length text + 2) text with
  | Some (v, rest) =>
      match skip_ws rest with
      | EmptyString => Ok v
      | _ => Throw (SyntaxError "Unexpected non-whitespace character after JSON")
      end
  | None => Throw (SyntaxError "Unexpected token or end of JSON input")
  end.

(** ** Starting states *)

Definition fresh_browser : Browser :=
  {| REACT_APP_API_URL := None; localStorage := ∅; pending := []; sent := [];
     net := []; toasts := []; console := []; reloads := 0 |}.

(** A manager mounted on the collection [v] ([useState(data.x || [])]). *)
Definition mounted (v : jsval) : ManagerState := {| items := v; busy := false |}.

Definition fresh : World :=
  {| browser := fresh_browser; app := App_initial;
     experienceManager := mounted (JArr []);
     itineraryManager := mounted (JArr []);
     imageManager := mounted (JArr []) |}.

(** [fresh] with a stored API token and a network script. *)
Definition online (token : string) (answers : list fetch_outcome) : World :=
  with_browser
    (fun b => set_traffic [] [] answers (set_localStorage {["authToken" := token]} b))
    fresh.

(** A 2xx answer carrying the JSON value [v]. *)
Definition ok200 (v : jsval) : fetch_outcome :=
  Responded {| status := 200; json := Ok v |}.

(** The answer the network gives to the next request. *)
Definition upcoming (w : World) : fetch_outcome :=
  match net (browser w) with
  | [] => NetworkFailure
  | o :: _ => o
  end.

(** The world once [req] has been sent and answered. *)
Definition exchanged (req : request) (w : World) : World :=
  with_browser
    (fun b => set_traffic (remove_first req (pending b ++ [req])) (sent b ++ [req])
                          (tail (net b)) b)
    w.

(** What an API method's promise settles to for a given network answer. *)
Definition answer (o : fetch_outcome) : outcome jsval :=
  match o with
  | NetworkFailure => Throw (TypeError "Failed to fetch")
  | Responded r => handleResponse r
  end.

(** How one of the four list calls of the bulk fetch ended: it failed, or it
    answered a [{data: [...]}] envelope. *)
Inductive fetched : Type :=
| Failed (e : exn)
| Listed (fields : list (string * jsval)) (xs : list jsval).

Definition agrees (o : fetch_outcome) (f : fetched) : Prop :=
  match f with
  | Failed e => answer o = Throw e
  | Listed fields xs => answer o = Ok (JObj fields) /\ assoc "data" fields = Some (JArr xs)
  end.

Definition landed (f : fetched) : jsval :=
  match f with
  | Failed _ => JArr []
  | Listed _ xs => JArr xs
  end.

(** The reading of C8: an [{error: string}] body gives its string, any
    other body the generic message. *)
Definition C8_as_stated (r : Response) : outcome jsval :=
  match json r with
  | Ok (JObj fields) =>
      match assoc "error" fields with
      | Some (JStr s) => Throw (Error s)
      | _ => Throw (Error "Network error")
      end
  | _ => Throw (Error "Network error")
  end.

(** Either envelope of the same item sequence. *)
Inductive carries (xs : list jsval) : jsval -> Prop :=
| carries_bare : carries xs (JArr xs)
| carries_wrapped fields : assoc "data" fields = Some (JArr xs) -> carries xs (JObj fields).

(** The world [handleLogout] leaves. *)
Definition logged_out (w : World) : World :=
  with_browser (add_toast (toast_success "Logged out successfully"))
    (with_app (fun a => set_connectionError false (set_data no_data (set_user JNull a)))
       (with_browser
          (fun b => set_localStorage
                      (delete "authToken"
                         (delete "authToken" (delete "token" (delete "user" (localStorage b))))) b)
          w)).

(** *** Scenarios *)

Definition item (id : string) : jsval := JObj [("id", JStr id)].

Definition enveloped (xs : list jsval) : jsval := JObj [("data", JArr xs)].

(** The image manager shows [a] and [b]; the server will confirm a delete
    and, asked for the list afterwards, would answer [b] and [c]. *)
Definition images_before_delete : World :=
  with_imageManager (set_items (JArr [item "a"; item "b"]))
    (online "t1" [ ok200 (JObj [("success", JBool true)]);
                   ok200 (enveloped [item "b"; item "c"]) ]).

(** A manager holding one item while the server is unreachable. *)
Definition images_cached : World :=
  with_imageManager (set_items (JArr [item "a"])) (online "t1" [NetworkFailure]).

Definition experiences_cached : World :=
  with_experienceManager (set_items (JArr [item "e1"])) (online "t1" [NetworkFailure]).

(** The bulk fetch with the experiences request failing and the other three
    answered. *)
Definition scenario_B : World :=
  online "t1" [ NetworkFailure;
                ok200 (enveloped [item "i1"]);
                ok200 (enveloped [item "g1"]);
                ok200 (enveloped [item "u1"]) ].

(** A user logged in and the server unreachable: every request fails. *)
Definition server_unreachable : World :=
  with_app (set_user (JObj [("name", JStr "A"); ("role", JStr "admin")])) (online "t1" []).

(** The bulk fetch with the experiences list answered as a bare array. *)
Definition bare_answers : World :=
  online "t1" [ ok200 (JArr [item "e1"]);
                ok200 (enveloped [item "i1"]);
                ok200 (enveloped [item "g1"]);
                ok200 (enveloped [item "u1"]) ].

Definition enveloped_answers : World :=
  online "t1" [ ok200 (enveloped [item "e1"]);
                ok200 (enveloped [item "i1"]);
                ok200 (enveloped [item "g1"]);
                ok200 (enveloped [item "u1"]) ].

(** A token in storage beside a user record that is the empty string. *)
Definition empty_user_record : World :=
  with_browser
    (set_localStorage {["token" := "t1"; "authToken" := "t1"; "user" := ""]})
    fresh.

(** A stored session whose user record was written as [String(object)]. *)
Definition corrupt_session : World :=
  with_browser
    (set_localStorage {["token" := "t1"; "authToken" := "t1"; "user" := "[object Object]"]})
    fresh.

(** ** More of the platform: template literals, [trim], [split] *)

(** [`${v}`] for the result of a property read. *)
Definition template (v : option jsval) : string :=
  match v with
  | Some v => ToString v
  | None => "undefined"
  end.

(** The one-byte white space and line terminators. *)
Definition is_space_byte (c : ascii) : bool :=
  let n := N_of_ascii c in ((9 <=? n) && (n <=? 13) || (n =? 32))%N.

(** The rest of [s] when it starts with a white-space or line-terminator
    code point: the one-byte ones, U+00A0, U+1680, U+2000 to U+200A,
    U+2028, U+2029, U+202F, U+205F, U+3000 and U+FEFF. *)
Definition drop_space (s : string) : option string :=
  match s with
  | EmptyString => None
  | String c rest =>
      if is_space_byte c then Some rest
      else
        match rest with
        | String c1 rest1 =>
            let n := N_of_ascii c in
            let n1 := N_of_ascii c1 in
            if ((n =? 194) && (n1 =? 160))%N then Some rest1
            else
              match rest1 with
              | String c2 rest2 =>
                  let n2 := N_of_ascii c2 in
                  if ((n =? 225) && (n1 =? 154) && (n2 =? 128)
                      || (n =? 226) && (n1 =? 128)
                         && ((128 <=? n2) && (n2 <=? 138) || (n2 =? 168) || (n2 =? 169) || (n2 =? 175))
                      || (n =? 226) && (n1 =? 129) && (n2 =? 159)
                      || (n =? 227) && (n1 =? 128) && (n2 =? 128)
                      || (n =? 239) && (n1 =? 187) && (n2 =? 191))%N
                  then Some rest2 else None
              | EmptyString => None
              end
        | EmptyString => None
        end
  end.

Fixpoint trimStart_upto (fuel : nat) (s : string) : string :=
  match fuel with
  | O => s
  | S fuel =>
      match drop_space s with
      | Some rest => trimStart_upto fuel rest
      | None => s
      end
  end.

Definition trimStart (s : string) : string := trimStart_upto (String.length s) s.

Fixpoint string_rev_onto (s acc : string) : string :=
  match s with
  | EmptyString => acc
  | String c rest => string_rev_onto rest (String c acc)
  end.

Definition string_rev (s : string) : string := string_rev_onto s "".

(** [drop_space] read from the end: [s] is the string reversed. *)
Definition drop_space_rev (s : string) : option string :=
  match s with
  | EmptyString => None
  | String c rest =>
      if is_space_byte c then Some rest
      else
        match rest with
        | String c1 rest1 =>
            match drop_space (String c1 (String c "")) with
            | Some EmptyString => Some rest1
            | _ =>
                match rest1 with
                | String c2 rest2 =>
                    match drop_space (String c2 (String c1 (String c ""))) with
                    | Some EmptyString => Some rest2
                    | _ => None
                    end
                | EmptyString => None
                end
            end
        | EmptyString => None
        end
  end.

Fixpoint trimEnd_upto (fuel : nat) (reversed : string) : string :=
  match fuel with
  | O => reversed
  | S fuel =>
      match drop_space_rev reversed with
      | Some rest => trimEnd_upto fuel rest
      | None => reversed
      end
  end.

Definition trimEnd (s : string) : string :=
  string_rev (trimEnd_upto (String.length s) (string_rev s)).

(** [s.trim()] *)
Definition trim (s : string) : string := trimEnd (trimStart s).

(** [s.trim()] as a condition. *)
Definition blank (s : string) : bool := String.eqb (trim s) "".

Definition newline : ascii := "010"%char.

(** [s.split('\n')] *)
Fixpoint split_lines (s : string) : list string :=
  match s with
  | EmptyString => [""]
  | String c rest =>
      if Ascii.eqb c newline then "" :: split_lines rest
      else
        match split_lines rest with
        | line :: lines => String c line :: lines
        | [] => [String c ""]
        end
  end.

(** [lines.filter(l => l.trim())] *)
Definition nonblank_lines (lines : list string) : list string :=
  List.filter (fun l => negb (blank l)) lines.

(** ** App.tsx: [handleLogin] *)

(** [token] is what [LoginPage] read off the response; [setItem] stores its
    string form. *)
Definition handleLogin (userData token : jsval) : M unit :=
  try_catch
    (setItem "user" (JSON_stringify userData) ;;
     setItem "token" (ToString token) ;;
     setItem "authToken" (ToString token) ;;
     setUser userData ;;
     fetchAllData ;;
     name ← lift (get userData "name");
     toast_ (toast_success ("Welcome back, " +:+ template name +:+ "!")))
    (fun error =>
       console_error "Login error:" ;;
       toast_ (toast_error "Login successful but failed to load data")).

(** [error.message] *)
Definition exn_message (e : exn) : string :=
  match e with
  | Error m | TypeError m | SyntaxError m => m
  end.

(** ** LoginPage.tsx *)

Module LoginPage.

Record State : Type := {
  email : string;
  password : string;
  error : string;
  loading : bool
}.

Definition initial : State :=
  {| email := ""; password := ""; error := ""; loading := false |}.

Definition setEmail (v : string) (s : State) : State :=
  {| email := v; password := password s; error := error s; loading := loading s |}.

Definition setPassword (v : string) (s : State) : State :=
  {| email := email s; password := v; error := error s; loading := loading s |}.

Definition setError (v : string) (s : State) : State :=
  {| email := email s; password := password s; error := v; loading := loading s |}.

Definition setLoading (b : bool) (s : State) : State :=
  {| email := email s; password := password s; error := error s; loading := b |}.

(** The form's submit handler; [onLogin] is the prop [App] fills with its
    [handleLogin], whose promise is not awaited. *)
Definition handleSubmit (onLogin : jsval -> jsval -> M unit) (s : State) : M State :=
  let s := setLoading true (setError "" s) in
  if String.eqb (email s) "" || String.eqb (password s) "" then
    mret (setLoading false (setError "Please enter both email and password" s))
  else
    s' ← try_catch
           (response ← authAPI.login (email s) (password s);
            user ← lift (get response "user");
            token ← lift (get response "token");
            match user, token with
            | Some u, Some t =>
                if truthy u && truthy t then detached (onLogin u t) ;; mret s
                else mret (setError "Invalid email or password" s)
            | _, _ => mret (setError "Invalid email or password" s)
            end)
           (fun error =>
              mret (setPassword ""
                      (setError (if String.eqb (exn_message error) "" then "Login failed"
                                 else exn_message error) s)));
    mret (setLoading false s').

End LoginPage.

(** ** The managers' forms: what they share *)

(** A [File] picked in a file input. *)
Record FileObj : Type := {
  file_name : string;
  file_size : N;
  file_type : string
}.

Fixpoint contains (needle s : string) : bool :=
  match s with
  | EmptyString => String.eqb needle ""
  | String _ rest => String.prefix needle s || contains needle rest
  end.

Definition lower (c : ascii) : ascii :=
  let n := N_of_ascii c in
  if ((65 <=? n) && (n <=? 90))%N then ascii_of_N (n + 32) else c.

Fixpoint lowercase (s : string) : string :=
  match s with
  | EmptyString => ""
  | String c rest => String (lower c) (lowercase rest)
  end.

(** No line terminator in [s]: what a run of dots can match. *)
Fixpoint one_line (s : string) : bool :=
  match s with
  | EmptyString => true
  | String c rest =>
      let n := N_of_ascii c in
      if ((n =? 10) || (n =? 13))%N then false
      else if String.prefix (String "226" (String "128" (String "168" ""))) s
              || String.prefix (String "226" (String "128" (String "169" ""))) s
      then false
      else one_line rest
  end.

(** The optional query of the extension test: the end of [s], or a
    question mark and one line up to the end. *)
Definition query_to_end (s : string) : bool :=
  match s with
  | EmptyString => true
  | String c rest => Ascii.eqb c "?" && one_line rest
  end.

(** One of the seven image extensions, ignoring case, then the optional
    query, at [s]. *)
Definition extension_to_end (s : string) : bool :=
  existsb
    (fun ext =>
       String.prefix ext (lowercase s)
       && query_to_end (String.substring (String.length ext) (String.length s) s))
    ["jpg"; "jpeg"; "png"; "gif"; "webp"; "bmp"; "svg"].

(** The first test of the URL check: a dot, an image extension and the
    optional query somewhere in [s], anchored at its end. *)
Fixpoint has_image_extension (s : string) : bool :=
  match s with
  | EmptyString => false
  | String c rest =>
      Ascii.eqb c "." && extension_to_end rest || has_image_extension rest
  end.

(** The second test: one of the five image hosts occurs in [s]. *)
Definition on_image_host (s : string) : bool :=
  existsb (fun host => contains host s)
    ["unsplash.com"; "pexels.com"; "pixabay.com"; "cloudinary.com"; "imgur.com"].

Definition isValidImageUrl (s : string) : bool :=
  has_image_extension s || on_image_host s.

Definition url_warning : string :=
  "Please provide a direct image URL (e.g., ends with .jpg, .png) or use file upload".

(** The 5MB limit of the file inputs. *)
Definition too_large (file : FileObj) : bool := (5 * 1024 * 1024 <? file_size file)%N.

(** ** ExperienceManager.tsx: the dialog *)

Module ExperienceForm.

Record Experience : Type := {
  id : string;
  destination : string;
  region : string;
  title : string;
  description : string;
  highlights : list string;
  imageUrl : option string;
  createdAt : Z
}.

Record FormData_ : Type := {
  f_destination : string;
  f_region : string;
  f_title : string;
  f_description : string;
  f_highlights : string;
  f_imageUrl : string
}.

(** The component's dialog state; [warnings] collects what is handed to
    [toast.warning]. *)
Record UI : Type := {
  isDialogOpen : bool;
  editingExperience : option Experience;
  selectedImage : option FileObj;
  imagePreview : string;
  formData : FormData_;
  warnings : list string
}.

Definition empty_form : FormData_ :=
  {| f_destination := ""; f_region := "North"; f_title := ""; f_description := "";
     f_highlights := ""; f_imageUrl := "" |}.

Definition initial : UI :=
  {| isDialogOpen := false; editingExperience := None; selectedImage := None;
     imagePreview := ""; formData := empty_form; warnings := [] |}.

Definition resetForm (ui : UI) : UI :=
  {| isDialogOpen := isDialogOpen ui; editingExperience := None; selectedImage := None;
     imagePreview := ""; formData := empty_form; warnings := warnings ui |}.

Definition setIsDialogOpen (b : bool) (ui : UI) : UI :=
  {| isDialogOpen := b; editingExperience := editingExperience ui;
     selectedImage := selectedImage ui; imagePreview := imagePreview ui;
     formData := formData ui; warnings := warnings ui |}.

Definition handleAdd (ui : UI) : UI := setIsDialogOpen true (resetForm ui).

Definition handleEdit (experience : Experience) (ui : UI) : UI :=
  {| isDialogOpen := true;
     editingExperience := Some experience;
     selectedImage := selectedImage ui;
     imagePreview := default "" (imageUrl experience);
     formData :=
       {| f_destination := destination experience;
          f_region := region experience;
          f_title := title experience;
          f_description := description experience;
          f_highlights := join (String newline "") (highlights experience);
          f_imageUrl := default "" (imageUrl experience) |};
     warnings := warnings ui |}.

(** [file] is [e.target.files?.[0]]; [dataUrl] is what the [FileReader]
    hands to [onload].  The size error goes to [toast.error]. *)
Definition handleImageSelect (file : option FileObj) (dataUrl : string) (ui : UI) : M UI :=
  match file with
  | None => mret ui
  | Some f =>
      if too_large f then
        toast_ (toast_error "Image size should be less than 5MB") ;; mret ui
      else
        mret {| isDialogOpen := isDialogOpen ui; editingExperience := editingExperience ui;
                selectedImage := Some f; imagePreview := dataUrl;
                formData := formData ui; warnings := warnings ui |}
  end.

Definition handleImageUrlChange (url : string) (ui : UI) : UI :=
  let trimmedUrl := trim url in
  let warn :=
    negb (String.eqb trimmedUrl "") && negb (isValidImageUrl trimmedUrl)
    && (0 <? String.length trimmedUrl)%nat in
  {| isDialogOpen := isDialogOpen ui; editingExperience := editingExperience ui;
     selectedImage := None; imagePreview := trimmedUrl;
     formData :=
       {| f_destination := f_destination (formData ui);
          f_region := f_region (formData ui);
          f_title := f_title (formData ui);
          f_description := f_description (formData ui);
          f_highlights := f_highlights (formData ui);
          f_imageUrl := trimmedUrl |};
     warnings := if warn then (warnings ui ++ [url_warning])%list else warnings ui |}.

Definition removeImage (ui : UI) : UI :=
  {| isDialogOpen := isDialogOpen ui; editingExperience := editingExperience ui;
     selectedImage := None; imagePreview := "";
     formData :=
       {| f_destination := f_destination (formData ui);
          f_region := f_region (formData ui);
          f_title := f_title (formData ui);
          f_description := f_description (formData ui);
          f_highlights := f_highlights (formData ui);
          f_imageUrl := "" |};
     warnings := warnings ui |}.

(** [formData.highlights.split('\n').filter(h => h.trim())] *)
Definition highlights_of (ui : UI) : list string :=
  nonblank_lines (split_lines (f_highlights (formData ui))).

(** What [handleSubmit] hands to the API: the [FormData] when a file is
    selected, the JSON object with [imageUrl] otherwise. *)
Definition experienceData (ui : UI) : payload :=
  let highlights := highlights_of ui in
  match selectedImage ui with
  | Some file =>
      Multipart
        [ ("image", File (file_name file) (file_size file));
          ("destination", Text (f_destination (formData ui)));
          ("region", Text (f_region (formData ui)));
          ("title", Text (f_title (formData ui)));
          ("description", Text (f_description (formData ui)));
          ("highlights", Text (JSON_stringify (JArr (List.map JStr highlights)))) ]
  | None =>
      Plain (JObj
        [ ("destination", JStr (f_destination (formData ui)));
          ("region", JStr (f_region (formData ui)));
          ("title", JStr (f_title (formData ui)));
          ("description", JStr (f_description (formData ui)));
          ("highlights", JArr (List.map JStr highlights));
          ("imageUrl", JStr (f_imageUrl (formData ui))) ])
  end.

Definition handleSubmit (data : AppData) (ui : UI) : M UI :=
  ExperienceManager.setIsLoading true ;;
  finally
    (try_catch
       (let experienceData := experienceData ui in
        match editingExperience ui with
        | Some editing =>
            experiencesAPI.update (id editing) experienceData ;;
            toast_ (toast_success "Experience updated successfully")
        | None =>
            experiencesAPI.create experienceData ;;
            toast_ (toast_success "Experience added successfully")
        end ;;
        ExperienceManager.fetchExperiences data ;;
        mret (resetForm (setIsDialogOpen false ui)))
       (fun error =>
          console_error "Error saving experience:" ;;
          toast_ (toast_error
                    ("Failed to "
                     +:+ match editingExperience ui with Some _ => "update" | None => "add" end
                     +:+ " experience")) ;;
          mret ui))
    (ExperienceManager.setIsLoading false).

End ExperienceForm.

(** ** ItineraryManager.tsx: the dialog *)

Module ItineraryForm.

Record Day : Type := {
  day : Z;
  activities : list string
}.

Record Itinerary : Type := {
  id : string;
  destination : string;
  region : string;
  title : string;
  duration : string;
  description : option string;
  days : list Day;
  imageUrl : option string;
  createdAt : Z
}.

Record FormData_ : Type := {
  f_destination : string;
  f_region : string;
  f_title : string;
  f_duration : string;
  f_daysData : string;
  f_imageUrl : string
}.

Record UI : Type := {
  isDialogOpen : bool;
  editingItinerary : option Itinerary;
  selectedImage : option FileObj;
  imagePreview : string;
  formData : FormData_;
  warnings : list string
}.

Definition empty_form : FormData_ :=
  {| f_destination := ""; f_region := "North"; f_title := ""; f_duration := "";
     f_daysData := ""; f_imageUrl := "" |}.

Definition initial : UI :=
  {| isDialogOpen := false; editingItinerary := None; selectedImage := None;
     imagePreview := ""; formData := empty_form; warnings := [] |}.

Definition resetForm (ui : UI) : UI :=
  {| isDialogOpen := isDialogOpen ui; editingItinerary := None; selectedImage := None;
     imagePreview := ""; formData := empty_form; warnings := warnings ui |}.

Definition setIsDialogOpen (b : bool) (ui : UI) : UI :=
  {| isDialogOpen := b; editingItinerary := editingItinerary ui;
     selectedImage := selectedImage ui; imagePreview := imagePreview ui;
     formData := formData ui; warnings := warnings ui |}.

Definition handleAdd (ui : UI) : UI := setIsDialogOpen true (resetForm ui).

(** [`Day ${day.day}:\n${day.activities.join('\n')}`] *)
Definition day_text (d : Day) : string :=
  "Day " +:+ Z_toString (day d) +:+ ":" +:+ String newline ""
  +:+ join (String newline "") (activities d).

(** The text [handleEdit] puts in the days field. *)
Definition daysData_of (ds : list Day) : string :=
  join (String newline (String newline "")) (List.map day_text ds).

Definition handleEdit (itinerary : Itinerary) (ui : UI) : UI :=
  {| isDialogOpen := true;
     editingItinerary := Some itinerary;
     selectedImage := selectedImage ui;
     imagePreview := default "" (imageUrl itinerary);
     formData :=
       {| f_destination := destination itinerary;
          f_region := region itinerary;
          f_title := title itinerary;
          f_duration := duration itinerary;
          f_daysData := daysData_of (days itinerary);
          f_imageUrl := default "" (imageUrl itinerary) |};
     warnings := warnings ui |}.

Definition handleImageSelect (file : option FileObj) (dataUrl : string) (ui : UI) : M UI :=
  match file with
  | None => mret ui
  | Some f =>
      if too_large f then
        toast_ (toast_error "Image size should be less than 5MB") ;; mret ui
      else
        mret {| isDialogOpen := isDialogOpen ui; editingItinerary := editingItinerary ui;
                selectedImage := Some f; imagePreview := dataUrl;
                formData := formData ui; warnings := warnings ui |}
  end.

Definition handleImageUrlChange (url : string) (ui : UI) : UI :=
  let trimmedUrl := trim url in
  let warn :=
    negb (String.eqb trimmedUrl "") && negb (isValidImageUrl trimmedUrl)
    && (0 <? String.length trimmedUrl)%nat in
  {| isDialogOpen := isDialogOpen ui; editingItinerary := editingItinerary ui;
     selectedImage := None; imagePreview := trimmedUrl;
     formData :=
       {| f_destination := f_destination (formData ui);
          f_region := f_region (formData ui);
          f_title := f_title (formData ui);
          f_duration := f_duration (formData ui);
          f_daysData := f_daysData (formData ui);
          f_imageUrl := trimmedUrl |};
     warnings := if warn then (warnings ui ++ [url_warning])%list else warnings ui |}.

Definition removeImage (ui : UI) : UI :=
  {| isDialogOpen := isDialogOpen ui; editingItinerary := editingItinerary ui;
     selectedImage := None; imagePreview := "";
     formData :=
       {| f_destination := f_destination (formData ui);
          f_region := f_region (formData ui);
          f_title := f_title (formData ui);
          f_duration := f_duration (formData ui);
          f_daysData := f_daysData (formData ui);
          f_imageUrl := "" |};
     warnings := warnings ui |}.

Definition is_digit (c : ascii) : bool :=
  let n := N_of_ascii c in ((48 <=? n) && (n <=? 57))%N.

Fixpoint count_digits (s : string) : nat :=
  match s with
  | String c rest => if is_digit c then S (count_digits rest) else O
  | EmptyString => O
  end.

(** The length of the match of the day marker (the word Day in any case, a
    space, one or more digits, a colon) at the start of [s]. *)
Definition day_marker (s : string) : option nat :=
  match s with
  | String d (String a (String y (String sp rest))) =>
      if Ascii.eqb (lower d) "d" && Ascii.eqb (lower a) "a" && Ascii.eqb (lower y) "y"
         && Ascii.eqb sp " "
      then
        let k := count_digits rest in
        match k, String.get k rest with
        | S _, Some c => if Ascii.eqb c ":" then Some (4 + k + 1)%nat else None
        | _, _ => None
        end
      else None
  | _ => None
  end.

(** [s.split(marker)]: the pieces between the day markers; [skip] counts
    the characters of a marker still to pass over. *)
Fixpoint split_days (skip : nat) (s : string) : list string :=
  match s with
  | EmptyString => [""]
  | String c rest =>
      match skip with
      | S k => split_days k rest
      | O =>
          match day_marker s with
          | Some n => "" :: split_days (Nat.pred n) rest
          | None =>
              match split_days O rest with
              | piece :: pieces => String c piece :: pieces
              | [] => [String c ""]
              end
          end
      end
  end.

Fixpoint number_from (n : Z) (blocks : list string) : list Day :=
  match blocks with
  | [] => []
  | block :: rest =>
      {| day := n; activities := nonblank_lines (split_lines (trim block)) |}
      :: number_from (n + 1) rest
  end.

(** The days [handleSubmit] reads off the days field. *)
Definition days_of (daysData : string) : list Day :=
  let dayBlocks := nonblank_lines (split_days O daysData) in
  number_from 1 dayBlocks.

Definition Day_json (d : Day) : jsval :=
  JObj [("day", JNum (day d)); ("activities", JArr (List.map JStr (activities d)))].

Definition itineraryData (ui : UI) : payload :=
  let days := days_of (f_daysData (formData ui)) in
  match selectedImage ui with
  | Some file =>
      Multipart
        [ ("image", File (file_name file) (file_size file));
          ("destination", Text (f_destination (formData ui)));
          ("region", Text (f_region (formData ui)));
          ("title", Text (f_title (formData ui)));
          ("duration", Text (f_duration (formData ui)));
          ("days", Text (JSON_stringify (JArr (List.map Day_json days)))) ]
  | None =>
      Plain (JObj
        [ ("destination", JStr (f_destination (formData ui)));
          ("region", JStr (f_region (formData ui)));
          ("title", JStr (f_title (formData ui)));
          ("duration", JStr (f_duration (formData ui)));
          ("days", JArr (List.map Day_json days));
          ("imageUrl", JStr (f_imageUrl (formData ui))) ])
  end.

Definition handleSubmit (data : AppData) (ui : UI) : M UI :=
  ItineraryManager.setIsLoading true ;;
  finally
    (try_catch
       (let itineraryData := itineraryData ui in
        match editingItinerary ui with
        | Some editing =>
            itinerariesAPI.update (id editing) itineraryData ;;
            toast_ (toast_success "Itinerary updated successfully")
        | None =>
            itinerariesAPI.create itineraryData ;;
            toast_ (toast_success "Itinerary added successfully")
        end ;;
        ItineraryManager.fetchItineraries data ;;
        mret (resetForm (setIsDialogOpen false ui)))
       (fun error =>
          console_error "Error saving itinerary:" ;;
          toast_ (toast_error
                    ("Failed to "
                     +:+ match editingItinerary ui with Some _ => "update" | None => "add" end
                     +:+ " itinerary")) ;;
          mret ui))
    (ItineraryManager.setIsLoading false).

End ItineraryForm.

(** ** ImageManager.tsx: the dialog, the upload, the orientation filter *)

Definition console_log (line : string) : M unit := modify (with_browser (add_console line)).

(** [fetch] seen from its caller: the response, or the rejection. *)
Definition fetched_response (o : fetch_outcome) : outcome Response :=
  match o with
  | NetworkFailure => Throw (TypeError "Failed to fetch")
  | Responded r => Ok r
  end.

(** [fetch(u, { method, headers, body: formData })] *)
Definition formdata_request (u : string) (m : method) (h : gmap string string)
    (formData : FormData) : request :=
  {| url := u; verb := m; headers := h; body_of := Some (BodyFormData formData) |}.

Module ImageForm.

Record DestinationImage : Type := {
  id : string;
  destination : string;
  region : string;
  url : string;
  caption : string;
  createdAt : Z
}.

Record ImageUploadData : Type := {
  u_destination : string;
  u_region : string;
  u_caption : string;
  u_url : string;
  u_file : option FileObj
}.

Record FormData_ : Type := {
  f_destination : string;
  f_region : string;
  f_url : string;
  f_caption : string
}.

Inductive orientation : Type := landscape | portrait.

#[global] Instance orientation_eq_dec : EqDecision orientation.
Proof. solve_decision. Defined.

Inductive orientation_filter : Type :=
| all
| only (o : orientation).

Record UI : Type := {
  isDialogOpen : bool;
  editingImage : option DestinationImage;
  orientationFilter : orientation_filter;
  imageOrientations : gmap string orientation;
  formData : FormData_;
  uploadedFile : option FileObj;
  uploadProgress : Z;
  warnings : list string
}.

Definition empty_form : FormData_ :=
  {| f_destination := ""; f_region := "North"; f_url := ""; f_caption := "" |}.

Definition initial : UI :=
  {| isDialogOpen := false; editingImage := None; orientationFilter := all;
     imageOrientations := ∅; formData := empty_form; uploadedFile := None;
     uploadProgress := 0; warnings := [] |}.

Definition setIsDialogOpen (b : bool) (ui : UI) : UI :=
  {| isDialogOpen := b; editingImage := editingImage ui;
     orientationFilter := orientationFilter ui; imageOrientations := imageOrientations ui;
     formData := formData ui; uploadedFile := uploadedFile ui;
     uploadProgress := uploadProgress ui; warnings := warnings ui |}.

Definition setFormData (f : FormData_) (ui : UI) : UI :=
  {| isDialogOpen := isDialogOpen ui; editingImage := editingImage ui;
     orientationFilter := orientationFilter ui; imageOrientations := imageOrientations ui;
     formData := f; uploadedFile := uploadedFile ui;
     uploadProgress := uploadProgress ui; warnings := warnings ui |}.

Definition setEditingImage (i : option DestinationImage) (ui : UI) : UI :=
  {| isDialogOpen := isDialogOpen ui; editingImage := i;
     orientationFilter := orientationFilter ui; imageOrientations := imageOrientations ui;
     formData := formData ui; uploadedFile := uploadedFile ui;
     uploadProgress := uploadProgress ui; warnings := warnings ui |}.

Definition setUploadedFile (f : option FileObj) (ui : UI) : UI :=
  {| isDialogOpen := isDialogOpen ui; editingImage := editingImage ui;
     orientationFilter := orientationFilter ui; imageOrientations := imageOrientations ui;
     formData := formData ui; uploadedFile := f;
     uploadProgress := uploadProgress ui; warnings := warnings ui |}.

Definition setUploadProgress (p : Z) (ui : UI) : UI :=
  {| isDialogOpen := isDialogOpen ui; editingImage := editingImage ui;
     orientationFilter := orientationFilter ui; imageOrientations := imageOrientations ui;
     formData := formData ui; uploadedFile := uploadedFile ui;
     uploadProgress := p; warnings := warnings ui |}.

Definition setOrientationFilter (f : orientation_filter) (ui : UI) : UI :=
  {| isDialogOpen := isDialogOpen ui; editingImage := editingImage ui;
     orientationFilter := f; imageOrientations := imageOrientations ui;
     formData := formData ui; uploadedFile := uploadedFile ui;
     uploadProgress := uploadProgress ui; warnings := warnings ui |}.

Definition setImageOrientations (m : gmap string orientation) (ui : UI) : UI :=
  {| isDialogOpen := isDialogOpen ui; editingImage := editingImage ui;
     orientationFilter := orientationFilter ui; imageOrientations := m;
     formData := formData ui; uploadedFile := uploadedFile ui;
     uploadProgress := uploadProgress ui; warnings := warnings ui |}.

Definition add_warning (line : string) (ui : UI) : UI :=
  {| isDialogOpen := isDialogOpen ui; editingImage := editingImage ui;
     orientationFilter := orientationFilter ui; imageOrientations := imageOrientations ui;
     formData := formData ui; uploadedFile := uploadedFile ui;
     uploadProgress := uploadProgress ui; warnings := (warnings ui ++ [line])%list |}.

Definition resetForm (ui : UI) : UI :=
  setUploadedFile None (setEditingImage None (setFormData empty_form ui)).

Definition handleAdd (ui : UI) : UI := setIsDialogOpen true (resetForm ui).

Definition handleEdit (image : DestinationImage) (ui : UI) : UI :=
  setIsDialogOpen true
    (setUploadedFile None
       (setFormData {| f_destination := destination image; f_region := region image;
                       f_url := url image; f_caption := caption image |}
          (setEditingImage (Some image) ui))).

(** [naturalWidth] and [naturalHeight] are those of the image that loaded. *)
Definition handleImageLoad (naturalWidth naturalHeight : Z) (imageId : string) (ui : UI) : UI :=
  let orientation := if naturalHeight <? naturalWidth then landscape else portrait in
  setImageOrientations (<[imageId := orientation]> (imageOrientations ui)) ui.

(** [imageOrientations[image.id] === orientationFilter] for the filter
    [only o]; the key is the string form of [image.id]. *)
Definition shown_as (o : orientation) (m : gmap string orientation) (image : jsval) : outcome bool :=
  match get image "id" with
  | Throw e => Throw e
  | Ok key => Ok (bool_decide (m !! template key = Some o))
  end.

Fixpoint filter_shown (o : orientation) (m : gmap string orientation) (imgs : list jsval)
  : outcome (list jsval) :=
  match imgs with
  | [] => Ok []
  | img :: rest =>
      match shown_as o m img with
      | Throw e => Throw e
      | Ok keep =>
          match filter_shown o m rest with
          | Throw e => Throw e
          | Ok rest' => Ok (if keep then img :: rest' else rest')
          end
      end
  end.

(** [images] is the manager's list. *)
Definition getFilteredImages (images : jsval) (ui : UI) : outcome jsval :=
  match orientationFilter ui with
  | all => Ok images
  | only o =>
      match images with
      | JArr imgs =>
          match filter_shown o (imageOrientations ui) imgs with
          | Ok l => Ok (JArr l)
          | Throw e => Throw e
          end
      | JNull => Throw (TypeError "Cannot read properties of null (reading 'filter')")
      | _ => Throw (TypeError "images.filter is not a function")
      end
  end.

(** [file] is [e.target.files?.[0]], [dataUrl] what the [FileReader] hands
    to [onload]. *)
Definition handleFileChange (file : option FileObj) (dataUrl : string) (ui : UI) : M UI :=
  match file with
  | None => mret ui
  | Some f =>
      if String.prefix "image/" (file_type f) then
        mret (setFormData {| f_destination := f_destination (formData ui);
                             f_region := f_region (formData ui);
                             f_url := dataUrl;
                             f_caption := f_caption (formData ui) |}
                (setUploadedFile (Some f) ui))
      else
        toast_ (toast_error "Please select an image file") ;; mret ui
  end.

(** The [onChange] of the URL input. *)
Definition handleUrlChange (value : string) (ui : UI) : UI :=
  let url := trim value in
  let warn :=
    negb (String.eqb url "") && negb (isValidImageUrl url) && (0 <? String.length url)%nat in
  setFormData {| f_destination := f_destination (formData ui);
                 f_region := f_region (formData ui);
                 f_url := url;
                 f_caption := f_caption (formData ui) |}
    (if warn then add_warning url_warning ui else ui).

(** [`${process.env.REACT_APP_API_URL}/images`]: no default here. *)
Definition images_url (w : World) : string :=
  match REACT_APP_API_URL (browser w) with
  | Some u => u
  | None => "undefined"
  end +:+ "/images".

(** [{ 'Authorization': `Bearer ${localStorage.getItem('authToken')}` }] *)
Definition bearer_headers (w : World) : gmap string string :=
  {["Authorization" :=
      "Bearer " +:+ match localStorage (browser w) !! "authToken" with
                    | Some t => t
                    | None => "null"
                    end]}.

Definition upload_form (imageData : ImageUploadData) : FormData :=
  [ ("destination", Text (u_destination imageData));
    ("region", Text (u_region imageData));
    ("caption", Text (u_caption imageData)) ].

(** The body of a 2xx answer as the two direct calls accept it: an object
    with a truthy [success] and a truthy [data]. *)
Definition accepted_data (result : jsval) : outcome jsval :=
  match get result "success" with
  | Throw e => Throw e
  | Ok success =>
      if truthy_opt success then
        match get result "data" with
        | Throw e => Throw e
        | Ok (Some d) => if truthy d then Ok d else Throw (Error "Invalid response from server")
        | Ok None => Throw (Error "Invalid response from server")
        end
      else Throw (Error "Invalid response from server")
  end.

(** The error thrown for a non-2xx answer, with the two fallbacks of the
    call. *)
Definition refusal (response : Response) (undecoded fallback : string) : outcome unit :=
  let errorData :=
    match json response with
    | Ok v => v
    | Throw _ => JObj [("error", JStr undecoded)]
    end in
  match get errorData "error" with
  | Throw e => Throw e
  | Ok field =>
      match field with
      | Some m => if truthy m then Throw (Error (ToString m)) else Throw (Error fallback)
      | None => Throw (Error fallback)
      end
  end.

Definition handleUploadImage (data : AppData) (imageData : ImageUploadData) (ui : UI) : M UI :=
  ImageManager.setIsLoading true ;;
  finally
    (try_catch
       (formData ←
          match u_file imageData with
          | Some file =>
              console_log "Uploading file to Cloudinary:" ;;
              mret (upload_form imageData ++ [("image", File (file_name file) (file_size file))])%list
          | None =>
              if negb (String.eqb (u_url imageData) "") then
                console_log "Adding image from URL:" ;;
                mret (upload_form imageData ++ [("url", Text (u_url imageData))])%list
              else throw (Error "Please provide an image file or URL")
          end;
        response ← (fun w =>
          fetch (formdata_request (images_url w) POST (bearer_headers w) formData) w);
        (if negb (ok response) then lift (refusal response "Upload failed" "Failed to upload image")
         else mret tt) ;;
        result ← lift (json response);
        console_log "Upload response:" ;;
        createdImage ← lift (accepted_data result);
        created_url ← lift (get createdImage "url");
        (if truthy_opt created_url then mret tt
         else throw (Error "No image URL received from server")) ;;
        console_log "Image created with URL:" ;;
        toast_ (toast_success
                  match u_file imageData with
                  | Some _ => "Image uploaded to Cloudinary successfully!"
                  | None => "Image added successfully!"
                  end) ;;
        ImageManager.fetchImages data)
       (fun error =>
          toast_ (toast_error (exn_message error)) ;;
          console_error "Error uploading image:"))
    (ImageManager.setIsLoading false) ;;
  mret (setUploadProgress 0 ui).

Definition handleSubmit (data : AppData) (ui : UI) : M UI :=
  if match uploadedFile ui with Some _ => false | None => true end
     && String.eqb (f_url (formData ui)) ""
  then
    toast_ (toast_error "Please provide an image URL or upload an image") ;; mret ui
  else
    ui ←
      match editingImage ui with
      | Some editing =>
          finally
            (try_catch
               (ImageManager.setIsLoading true ;;
                formDataToSend ←
                  match uploadedFile ui with
                  | Some file =>
                      console_log "Updating with new file:" ;;
                      mret [ ("destination", Text (f_destination (formData ui)));
                             ("region", Text (f_region (formData ui)));
                             ("caption", Text (f_caption (formData ui)));
                             ("image", File (file_name file) (file_size file)) ]
                  | None =>
                      if negb (String.eqb (f_url (formData ui)) "") then
                        console_log "Updating with URL:" ;;
                        mret [ ("destination", Text (f_destination (formData ui)));
                               ("region", Text (f_region (formData ui)));
                               ("caption", Text (f_caption (formData ui)));
                               ("url", Text (f_url (formData ui))) ]
                      else
                        mret [ ("destination", Text (f_destination (formData ui)));
                               ("region", Text (f_region (formData ui)));
                               ("caption", Text (f_caption (formData ui))) ]
                  end;
                response ← (fun w =>
                  fetch (formdata_request (images_url w +:+ "/" +:+ id editing) PUT
                           (bearer_headers w) formDataToSend) w);
                (if negb (ok response) then lift (refusal response "Update failed" "Failed to update")
                 else mret tt) ;;
                result ← lift (json response);
                console_log "Update response:" ;;
                lift (accepted_data result) ;;
                toast_ (toast_success "Image updated successfully") ;;
                ImageManager.fetchImages data)
               (fun error =>
                  toast_ (toast_error (exn_message error)) ;;
                  console_error "Update error:"))
            (ImageManager.setIsLoading false) ;;
          mret ui
      | None =>
          handleUploadImage data
            {| u_destination := f_destination (formData ui);
               u_region := f_region (formData ui);
               u_caption := f_caption (formData ui);
               u_url := f_url (formData ui);
               u_file := uploadedFile ui |} ui
      end;
    mret (resetForm (setIsDialogOpen false ui)).

End ImageForm.

(** ** Vocabulary of the further properties *)

(** What a guarded list call of the bulk fetch hands on: the resolved value,
    or the empty envelope of its [catch]. *)
Definition guarded (a : outcome jsval) : jsval :=
  match a with
  | Ok v => v
  | Throw _ => JObj [("data", JArr [])]
  end.

(** The world after a guarded list call. *)
Definition after_guarded (label : string) (req : request) (w : World) : World :=
  match answer (upcoming w) with
  | Ok _ => exchanged req w
  | Throw _ => with_browser (add_console label) (exchanged req w)
  end.

(** The object the bulk fetch hands to [setData], or the exception of the
    first [.data] read that throws. *)
Definition bulk_data (v1 v2 v3 v4 : jsval) : outcome AppData :=
  match get v1 "data" with
  | Throw e => Throw e
  | Ok e =>
      match get v2 "data" with
      | Throw x => Throw x
      | Ok i =>
          match get v3 "data" with
          | Throw x => Throw x
          | Ok g =>
              match get v4 "data" with
              | Throw x => Throw x
              | Ok u =>
                  Ok {| experiences := or_else e (JArr []);
                        itineraries := or_else i (JArr []);
                        images := or_else g (JArr []);
                        updates := or_else u (JArr []) |}
              end
          end
      end
  end.

(** The world the outer [catch] of the bulk fetch leaves. *)
Definition critical (w : World) : World :=
  with_app (set_data no_data)
    (with_browser
       (add_toast (toast_error "Unable to connect to server. Please check your internet connection."))
       (with_app (set_connectionError true)
          (with_browser (add_console "Critical error loading data:") w))).

(** The four list requests of the bulk fetch, in the order they leave. *)
Definition bulk_requests (base : string) : list request :=
  [ experiencesAPI.getAll_request base None;
    itinerariesAPI.getAll_request base None;
    imagesAPI.getAll_request base None;
    updatesAPI.getAll_request base ].

(** The answers to the next four requests. *)
Definition next_four (w : World) : list (outcome jsval) :=
  List.map answer
    (List.map (fun n => nth n (net (browser w)) NetworkFailure) [0; 1; 2; 3]%nat).

(** A user logged in, and the itineraries list answered [null]. *)
Definition null_answers : World :=
  with_app (set_user (JObj [("name", JStr "A")]))
    (online "t1" [ ok200 (enveloped [item "e1"]); ok200 JNull;
                   ok200 (enveloped [item "g1"]); ok200 (enveloped [item "u1"]) ]).


(** The world [handleLogin] has built when it calls the bulk fetch. *)
Definition session_stored (userData token : jsval) (w : World) : World :=
  with_app (set_user userData)
    (with_browser
       (fun b => set_localStorage
                   (<["authToken" := ToString token]>
                      (<["token" := ToString token]>
                         (<["user" := JSON_stringify userData]> (localStorage b)))) b)
       w).

(** A page reload: the storage stays, the React state starts afresh. *)
Definition reload (w : World) : World :=
  {| browser := browser w; app := App_initial;
     experienceManager := mounted (JArr []);
     itineraryManager := mounted (JArr []);
     imageManager := mounted (JArr []) |}.

(** The login form filled in, and the server answering the login and the
    four list calls. *)
Definition login_form : LoginPage.State :=
  {| LoginPage.email := "a@b.com"; LoginPage.password := "x";
     LoginPage.error := ""; LoginPage.loading := false |}.

Definition scenario_A : World :=
  with_browser
    (fun b => set_traffic [] []
                [ ok200 (JObj [ ("message", JStr "Login successful");
                                ("user", JObj [ ("email", JStr "a@b.com");
                                                ("role", JStr "user");
                                                ("name", JStr "A") ]);
                                ("token", JStr "t1") ]);
                  ok200 (enveloped [item "e1"]); ok200 (enveloped []);
                  ok200 (enveloped []); ok200 (enveloped []) ] b)
    fresh.

(** The server refusing the credentials. *)
Definition login_refused : World :=
  with_browser
    (fun b => set_traffic [] []
                [ Responded {| status := 401;
                               json := Ok (JObj [("error", JStr "Invalid credentials")]) |} ] b)
    fresh.

(** A token left in storage with no user record beside it. *)
Definition token_without_user : World :=
  with_browser (set_localStorage {["token" := "t1"; "authToken" := "t1"]}) fresh.


(** The server answering a login with a token and no user. *)
Definition token_only : World :=
  with_browser (fun b => set_traffic [] [] [ ok200 (JObj [("token", JStr "t9")]) ] b) fresh.

Fixpoint has_newline (s : string) : bool :=
  match s with
  | EmptyString => false
  | String c rest => Ascii.eqb c newline || has_newline rest
  end.

(** A line as the forms keep it: one line, not blank. *)
Definition clean_line (s : string) : bool := negb (has_newline s) && negb (blank s).

(** The server accepting a new experience, then listing it with the old one. *)
Definition adding_an_experience : World :=
  online "t1" [ ok200 (enveloped [item "e9"]); ok200 (enveloped [item "e1"; item "e9"]) ].


(** The world in which the mount effect calls the bulk fetch once it has
    read the stored session. *)
Definition restored (userData : jsval) (t : string) (w : World) : World :=
  with_app (set_user userData)
    (with_browser
       (fun b => set_localStorage (<["authToken" := t]> (localStorage b)) b) w).

(** The world once the login request has been answered with the token [t]:
    [authAPI.login] has stored it under [authToken]. *)
Definition login_answered (email password t : string) (w : World) : World :=
  with_browser
    (fun b => set_localStorage (<["authToken" := t]> (localStorage b)) b)
    (exchanged (authAPI.login_request (API_BASE_URL (REACT_APP_API_URL (browser w)))
                  email password) w).

(** The experience manager shows [e1]; the server will confirm a delete,
    and the list request after it will not get through. *)
Definition delete_then_offline : World :=
  with_experienceManager (set_items (JArr [item "e1"]))
    (online "t1" [ok200 (JObj [("success", JBool true)]); NetworkFailure]).

(** An image given by its URL, for the add dialog. *)
Definition image_by_url : ImageForm.ImageUploadData :=
  {| ImageForm.u_destination := "Goa"; ImageForm.u_region := "West";
     ImageForm.u_caption := "Beach"; ImageForm.u_url := "http://h/a.png";
     ImageForm.u_file := None |}.

(** The dialog of the image manager with a URL typed in. *)
Definition url_typed : ImageForm.UI :=
  ImageForm.handleUrlChange "http://h/a.png" (ImageForm.handleAdd ImageForm.initial).

(** The server answers the upload with a body that has no [success] field. *)
Definition upload_unconfirmed : World :=
  online "t1" [ok200 (JObj [("data", JObj [("url", JStr "http://h/a.png")])])].

(** The server confirms the upload and then lists the new image. *)
Definition upload_confirmed : World :=
  online "t1"
    [ ok200 (JObj [("success", JBool true);
                   ("data", JObj [("id", JStr "g9"); ("url", JStr "http://h/a.png")])]);
      ok200 (enveloped [item "g9"]) ].

(** ** What the days field keeps of an itinerary *)

Definition starts_with_space (s : string) : bool :=
  match drop_space s with Some _ => true | None => false end.

Definition ends_with_space (s : string) : bool :=
  match drop_space_rev (string_rev s) with Some _ => true | None => false end.

(** A day marker starts somewhere in [s]. *)
Fixpoint has_day_marker (s : string) : bool :=
  match s with
  | EmptyString => false
  | String _ rest =>
      match ItineraryForm.day_marker s with Some _ => true | None => false end
      || has_day_marker rest
  end.

(** A day whose text in the days field reads back as the same day: it has
    an activity, every activity is one line that is not blank, no day
    marker occurs in the activities, and their text neither starts nor
    ends with white space. *)
Definition reads_back (d : ItineraryForm.Day) : bool :=
  let text := join (String newline "") (ItineraryForm.activities d) in
  match ItineraryForm.activities d with [] => false | _ :: _ => true end
  && forallb clean_line (ItineraryForm.activities d)
  && negb (has_day_marker text)
  && negb (starts_with_space text)
  && negb (ends_with_space text).

(** A two-day itinerary as the server lists it. *)
Definition two_days : ItineraryForm.Itinerary :=
  {| ItineraryForm.id := "i1"; ItineraryForm.destination := "Kerala";
     ItineraryForm.region := "South"; ItineraryForm.title := "Backwaters";
     ItineraryForm.duration := "2 days"; ItineraryForm.description := None;
     ItineraryForm.days :=
       [ {| ItineraryForm.day := 1; ItineraryForm.activities := ["Arrive"; "Tea gardens"] |};
         {| ItineraryForm.day := 2; ItineraryForm.activities := ["Houseboat"] |} ];
     ItineraryForm.imageUrl := None; ItineraryForm.createdAt := 0 |}.

(** The pieces between the markers of the text [handleEdit] writes for
    [ds]. *)
Fixpoint blocks_of (ds : list ItineraryForm.Day) : list string :=
  match ds with
  | [] => []
  | d :: rest =>
      (String newline (join (String newline "") (ItineraryForm.activities d))
       +:+ match rest with
           | [] => ""
           | _ :: _ => String newline (String newline "")
           end)
      :: blocks_of rest
  end.

(** A logged-in user on the connection-error page, with the server back. *)
Definition server_back : World :=
  with_app
    (fun a => set_isLoading false
                (set_connectionError true (set_user (JObj [("name", JStr "A")]) a)))
    enveloped_answers.

(** The image manager with nothing outstanding and no answer scripted. *)
Definition idle : World := online "t1" [].

(** * Properties *)

(** ** Sanity checks of the platform functions *)

Example stringify_demo :
  JSON_stringify (JObj [("title", JStr "Goa"); ("days", JArr [JNum 1; JNull])])
  = "{" +:+ quote "title" +:+ ":" +:+ quote "Goa" +:+ "," +:+ quote "days" +:+ ":[1,null]}".
Proof. reflexivity. Qed.

Example list_url_demo :
  list_url "http://h/api" "/experiences"
    (Some {| page := Some 2; limit := None; region := Some "All"; search := Some "tea & hills" |})
  = "http://h/api/experiences?page=2&search=tea+%26+hills".
Proof. reflexivity. Qed.

Example read_json_roundtrip :
  read_json (JSON_stringify (JObj [("email", JStr "a@b.com"); ("role", JStr "user"); ("n", JArr [JNum (-3); JNull; JBool true])]))
  = Ok (JObj [("email", JStr "a@b.com"); ("role", JStr "user"); ("n", JArr [JNum (-3); JNull; JBool true])]).
Proof. vm_compute. reflexivity. Qed.

Example read_json_rejects : read_json "[object Object]" = Throw (SyntaxError "Unexpected token or end of JSON input").
Proof. vm_compute. reflexivity. Qed.

(** ** ImageWithFallback: the source is switched at most once *)

Section FallbackOnce.
Import ImageWithFallback.

Lemma handleError_cases p s :
  handleError p s = s
  \/ (imgSrc (handleError p s) = fallbackSrc p /\ imgSrc s <> fallbackSrc p).
Proof.
  unfold handleError.
  destruct (hasError s); simpl; [now left|].
  destruct (String.eqb (fallbackSrc p) ""); simpl; [now left|].
  destruct (String.eqb_spec (imgSrc s) (fallbackSrc p)); simpl; [now left|].
  right. split; [reflexivity|assumption].
Qed.

Lemma handle_cases p s e :
  imgSrc (handle p s e) = imgSrc s
  \/ (imgSrc (handle p s e) = fallbackSrc p /\ imgSrc s <> fallbackSrc p).
Proof.
  destruct e; simpl.
  - destruct (handleError_cases p s) as [-> | H]; [now left | now right].
  - now left.
Qed.

(** On the fallback source nothing changes any more. *)
Lemma changes_on_fallback p evs : forall s,
  imgSrc s = fallbackSrc p -> changes p s evs = [].
Proof.
  induction evs as [|e rest IH]; intros s Hs; simpl; [reflexivity|].
  destruct (handle_cases p s e) as [Heq | [_ Hne]]; [|contradiction].
  rewrite Heq, String.eqb_refl. apply IH. congruence.
Qed.

Lemma changes_from p evs : forall s,
  changes p s evs = []
  \/ (changes p s evs = [(imgSrc s, fallbackSrc p)] /\ imgSrc s <> fallbackSrc p).
Proof.
  induction evs as [|e rest IH]; intros s; simpl; [now left|].
  destruct (handle_cases p s e) as [Heq | [Hfb Hne]].
  - rewrite Heq, String.eqb_refl.
    destruct (IH (handle p s e)) as [-> | [-> Hne]]; [now left|].
    right. rewrite Heq in *. split; [reflexivity|assumption].
  - destruct (String.eqb_spec (imgSrc (handle p s e)) (imgSrc s)) as [E|_].
    + congruence.
    + rewrite (changes_on_fallback p rest _ Hfb), Hfb. right. split; [reflexivity|assumption].
Qed.

(** C10.  Whatever load and error events an [ImageWithFallback] receives
    after it mounts, the displayed source changes at most once; the one
    change there can be goes from the original [src] to [fallbackSrc] and
    happens only when the two differ; and an error raised while
    [fallbackSrc] is displayed leaves the source where it is. *)
Theorem C10_source_switched_at_most_once (p : Props) (evs : list event) (h : bool) :
  (changes p (initial p) evs = []
   \/ (changes p (initial p) evs = [(src p, fallbackSrc p)] /\ src p <> fallbackSrc p))
  /\ handleError p {| imgSrc := fallbackSrc p; hasError := h |}
     = {| imgSrc := fallbackSrc p; hasError := h |}.
Proof.
  split.
  - apply (changes_from p evs (initial p)).
  - unfold handleError; simpl. rewrite String.eqb_refl.
    now rewrite !andb_false_r.
Qed.

End FallbackOnce.

(** ** services/api.ts: headers, encodings, error decoding *)

Lemma spread_auth_lookup (t : string) (h : gmap string string) :
  t <> "" -> spread_auth (Some t) h !! "Authorization" = Some ("Bearer " +:+ t).
Proof.
  intros Ht. unfold spread_auth.
  destruct (String.eqb_spec t ""); [contradiction|].
  apply lookup_insert_eq.
Qed.

Lemma getAuthHeaders_bearer (ls : gmap string string) (t : string) :
  ls !! "authToken" = Some t -> t <> "" ->
  getAuthHeaders ls !! "Authorization" = Some ("Bearer " +:+ t).
Proof.
  intros H Ht. unfold getAuthHeaders. rewrite H. now apply spread_auth_lookup.
Qed.








(** C8, as stated, fails on a JSON body of another shape: a 500 answer
    whose body is [{message: boom}] is reported as [HTTP 500], not as the
    generic network-error message. *)
Lemma C8_other_shape_reports_status :
  handleResponse {| status := 500; json := Ok (JObj [("message", JStr "boom")]) |}
  = Throw (Error "HTTP 500")
  /\ C8_as_stated {| status := 500; json := Ok (JObj [("message", JStr "boom")]) |}
     = Throw (Error "Network error").
Proof. split; reflexivity. Qed.

(** C8, amended.  For every non-2xx response the call throws: errors are
    never swallowed.  A body that is a JSON object with a non-empty string
    [error] gives that string as the message; a body that is not JSON gives
    the generic [Network error]; a JSON body other than [null] whose [error]
    is absent or falsy gives [HTTP <status>]. *)
Theorem C8_not_ok_response_throws (r : Response) :
  ok r = false ->
  (exists e, handleResponse r = Throw e)
  /\ (forall e, json r = Throw e -> handleResponse r = Throw (Error "Network error"))
  /\ (forall fields s,
        json r = Ok (JObj fields) -> assoc "error" fields = Some (JStr s) -> s <> "" ->
        handleResponse r = Throw (Error s))
  /\ (forall v m,
        json r = Ok v -> get v "error" = Ok m -> truthy_opt m = false ->
        handleResponse r = Throw (Error ("HTTP " +:+ Z_toString (status r)))).
Proof.
  intros Hok. unfold handleResponse. rewrite Hok. simpl. repeat split.
  - destruct (json r) as [v|e]; simpl; [|eauto].
    destruct (get v "error") as [[m|]|e]; [destruct (truthy m)| |]; eauto.
  - intros e ->. reflexivity.
  - intros fields s -> Hs Hne. simpl. rewrite Hs. simpl.
    destruct (String.eqb_spec s ""); [contradiction|reflexivity].
  - intros v m -> -> Hm. destruct m as [m|]; [|reflexivity].
    simpl in Hm. now rewrite Hm.
Qed.

(** A 404 with an [{error: ...}] body surfaces the body's message. *)
Lemma C8_not_ok_response_throws_witness :
  ok {| status := 404; json := Ok (JObj [("error", JStr "Experience not found")]) |} = false
  /\ handleResponse {| status := 404; json := Ok (JObj [("error", JStr "Experience not found")]) |}
     = Throw (Error "Experience not found").
Proof.
  split; [reflexivity|].
  exact (proj1 (proj2 (proj2
    (C8_not_ok_response_throws
       {| status := 404; json := Ok (JObj [("error", JStr "Experience not found")]) |}
       eq_refl))) _ _ eq_refl eq_refl ltac:(discriminate)).
Defined.

(** ** Running handlers *)

Ltac monad_steps :=
  cbv beta iota delta
    [mbind M_bind mret M_ret throw lift modify try_catch finally detached run
     getItem setItem removeItem toast_ console_error window_location_reload
     setUser setData setIsLoading setConnectionError handleUpdateData
     setAuthToken authAPI.logout].

Ltac manager_steps :=
  cbv beta iota delta
    [mbind M_bind mret M_ret throw lift modify try_catch finally detached run
     toast_ console_error handleUpdateData setData
     ExperienceManager.setExperiences ExperienceManager.setIsLoading
     ItineraryManager.setItineraries ItineraryManager.setIsLoading
     ImageManager.setImages ImageManager.setIsLoading
     experiencesAPI.getAll itinerariesAPI.getAll imagesAPI.getAll
     experiencesAPI.delete itinerariesAPI.delete imagesAPI.delete].

(** An API method sends its one request and settles to the answer of the
    network. *)
Lemma send_eq mk w :
  send mk w
  = (answer (upcoming w),
     exchanged (mk (API_BASE_URL (REACT_APP_API_URL (browser w))) (localStorage (browser w))) w).
Proof.
  unfold send, fetch, next_answer, upcoming, exchanged, mbind, M_bind, settle, lift, answer.
  unfold issue, with_browser, set_traffic. simpl.
  destruct (net (browser w)) as [|[|r] rest] eqn:E; simpl; rewrite ?E; reflexivity.
Qed.

Lemma upcoming_cons w o rest : net (browser w) = o :: rest -> upcoming w = o.
Proof. unfold upcoming. now intros ->. Qed.

Lemma upcoming_exchanged req w o o' rest :
  net (browser w) = o :: o' :: rest -> upcoming (exchanged req w) = o'.
Proof. intros H. unfold upcoming, exchanged. simpl. now rewrite H. Qed.

Lemma upcoming_with_experienceManager f w : upcoming (with_experienceManager f w) = upcoming w.
Proof. reflexivity. Qed.

Lemma upcoming_with_itineraryManager f w : upcoming (with_itineraryManager f w) = upcoming w.
Proof. reflexivity. Qed.

Lemma upcoming_with_imageManager f w : upcoming (with_imageManager f w) = upcoming w.
Proof. reflexivity. Qed.

Lemma truthy_str_Some (s : string) : s <> "" -> truthy_str (Some s) = true.
Proof. intros H. simpl. now destruct (String.eqb_spec s ""). Qed.

Lemma carries_extract xs v :
  carries xs v -> exists d, get v "data" = Ok d /\ or_else d v = JArr xs.
Proof.
  intros [|fields H].
  - exists None. split; reflexivity.
  - exists (Some (JArr xs)). simpl. rewrite H. split; reflexivity.
Qed.

(** ** App.tsx: the bulk fetch *)

(** One of the four guarded list calls: it never throws, and what it hands
    to [setData] is the fetched list or the empty array. *)
Lemma or_empty_send label mk w f :
  agrees (upcoming w) f ->
  exists v w',
    or_empty label (send mk) w = (Ok v, w')
    /\ (exists d, get v "data" = Ok d /\ or_else d (JArr []) = landed f)
    /\ app w' = app w
    /\ net (browser w') = tail (net (browser w)).
Proof.
  intros Hf. unfold or_empty, try_catch. rewrite send_eq.
  destruct f as [e|fields xs]; simpl in Hf.
  - rewrite Hf. eexists _, _. split; [reflexivity|]. split; [|split; reflexivity].
    exists (Some (JArr [])). split; reflexivity.
  - destruct Hf as [-> Hd]. eexists _, _. split; [reflexivity|]. split; [|split; reflexivity].
    exists (Some (JArr xs)). simpl. rewrite Hd. split; reflexivity.
Qed.

(** Each list call of the bulk fetch is guarded on its own: whichever of
    the four calls fail, the failing collections are set to the empty
    array and the collections answered with a [{data: [...]}] envelope
    hold their fetched lists; the fetch returns normally with [isLoading]
    cleared and [connectionError] down. *)
Lemma guarded_list_calls_land (w : World) (o1 o2 o3 o4 : fetch_outcome)
    (rest : list fetch_outcome) (f1 f2 f3 f4 : fetched) :
  net (browser w) = o1 :: o2 :: o3 :: o4 :: rest ->
  agrees o1 f1 -> agrees o2 f2 -> agrees o3 f3 -> agrees o4 f4 ->
  fst (fetchAllData w) = Ok tt
  /\ data (app (snd (fetchAllData w)))
     = {| experiences := landed f1; itineraries := landed f2;
          images := landed f3; updates := landed f4 |}
  /\ connectionError (app (snd (fetchAllData w))) = false
  /\ isLoading (app (snd (fetchAllData w))) = false.
Proof.
  intros Hnet H1 H2 H3 H4.
  set (w0 := with_app (set_connectionError false) (with_app (set_isLoading true) w)).
  assert (Hn0 : net (browser w0) = o1 :: o2 :: o3 :: o4 :: rest) by exact Hnet.
  destruct (or_empty_send "Failed to fetch experiences:"
              (fun base _ => experiencesAPI.getAll_request base None) w0 f1)
    as (v1 & w1 & E1 & (d1 & G1 & L1) & A1 & N1).
  { now rewrite (upcoming_cons _ _ _ Hn0). }
  rewrite Hn0 in N1; simpl in N1.
  destruct (or_empty_send "Failed to fetch itineraries:"
              (fun base _ => itinerariesAPI.getAll_request base None) w1 f2)
    as (v2 & w2 & E2 & (d2 & G2 & L2) & A2 & N2).
  { now rewrite (upcoming_cons _ _ _ N1). }
  rewrite N1 in N2; simpl in N2.
  destruct (or_empty_send "Failed to fetch images:"
              (fun base _ => imagesAPI.getAll_request base None) w2 f3)
    as (v3 & w3 & E3 & (d3 & G3 & L3) & A3 & N3).
  { now rewrite (upcoming_cons _ _ _ N2). }
  rewrite N2 in N3; simpl in N3.
  destruct (or_empty_send "Failed to fetch updates:"
              (fun base _ => updatesAPI.getAll_request base) w3 f4)
    as (v4 & w4 & E4 & (d4 & G4 & L4) & A4 & N4).
  { now rewrite (upcoming_cons _ _ _ N3). }
  assert (E : fetchAllData w
              = (Ok tt, with_app (set_isLoading false)
                          (with_app (set_data {| experiences := landed f1; itineraries := landed f2;
                                                 images := landed f3; updates := landed f4 |}) w4))).
  { unfold fetchAllData.
    unfold experiencesAPI.getAll, itinerariesAPI.getAll, imagesAPI.getAll, updatesAPI.getAll.
    cbv beta iota delta [mbind M_bind finally try_catch setIsLoading setConnectionError modify lift setData].
    fold w0. rewrite E1, E2, E3, E4, G1, G2, G3, G4, L1, L2, L3, L4. reflexivity. }
  rewrite E. simpl. rewrite A4, A3, A2, A1. repeat split; reflexivity.
Qed.

(** C3, at the inputs where the code departs from it.  With the experiences
    request failing and the three others answered (scenario B) the
    experiences land empty and the others hold their lists, as the claim
    says, but [connectionError] stays false and no toast is shown.  With
    the server unreachable, so that all four list calls fail, the flag
    stays false as well: the logged-in user is shown the dashboard with
    four empty collections, not the connection-error page. *)
Theorem C3_failed_list_calls_raise_no_flag :
  (fst (fetchAllData scenario_B) = Ok tt
   /\ data (app (snd (fetchAllData scenario_B)))
      = {| experiences := JArr []; itineraries := JArr [item "i1"];
           images := JArr [item "g1"]; updates := JArr [item "u1"] |}
   /\ connectionError (app (snd (fetchAllData scenario_B))) = false
   /\ toasts (browser (snd (fetchAllData scenario_B))) = [])
  /\ (sent (browser (snd (fetchAllData server_unreachable)))
      = [ plain_get "http://localhost:5000/api/experiences";
          plain_get "http://localhost:5000/api/itineraries";
          plain_get "http://localhost:5000/api/images";
          plain_get "http://localhost:5000/api/updates" ]
     /\ data (app (snd (fetchAllData server_unreachable))) = no_data
     /\ connectionError (app (snd (fetchAllData server_unreachable))) = false
     /\ toasts (browser (snd (fetchAllData server_unreachable))) = []
     /\ App_render (app (snd (fetchAllData server_unreachable))) = Dashboard).
Proof. repeat split; vm_compute; reflexivity. Qed.

(** ** App.tsx: restoring the session *)

Lemma handleLogout_eq w : handleLogout w = (Ok tt, logged_out w).
Proof. reflexivity. Qed.

(** C9, as stated, fails on an empty user record: with the token [t1] and
    the empty string stored under [user], which [JSON.parse] rejects, the
    mount effect takes the branch of no stored session, so nothing is
    removed and the token stays under [token] and [authToken]. *)
Lemma C9_empty_user_record_keeps_the_token :
  localStorage (browser empty_user_record) !! "token" = Some "t1"
  /\ localStorage (browser empty_user_record) !! "user" = Some ""
  /\ read_json "" = Throw (SyntaxError "Unexpected token or end of JSON input")
  /\ fst (App_useEffect read_json empty_user_record) = Ok tt
  /\ localStorage (browser (snd (App_useEffect read_json empty_user_record)))
     = localStorage (browser empty_user_record)
  /\ localStorage (browser (snd (App_useEffect read_json empty_user_record))) !! "token"
     = Some "t1"
  /\ localStorage (browser (snd (App_useEffect read_json empty_user_record))) !! "authToken"
     = Some "t1".
Proof. repeat split; vm_compute; reflexivity. Qed.

(** C9, amended.  When [App] mounts with a non-empty token and a non-empty
    user record in storage and [JSON.parse] throws on the user record, the
    mount effect returns normally, the three persisted keys are gone, the
    user is [null], the collections are empty and the login page is what
    renders; the page is not reloaded. *)
Theorem C9_corrupt_stored_user_logs_out
    (JSON_parse : string -> outcome jsval) (w : World) (t u : string) (e : exn) :
  localStorage (browser w) !! "token" = Some t ->
  t <> "" ->
  localStorage (browser w) !! "user" = Some u ->
  u <> "" ->
  JSON_parse u = Throw e ->
  fst (App_useEffect JSON_parse w) = Ok tt
  /\ localStorage (browser (snd (App_useEffect JSON_parse w))) !! "user" = None
  /\ localStorage (browser (snd (App_useEffect JSON_parse w))) !! "token" = None
  /\ localStorage (browser (snd (App_useEffect JSON_parse w))) !! "authToken" = None
  /\ user (app (snd (App_useEffect JSON_parse w))) = JNull
  /\ data (app (snd (App_useEffect JSON_parse w))) = no_data
  /\ App_render (app (snd (App_useEffect JSON_parse w))) = LoginPage
  /\ reloads (browser (snd (App_useEffect JSON_parse w))) = reloads (browser w).
Proof.
  intros Ht Hte Hu Hue Hparse.
  assert (E : App_useEffect JSON_parse w
              = (Ok tt, logged_out
                          (with_browser (add_console "Error parsing stored user data:")
                             (with_browser
                                (fun b => set_localStorage (<["authToken" := t]> (localStorage b)) b)
                                w)))).
  { unfold App_useEffect. monad_steps.
    rewrite Ht, Hu, (truthy_str_Some _ Hte), (truthy_str_Some _ Hue). simpl.
    rewrite Hparse. reflexivity. }
  rewrite E. simpl.
  repeat split; try reflexivity; simplify_map_eq; reflexivity.
Qed.

(** A user record stored as [[object Object]]: the session is cleared. *)
Lemma C9_corrupt_stored_user_logs_out_witness :
  localStorage (browser corrupt_session) !! "token" = Some "t1"
  /\ localStorage (browser corrupt_session) !! "user" = Some "[object Object]"
  /\ read_json "[object Object]" = Throw (SyntaxError "Unexpected token or end of JSON input")
  /\ fst (App_useEffect read_json corrupt_session) = Ok tt
  /\ localStorage (browser (snd (App_useEffect read_json corrupt_session))) !! "token" = None
  /\ App_render (app (snd (App_useEffect read_json corrupt_session))) = LoginPage.
Proof.
  split; [reflexivity|]. split; [reflexivity|]. split; [reflexivity|].
  pose proof (C9_corrupt_stored_user_logs_out read_json corrupt_session "t1" "[object Object]"
                (SyntaxError "Unexpected token or end of JSON input")
                eq_refl ltac:(discriminate) eq_refl ltac:(discriminate) eq_refl)
    as (H1 & _ & H3 & _ & _ & _ & H7 & _).
  split; [exact H1|]. split; [exact H3|exact H7].
Defined.

(** ** The managers: refresh *)

(** C2, as stated, fails twice on a failed image refresh: the error is
    caught inside [fetchImages], which returns normally, and the list the
    manager held is replaced by the empty array. *)
Lemma C2_failed_image_refresh_empties_the_list :
  items (imageManager images_cached) = JArr [item "a"]
  /\ fst (ImageManager.fetchImages no_data images_cached) = Ok tt
  /\ items (imageManager (snd (ImageManager.fetchImages no_data images_cached))) = JArr [].
Proof. repeat split; vm_compute; reflexivity. Qed.

(** C2, amended.  When the list call of a refresh fails, the refresh does
    not raise to its caller: it returns normally after a [Failed to load]
    toast.  For experiences and itineraries the list the manager holds and
    the shared snapshot are left as they were; for images the shared
    snapshot is left as it was. *)
Theorem C2_failed_refresh_is_swallowed (w : World) (props : AppData) (e : exn) :
  answer (upcoming w) = Throw e ->
  (fst (ExperienceManager.fetchExperiences props w) = Ok tt
   /\ items (experienceManager (snd (ExperienceManager.fetchExperiences props w)))
      = items (experienceManager w)
   /\ data (app (snd (ExperienceManager.fetchExperiences props w))) = data (app w)
   /\ toasts (browser (snd (ExperienceManager.fetchExperiences props w)))
      = (toasts (browser w) ++ [toast_error "Failed to load experiences"])%list)
  /\ (fst (ItineraryManager.fetchItineraries props w) = Ok tt
   /\ items (itineraryManager (snd (ItineraryManager.fetchItineraries props w)))
      = items (itineraryManager w)
   /\ data (app (snd (ItineraryManager.fetchItineraries props w))) = data (app w)
   /\ toasts (browser (snd (ItineraryManager.fetchItineraries props w)))
      = (toasts (browser w) ++ [toast_error "Failed to load itineraries"])%list)
  /\ (fst (ImageManager.fetchImages props w) = Ok tt
   /\ data (app (snd (ImageManager.fetchImages props w))) = data (app w)
   /\ toasts (browser (snd (ImageManager.fetchImages props w)))
      = (toasts (browser w) ++ [toast_error "Failed to load images"])%list).
Proof.
  intros H. split; [|split].
  - unfold ExperienceManager.fetchExperiences. manager_steps.
    rewrite send_eq, upcoming_with_experienceManager, H. simpl. repeat split; reflexivity.
  - unfold ItineraryManager.fetchItineraries. manager_steps.
    rewrite send_eq, upcoming_with_itineraryManager, H. simpl. repeat split; reflexivity.
  - unfold ImageManager.fetchImages. manager_steps.
    rewrite send_eq, upcoming_with_imageManager, H. simpl. repeat split; reflexivity.
Qed.

(** The server unreachable: the experiences held stay, nothing is raised. *)
Lemma C2_failed_refresh_is_swallowed_witness :
  answer (upcoming experiences_cached) = Throw (TypeError "Failed to fetch")
  /\ fst (ExperienceManager.fetchExperiences no_data experiences_cached) = Ok tt
  /\ items (experienceManager (snd (ExperienceManager.fetchExperiences no_data experiences_cached)))
     = JArr [item "e1"].
Proof.
  split; [reflexivity|].
  pose proof (C2_failed_refresh_is_swallowed experiences_cached no_data
                (TypeError "Failed to fetch") eq_refl) as [[H1 [H2 _]] _].
  split; [exact H1|exact H2].
Defined.

(** The three managers take the list from either envelope. *)
Lemma managers_accept_both_envelopes (w : World) (props : AppData) (xs : list jsval) (v : jsval) :
  answer (upcoming w) = Ok v -> carries xs v ->
  (items (experienceManager (snd (ExperienceManager.fetchExperiences props w))) = JArr xs
   /\ data (app (snd (ExperienceManager.fetchExperiences props w))) = with_experiences (JArr xs) props)
  /\ (items (itineraryManager (snd (ItineraryManager.fetchItineraries props w))) = JArr xs
   /\ data (app (snd (ItineraryManager.fetchItineraries props w))) = with_itineraries (JArr xs) props)
  /\ (items (imageManager (snd (ImageManager.fetchImages props w))) = JArr xs
   /\ data (app (snd (ImageManager.fetchImages props w))) = with_images (JArr xs) props).
Proof.
  intros H Hc. destruct (carries_extract _ _ Hc) as (d & Hd & Hor).
  split; [|split].
  - unfold ExperienceManager.fetchExperiences. manager_steps.
    rewrite send_eq, upcoming_with_experienceManager, H, Hd, Hor. simpl. split; reflexivity.
  - unfold ItineraryManager.fetchItineraries. manager_steps.
    rewrite send_eq, upcoming_with_itineraryManager, H, Hd, Hor. simpl. split; reflexivity.
  - unfold ImageManager.fetchImages. manager_steps.
    rewrite send_eq, upcoming_with_imageManager, H, Hd, Hor. simpl. split; reflexivity.
Qed.

(** C6, at the input where the code departs from it.  The experiences list
    answered as a bare array: the bulk fetch reads only [.data] and stores
    the empty array, where [fetchExperiences] stores the item; answered in
    the [{data: [...]}] envelope, both store the item. *)
Theorem C6_bulk_fetch_drops_a_bare_list :
  experiences (data (app (snd (fetchAllData bare_answers)))) = JArr []
  /\ items (experienceManager (snd (ExperienceManager.fetchExperiences no_data bare_answers)))
     = JArr [item "e1"]
  /\ experiences (data (app (snd (fetchAllData enveloped_answers)))) = JArr [item "e1"]
  /\ items (experienceManager
              (snd (ExperienceManager.fetchExperiences no_data enveloped_answers)))
     = JArr [item "e1"].
Proof. repeat split; vm_compute; reflexivity. Qed.

(** ** The managers: delete *)

(** Deleting an experience or an itinerary sends the DELETE, then the list
    request, and stores the list that comes back. *)
Lemma delete_then_refetch (w : World) (props : AppData) (id : string)
    (o o' : fetch_outcome) (rest : list fetch_outcome) (r v : jsval) (xs : list jsval) :
  net (browser w) = o :: o' :: rest ->
  answer o = Ok r -> answer o' = Ok v -> carries xs v ->
  (items (experienceManager (snd (ExperienceManager.handleDeleteExperience props true id w))) = JArr xs
   /\ sent (browser (snd (ExperienceManager.handleDeleteExperience props true id w)))
      = (sent (browser w)
         ++ [ experiencesAPI.delete_request (API_BASE_URL (REACT_APP_API_URL (browser w)))
                (localStorage (browser w)) id;
              experiencesAPI.getAll_request (API_BASE_URL (REACT_APP_API_URL (browser w))) None ])%list)
  /\ (items (itineraryManager (snd (ItineraryManager.handleDelete props true id w))) = JArr xs
   /\ sent (browser (snd (ItineraryManager.handleDelete props true id w)))
      = (sent (browser w)
         ++ [ itinerariesAPI.delete_request (API_BASE_URL (REACT_APP_API_URL (browser w)))
                (localStorage (browser w)) id;
              itinerariesAPI.getAll_request (API_BASE_URL (REACT_APP_API_URL (browser w))) None ])%list).
Proof.
  intros Hnet Ho Ho' Hc. destruct (carries_extract _ _ Hc) as (d & Hd & Hor).
  split.
  - unfold ExperienceManager.handleDeleteExperience, ExperienceManager.fetchExperiences.
    manager_steps.
    rewrite send_eq, (upcoming_cons _ _ _ Hnet), Ho.
    rewrite send_eq, upcoming_with_experienceManager, (upcoming_exchanged _ _ _ _ _ Hnet), Ho', Hd, Hor.
    simpl. split; [reflexivity|]. now rewrite <- app_assoc.
  - unfold ItineraryManager.handleDelete, ItineraryManager.fetchItineraries.
    manager_steps.
    rewrite send_eq, (upcoming_cons _ _ _ Hnet), Ho.
    rewrite send_eq, upcoming_with_itineraryManager, (upcoming_exchanged _ _ _ _ _ Hnet), Ho', Hd, Hor.
    simpl. split; [reflexivity|]. now rewrite <- app_assoc.
Qed.

(** Deleting an image sends the DELETE alone and filters the list held. *)
Lemma image_delete_filters (w : World) (props : AppData) (id : string)
    (r : jsval) (imgs kept : list jsval) :
  answer (upcoming w) = Ok r ->
  items (imageManager w) = JArr imgs ->
  ImageManager.filter_out id imgs = Ok kept ->
  items (imageManager (snd (ImageManager.handleDelete props true id w))) = JArr kept
  /\ data (app (snd (ImageManager.handleDelete props true id w))) = with_images (JArr kept) props
  /\ sent (browser (snd (ImageManager.handleDelete props true id w)))
     = (sent (browser w)
        ++ [ imagesAPI.delete_request (API_BASE_URL (REACT_APP_API_URL (browser w)))
               (localStorage (browser w)) id ])%list.
Proof.
  intros Ho Hi Hf.
  unfold ImageManager.handleDelete. manager_steps.
  rewrite send_eq, upcoming_with_imageManager, Ho. simpl.
  rewrite Hi. unfold ImageManager.images_filter. rewrite Hf. simpl.
  repeat split; reflexivity.
Qed.

(** C1, at the input where the code departs from it.  The image manager
    holds [a] and [b] and the server, once [a] is deleted, lists [b] and
    [c]: [handleDelete] succeeds having sent the DELETE request only, the
    list answer is never asked for, and both the manager's list and the
    shared snapshot hold the filtered [b] instead of the server's list. *)
Theorem C1_image_delete_patches_the_cache :
  fst (ImageManager.handleDelete no_data true "a" images_before_delete) = Ok tt
  /\ sent (browser (snd (ImageManager.handleDelete no_data true "a" images_before_delete)))
     = [ imagesAPI.delete_request "http://localhost:5000/api" {["authToken" := "t1"]} "a" ]
  /\ net (browser (snd (ImageManager.handleDelete no_data true "a" images_before_delete)))
     = [ ok200 (enveloped [item "b"; item "c"]) ]
  /\ items (imageManager (snd (ImageManager.handleDelete no_data true "a" images_before_delete)))
     = JArr [item "b"]
  /\ images (data (app (snd (ImageManager.handleDelete no_data true "a" images_before_delete))))
     = JArr [item "b"].
Proof. repeat split; vm_compute; reflexivity. Qed.

(** ** The managers: two refreshes at once *)

Section TwoRefreshes.
Import ExperienceManager.

(** [fetchExperiences] is its two halves run one after the other. *)
Lemma fetchExperiences_two_halves (props : AppData) (w : World) :
  fetchExperiences props w
  = fetchExperiences_resumed props (fst (next_answer (fetchExperiences_called w)))
      (snd (next_answer (fetchExperiences_called w))).
Proof.
  unfold fetchExperiences, fetchExperiences_resumed, fetchExperiences_called, list_request.
  unfold experiencesAPI.getAll, send, fetch.
  cbv beta iota delta [mbind M_bind finally try_catch run modify setIsLoading].
  unfold next_answer, issue. simpl.
  destruct (net (browser w)) as [|o rest]; reflexivity.
Qed.

(** C4, as stated, fails: two calls of [fetchExperiences] made before
    either answer is back leave two list requests outstanding, and the two
    callers store the lists of their own answers, here different ones. *)
Lemma C4_two_refreshes_two_requests :
  pending (browser (fetchExperiences_called (fetchExperiences_called (online "t1" []))))
  = [ plain_get "http://localhost:5000/api/experiences";
      plain_get "http://localhost:5000/api/experiences" ]
  /\ items (experienceManager
              (run (fetchExperiences_resumed no_data (ok200 (JArr [item "e1"])))
                 (fetchExperiences_called (fetchExperiences_called (online "t1" [])))))
     = JArr [item "e1"]
  /\ items (experienceManager
              (run (fetchExperiences_resumed no_data (ok200 (JArr [item "e1"; item "e2"])))
                 (run (fetchExperiences_resumed no_data (ok200 (JArr [item "e1"])))
                    (fetchExperiences_called (fetchExperiences_called (online "t1" []))))))
     = JArr [item "e1"; item "e2"].
Proof. repeat split; vm_compute; reflexivity. Qed.

(** Whatever is outstanding, a refresh sends exactly one more list request. *)
Lemma refresh_sends_one_request (w : World) (props : AppData) :
  sent (browser (snd (fetchExperiences props w)))
  = (sent (browser w)
     ++ [experiencesAPI.getAll_request (API_BASE_URL (REACT_APP_API_URL (browser w))) None])%list
  /\ sent (browser (snd (ItineraryManager.fetchItineraries props w)))
     = (sent (browser w)
        ++ [itinerariesAPI.getAll_request (API_BASE_URL (REACT_APP_API_URL (browser w))) None])%list
  /\ sent (browser (snd (ImageManager.fetchImages props w)))
     = (sent (browser w)
        ++ [imagesAPI.getAll_request (API_BASE_URL (REACT_APP_API_URL (browser w))) None])%list.
Proof.
  split; [|split].
  - unfold fetchExperiences. manager_steps. rewrite send_eq.
    destruct (answer _) as [v|e]; [destruct (get v "data")|]; reflexivity.
  - unfold ItineraryManager.fetchItineraries. manager_steps. rewrite send_eq.
    destruct (answer _) as [v|e]; [destruct (get v "data")|]; reflexivity.
  - unfold ImageManager.fetchImages. manager_steps. rewrite send_eq.
    destruct (answer _) as [v|e]; [destruct (get v "data")|]; reflexivity.
Qed.

(** [fetchItineraries] and [fetchImages] are their two halves as well. *)
Lemma fetchItineraries_two_halves (props : AppData) (w : World) :
  ItineraryManager.fetchItineraries props w
  = ItineraryManager.fetchItineraries_resumed props
      (fst (next_answer (ItineraryManager.fetchItineraries_called w)))
      (snd (next_answer (ItineraryManager.fetchItineraries_called w))).
Proof.
  unfold ItineraryManager.fetchItineraries, ItineraryManager.fetchItineraries_resumed,
    ItineraryManager.fetchItineraries_called, ItineraryManager.list_request.
  unfold itinerariesAPI.getAll, send, fetch.
  cbv beta iota delta [mbind M_bind finally try_catch run modify ItineraryManager.setIsLoading].
  unfold next_answer, issue. simpl.
  destruct (net (browser w)) as [|o rest]; reflexivity.
Qed.

Lemma fetchImages_two_halves (props : AppData) (w : World) :
  ImageManager.fetchImages props w
  = ImageManager.fetchImages_resumed props
      (fst (next_answer (ImageManager.fetchImages_called w)))
      (snd (next_answer (ImageManager.fetchImages_called w))).
Proof.
  unfold ImageManager.fetchImages, ImageManager.fetchImages_resumed,
    ImageManager.fetchImages_called, ImageManager.list_request.
  unfold imagesAPI.getAll, send, fetch.
  cbv beta iota delta [mbind M_bind finally try_catch run modify ImageManager.setIsLoading].
  unfold next_answer, issue. simpl.
  destruct (net (browser w)) as [|o rest]; reflexivity.
Qed.

End TwoRefreshes.

(** * More of the code *)

(** ** services/api.ts: queries, tokens, responses, login *)

Lemma append_empty_r (s : string) : s +:+ "" = s.
Proof.
  induction s as [|c s IH]; [reflexivity|].
  change (String c (s +:+ "") = String c s). now rewrite IH.
Qed.

Lemma string_of_uint_nonempty (d : Decimal.uint) : NilZero.string_of_uint d <> "".
Proof. destruct d; discriminate. Qed.

Lemma Z_toString_nonempty (n : Z) : Z_toString n <> "".
Proof.
  unfold Z_toString, NilZero.string_of_int.
  destruct (Z.to_int n) as [d|d]; [apply string_of_uint_nonempty|discriminate].
Qed.


Lemma spread_auth_none (tok : option string) (h : gmap string string) :
  truthy_str tok = false -> spread_auth tok h = h.
Proof.
  unfold spread_auth, truthy_str. destruct tok as [t|]; [|reflexivity].
  destruct (String.eqb t ""); [reflexivity|discriminate].
Qed.

(** X2.  Without a token in storage, or with the empty string stored, no
    create, update or delete request of any collection carries an
    [Authorization] header. *)
Theorem no_token_no_authorization
    (base : string) (ls : gmap string string) (id : string)
    (data : payload) (formData : FormData) :
  truthy_str (ls !! "authToken") = false ->
  Forall (fun r => headers r !! "Authorization" = None)
    [ experiencesAPI.create_request base ls data;
      experiencesAPI.update_request base ls id data;
      experiencesAPI.delete_request base ls id;
      itinerariesAPI.create_request base ls data;
      itinerariesAPI.update_request base ls id data;
      itinerariesAPI.delete_request base ls id;
      imagesAPI.create_request base ls formData;
      imagesAPI.update_request base ls id formData;
      imagesAPI.delete_request base ls id;
      updatesAPI.create_request base ls data;
      updatesAPI.update_request base ls id data;
      updatesAPI.delete_request base ls id ].
Proof.
  intros H.
  assert (Hd : forall p, dual_headers ls p !! "Authorization" = None).
  { intros p. unfold dual_headers. rewrite (spread_auth_none _ _ H).
    destruct p; simpl; [rewrite lookup_insert_ne by discriminate|]; apply lookup_empty. }
  assert (Hg : getAuthHeaders ls !! "Authorization" = None).
  { unfold getAuthHeaders. rewrite (spread_auth_none _ _ H).
    now rewrite lookup_singleton_ne by discriminate. }
  assert (Hs : spread_auth (ls !! "authToken") ∅ !! "Authorization" = None).
  { rewrite (spread_auth_none _ _ H). apply lookup_empty. }
  repeat (apply Forall_cons; [simpl; first [apply Hd | exact Hg | exact Hs]|]).
  apply Forall_nil.
Qed.

(** With the empty string stored as the token, the image delete goes out
    with its JSON [Content-Type] only. *)
Lemma no_token_no_authorization_witness :
  truthy_str (({["authToken" := ""]} : gmap string string) !! "authToken") = false
  /\ headers (imagesAPI.delete_request "http://localhost:5000/api" {["authToken" := ""]} "a")
       !! "Authorization" = None.
Proof.
  split; [reflexivity|].
  exact (Forall_inv (Forall_inv_tail (Forall_inv_tail (Forall_inv_tail (Forall_inv_tail
    (Forall_inv_tail (Forall_inv_tail (Forall_inv_tail (Forall_inv_tail
      (no_token_no_authorization "http://localhost:5000/api" {["authToken" := ""]} "a"
         (Plain JNull) [] eq_refl)))))))))).
Defined.

(** X3.  The token helpers round-trip through storage: after
    [setAuthToken t] with [t] non-empty the authenticated headers carry
    [Bearer t]; after [clearAuthToken], or after [authAPI.logout], they
    carry no [Authorization]; and none of the three touches another key. *)
Theorem token_helpers_round_trip (w : World) (t k : string) :
  t <> "" ->
  k <> "authToken" ->
  getAuthHeaders (localStorage (browser (run (setAuthToken t) w))) !! "Authorization"
  = Some ("Bearer " +:+ t)
  /\ getAuthHeaders (localStorage (browser (run clearAuthToken (run (setAuthToken t) w))))
       !! "Authorization" = None
  /\ getAuthHeaders (localStorage (browser (run authAPI.logout (run (setAuthToken t) w))))
       !! "Authorization" = None
  /\ localStorage (browser (run (setAuthToken t) w)) !! k = localStorage (browser w) !! k
  /\ localStorage (browser (run clearAuthToken w)) !! k = localStorage (browser w) !! k
  /\ localStorage (browser (run authAPI.logout w)) !! k = localStorage (browser w) !! k.
Proof.
  intros Ht Hk. unfold run; simpl. repeat split.
  - apply getAuthHeaders_bearer; [apply lookup_insert_eq|assumption].
  - unfold getAuthHeaders. rewrite lookup_delete_eq. simpl.
    now rewrite lookup_singleton_ne by discriminate.
  - unfold getAuthHeaders. rewrite lookup_delete_eq. simpl.
    now rewrite lookup_singleton_ne by discriminate.
  - now rewrite lookup_insert_ne by congruence.
  - now rewrite lookup_delete_ne by congruence.
  - now rewrite lookup_delete_ne by congruence.
Qed.

Lemma token_helpers_round_trip_witness :
  "t1" <> "" /\ "user" <> "authToken"
  /\ getAuthHeaders (localStorage (browser (run clearAuthToken (run (setAuthToken "t1") corrupt_session))))
       !! "Authorization" = None
  /\ localStorage (browser (run clearAuthToken corrupt_session)) !! "user"
     = Some "[object Object]".
Proof.
  split; [discriminate|]. split; [discriminate|].
  pose proof (token_helpers_round_trip corrupt_session "t1" "user"
                ltac:(discriminate) ltac:(discriminate)) as (_ & H2 & _ & _ & H5 & _).
  split; [exact H2|]. rewrite H5. reflexivity.
Defined.

(** X4.  A response resolves the call exactly when its status is in
    200..299 and its body is JSON, and then to that body as it is, even
    when the body carries an [error] field. *)
Theorem handleResponse_resolves_iff (r : Response) (v : jsval) :
  handleResponse r = Ok v <-> (ok r = true /\ json r = Ok v).
Proof.
  unfold handleResponse. destruct (ok r); simpl.
  - split; [intros H; now split|now intros [_ H]].
  - split; [|intros [H _]; discriminate].
    destruct (json r) as [b|e]; simpl.
    + destruct (get b "error") as [[m|]|e]; [destruct (truthy m)| |]; discriminate.
    + discriminate.
Qed.

(** ** App.tsx: the bulk fetch in general *)

Lemma or_empty_send_eq label mk w :
  or_empty label (send mk) w
  = (Ok (guarded (answer (upcoming w))),
     after_guarded label
       (mk (API_BASE_URL (REACT_APP_API_URL (browser w))) (localStorage (browser w))) w).
Proof.
  unfold or_empty, try_catch, after_guarded. rewrite send_eq.
  destruct (answer (upcoming w)); reflexivity.
Qed.

Lemma after_guarded_app label req w : app (after_guarded label req w) = app w.
Proof. unfold after_guarded. destruct (answer (upcoming w)); reflexivity. Qed.

Lemma after_guarded_env label req w :
  REACT_APP_API_URL (browser (after_guarded label req w)) = REACT_APP_API_URL (browser w).
Proof. unfold after_guarded. destruct (answer (upcoming w)); reflexivity. Qed.

Lemma after_guarded_localStorage label req w :
  localStorage (browser (after_guarded label req w)) = localStorage (browser w).
Proof. unfold after_guarded. destruct (answer (upcoming w)); reflexivity. Qed.

Lemma after_guarded_sent label req w :
  sent (browser (after_guarded label req w)) = (sent (browser w) ++ [req])%list.
Proof. unfold after_guarded. destruct (answer (upcoming w)); reflexivity. Qed.

Lemma after_guarded_net label req w :
  net (browser (after_guarded label req w)) = tail (net (browser w)).
Proof. unfold after_guarded. destruct (answer (upcoming w)); reflexivity. Qed.

Lemma after_guarded_toasts label req w :
  toasts (browser (after_guarded label req w)) = toasts (browser w).
Proof. unfold after_guarded. destruct (answer (upcoming w)); reflexivity. Qed.

Lemma after_guarded_managers label req w :
  experienceManager (after_guarded label req w) = experienceManager w
  /\ itineraryManager (after_guarded label req w) = itineraryManager w
  /\ imageManager (after_guarded label req w) = imageManager w.
Proof. unfold after_guarded. destruct (answer (upcoming w)); repeat split; reflexivity. Qed.

Section BulkFetch.

Variable w : World.

Let base := API_BASE_URL (REACT_APP_API_URL (browser w)).
Let w0 := with_app (set_connectionError false) (with_app (set_isLoading true) w).
Let w1 := after_guarded "Failed to fetch experiences:" (experiencesAPI.getAll_request base None) w0.
Let w2 := after_guarded "Failed to fetch itineraries:" (itinerariesAPI.getAll_request base None) w1.
Let w3 := after_guarded "Failed to fetch images:" (imagesAPI.getAll_request base None) w2.
Let w4 := after_guarded "Failed to fetch updates:" (updatesAPI.getAll_request base) w3.

Lemma upcoming_nth (x : World) : upcoming x = nth 0 (net (browser x)) NetworkFailure.
Proof. unfold upcoming. destruct (net (browser x)); reflexivity. Qed.

Lemma nth_tail {A} (l : list A) (n : nat) (d : A) : nth n (tail l) d = nth (S n) l d.
Proof. destruct l; [destruct n|]; reflexivity. Qed.

Lemma fetchAllData_eq :
  fetchAllData w
  = (Ok tt,
     with_app (set_isLoading false)
       match bulk_data (guarded (answer (upcoming w0))) (guarded (answer (upcoming w1)))
                       (guarded (answer (upcoming w2))) (guarded (answer (upcoming w3))) with
       | Ok d => with_app (set_data d) w4
       | Throw _ => critical w4
       end).
Proof.
  unfold fetchAllData.
  unfold experiencesAPI.getAll, itinerariesAPI.getAll, imagesAPI.getAll, updatesAPI.getAll.
  cbv beta iota delta [mbind M_bind finally try_catch setIsLoading setConnectionError modify
                       lift setData console_error toast_].
  fold w0. rewrite or_empty_send_eq.
  change (API_BASE_URL (REACT_APP_API_URL (browser w0))) with base. fold w1.
  rewrite or_empty_send_eq.
  replace (API_BASE_URL (REACT_APP_API_URL (browser w1))) with base
    by (unfold w1; now rewrite after_guarded_env).
  fold w2. rewrite or_empty_send_eq.
  replace (API_BASE_URL (REACT_APP_API_URL (browser w2))) with base
    by (unfold w2, w1; now rewrite !after_guarded_env).
  fold w3. rewrite or_empty_send_eq.
  replace (API_BASE_URL (REACT_APP_API_URL (browser w3))) with base
    by (unfold w3, w2, w1; now rewrite !after_guarded_env).
  fold w4. unfold bulk_data.
  destruct (get (guarded (answer (upcoming w0))) "data"); [|reflexivity].
  destruct (get (guarded (answer (upcoming w1))) "data"); [|reflexivity].
  destruct (get (guarded (answer (upcoming w2))) "data"); [|reflexivity].
  destruct (get (guarded (answer (upcoming w3))) "data"); reflexivity.
Qed.

Lemma w4_facts :
  user (app w4) = user (app w)
  /\ localStorage (browser w4) = localStorage (browser w)
  /\ sent (browser w4) = (sent (browser w) ++ bulk_requests base)%list
  /\ toasts (browser w4) = toasts (browser w)
  /\ experienceManager w4 = experienceManager w
  /\ itineraryManager w4 = itineraryManager w
  /\ imageManager w4 = imageManager w.
Proof.
  unfold w4, w3, w2, w1.
  rewrite !after_guarded_app, !after_guarded_localStorage, !after_guarded_sent,
    !after_guarded_toasts.
  repeat split; try reflexivity.
  - unfold bulk_requests. now rewrite <- !app_assoc.
  - rewrite !(proj1 (after_guarded_managers _ _ _)). reflexivity.
  - rewrite !(proj1 (proj2 (after_guarded_managers _ _ _))). reflexivity.
  - rewrite !(proj2 (proj2 (after_guarded_managers _ _ _))). reflexivity.
Qed.

Lemma upcoming_chain :
  [ answer (upcoming w0); answer (upcoming w1); answer (upcoming w2); answer (upcoming w3) ]
  = next_four w.
Proof.
  unfold next_four. simpl. rewrite !upcoming_nth.
  unfold w3, w2, w1. rewrite !after_guarded_net, !nth_tail. reflexivity.
Qed.

End BulkFetch.

Lemma get_data_ok (v : jsval) : v <> JNull -> exists d, get v "data" = Ok d.
Proof. destruct v; intros H; try contradiction; simpl; eauto. Qed.

Lemma guarded_null (a : outcome jsval) : guarded a = JNull <-> a = Ok JNull.
Proof.
  destruct a as [v|e]; simpl; split; intros H; try congruence; discriminate.
Qed.

Lemma bulk_data_cases (v1 v2 v3 v4 : jsval) :
  (exists e, bulk_data v1 v2 v3 v4 = Throw e /\ In JNull [v1; v2; v3; v4])
  \/ (exists d, bulk_data v1 v2 v3 v4 = Ok d /\ ~ In JNull [v1; v2; v3; v4]).
Proof.
  unfold bulk_data.
  destruct v1; simpl; try (left; eexists; split; [reflexivity|now left]);
  destruct v2; simpl; try (left; eexists; split; [reflexivity|now (right; left)]);
  destruct v3; simpl; try (left; eexists; split; [reflexivity|now (right; right; left)]);
  destruct v4; simpl; try (left; eexists; split; [reflexivity|now (right; right; right; left)]);
  right; eexists; (split; [reflexivity|]); intros [H|[H|[H|[H|[]]]]]; discriminate.
Qed.

Lemma In_guarded (l : list (outcome jsval)) :
  In JNull (List.map guarded l) <-> In (Ok JNull) l.
Proof.
  induction l as [|a l IH]; simpl; [tauto|].
  rewrite IH, guarded_null. tauto.
Qed.

(** What every run of the bulk fetch leaves behind. *)
Lemma fetchAllData_facts (w : World) :
  fst (fetchAllData w) = Ok tt
  /\ isLoading (app (snd (fetchAllData w))) = false
  /\ sent (browser (snd (fetchAllData w)))
     = (sent (browser w) ++ bulk_requests (API_BASE_URL (REACT_APP_API_URL (browser w))))%list
  /\ localStorage (browser (snd (fetchAllData w))) = localStorage (browser w)
  /\ user (app (snd (fetchAllData w))) = user (app w)
  /\ experienceManager (snd (fetchAllData w)) = experienceManager w
  /\ itineraryManager (snd (fetchAllData w)) = itineraryManager w
  /\ imageManager (snd (fetchAllData w)) = imageManager w.
Proof.
  rewrite fetchAllData_eq.
  destruct (w4_facts w) as (Hu & Hl & Hs & _ & He & Hi & Hg).
  destruct (bulk_data _ _ _ _); simpl; repeat split; assumption.
Qed.

(** X5.  The bulk fetch always completes: whatever the network answers,
    [fetchAllData] returns normally with [isLoading] cleared, having sent
    exactly the four list requests for experiences, itineraries, images
    and updates in that order; it leaves the storage, the user and the
    three managers' own lists as they were. *)
Theorem fetchAllData_always_completes (w : World) :
  fst (fetchAllData w) = Ok tt
  /\ isLoading (app (snd (fetchAllData w))) = false
  /\ sent (browser (snd (fetchAllData w)))
     = (sent (browser w) ++ bulk_requests (API_BASE_URL (REACT_APP_API_URL (browser w))))%list
  /\ localStorage (browser (snd (fetchAllData w))) = localStorage (browser w)
  /\ user (app (snd (fetchAllData w))) = user (app w)
  /\ experienceManager (snd (fetchAllData w)) = experienceManager w
  /\ itineraryManager (snd (fetchAllData w)) = itineraryManager w
  /\ imageManager (snd (fetchAllData w)) = imageManager w.
Proof. exact (fetchAllData_facts w). Qed.

(** X6.  The connection-error flag is raised by the bulk fetch exactly when
    one of its four list calls resolves to the JSON value [null]: a
    rejected call, a non-2xx answer or a body of another shape never
    raises it. *)
Theorem connectionError_iff_null_answer (w : World) :
  connectionError (app (snd (fetchAllData w))) = true <-> In (Ok JNull) (next_four w).
Proof.
  rewrite fetchAllData_eq, <- upcoming_chain, <- In_guarded. simpl List.map.
  match goal with
  | |- context [bulk_data ?v1 ?v2 ?v3 ?v4] =>
      destruct (bulk_data_cases v1 v2 v3 v4) as [(e & -> & Hin) | (d & -> & Hnot)]
  end; simpl.
  - split; [intros _; exact Hin|reflexivity].
  - rewrite !after_guarded_app. simpl. split; [discriminate|intros H; contradiction].
Qed.

(** X7.  When one of the four list calls resolves to [null], the bulk
    fetch empties all four collections, those fetched without error
    included, raises the connection-error flag and shows the
    unable-to-connect toast; with a user logged in, the connection-error
    page is what renders. *)
Theorem null_answer_empties_every_collection (w : World) :
  In (Ok JNull) (next_four w) ->
  data (app (snd (fetchAllData w))) = no_data
  /\ connectionError (app (snd (fetchAllData w))) = true
  /\ toasts (browser (snd (fetchAllData w)))
     = (toasts (browser w)
        ++ [toast_error "Unable to connect to server. Please check your internet connection."])%list
  /\ (if truthy (user (app w)) then ConnectionErrorPage else LoginPage)
     = App_render (app (snd (fetchAllData w))).
Proof.
  intros H. rewrite <- upcoming_chain, <- In_guarded in H. simpl List.map in H.
  rewrite fetchAllData_eq.
  match goal with
  | |- context [bulk_data ?v1 ?v2 ?v3 ?v4] =>
      destruct (bulk_data_cases v1 v2 v3 v4) as [(e & -> & _) | (d & _ & Hnot)]
  end; [|contradiction].
  destruct (w4_facts w) as (Hu & _ & _ & Ht & _).
  simpl. rewrite Ht. repeat split.
  unfold App_render. simpl. rewrite Hu. destruct (truthy (user (app w))); reflexivity.
Qed.

(** The itineraries answered [null]: the experiences fetched are dropped
    with the rest. *)
Lemma null_answer_empties_every_collection_witness :
  In (Ok JNull) (next_four null_answers)
  /\ data (app (snd (fetchAllData null_answers))) = no_data
  /\ App_render (app (snd (fetchAllData null_answers))) = ConnectionErrorPage.
Proof.
  assert (H : In (Ok JNull) (next_four null_answers)) by (right; left; reflexivity).
  split; [exact H|].
  pose proof (null_answer_empties_every_collection null_answers H) as (H1 & _ & _ & H4).
  split; [exact H1|]. rewrite <- H4. reflexivity.
Defined.

(** ** App.tsx and LoginPage.tsx: logging in and out *)

Lemma fetchAllData_pair (w : World) : fetchAllData w = (Ok tt, snd (fetchAllData w)).
Proof.
  pose proof (proj1 (fetchAllData_facts w)) as H.
  destruct (fetchAllData w) as [r w']. simpl in *. now subst.
Qed.

Lemma handleLogin_eq (userData token : jsval) (w : World) :
  handleLogin userData token w
  = (Ok tt,
     match get userData "name" with
     | Ok name =>
         with_browser (add_toast (toast_success ("Welcome back, " +:+ template name +:+ "!")))
           (snd (fetchAllData (session_stored userData token w)))
     | Throw _ =>
         with_browser (add_toast (toast_error "Login successful but failed to load data"))
           (with_browser (add_console "Login error:")
              (snd (fetchAllData (session_stored userData token w))))
     end).
Proof.
  unfold handleLogin. monad_steps.
  change (with_app (set_user userData) _) with (session_stored userData token w).
  rewrite fetchAllData_pair.
  destruct (get userData "name"); reflexivity.
Qed.

Lemma fetchAllData_env (x : World) :
  REACT_APP_API_URL (browser (snd (fetchAllData x))) = REACT_APP_API_URL (browser x).
Proof.
  rewrite fetchAllData_eq. destruct (bulk_data _ _ _ _); simpl;
    now rewrite !after_guarded_env.
Qed.

Lemma handleLogin_facts (userData token : jsval) (w : World) :
  localStorage (browser (snd (handleLogin userData token w)))
  = <["authToken" := ToString token]>
      (<["token" := ToString token]>
         (<["user" := JSON_stringify userData]> (localStorage (browser w))))
  /\ user (app (snd (handleLogin userData token w))) = userData
  /\ REACT_APP_API_URL (browser (snd (handleLogin userData token w)))
     = REACT_APP_API_URL (browser w)
  /\ sent (browser (snd (handleLogin userData token w)))
     = (sent (browser w) ++ bulk_requests (API_BASE_URL (REACT_APP_API_URL (browser w))))%list.
Proof.
  rewrite handleLogin_eq. cbn [snd].
  destruct (fetchAllData_facts (session_stored userData token w))
    as (_ & _ & Hs & Hl & Hu & _).
  pose proof (fetchAllData_env (session_stored userData token w)) as He.
  destruct (get userData "name"); simpl; rewrite Hl, Hu, He, Hs; repeat split.
Qed.

Lemma JSON_stringify_nonempty (v : jsval) : JSON_stringify v <> "".
Proof.
  destruct v as [|[]|n|s|xs|fields]; simpl; try discriminate.
  apply Z_toString_nonempty.
Qed.

Lemma stored_session_lookup (ls : gmap string string) (u t : string) :
  (<["authToken" := t]> (<["token" := t]> (<["user" := u]> ls))) !! "token" = Some t
  /\ (<["authToken" := t]> (<["token" := t]> (<["user" := u]> ls))) !! "user" = Some u.
Proof. split; now simplify_map_eq. Qed.

Lemma reload_browser (x : World) : browser (reload x) = browser x.
Proof. reflexivity. Qed.

Lemma restored_facts (userData : jsval) (t : string) (x : World) :
  user (app (restored userData t x)) = userData
  /\ sent (browser (restored userData t x)) = sent (browser x)
  /\ REACT_APP_API_URL (browser (restored userData t x)) = REACT_APP_API_URL (browser x)
  /\ localStorage (browser (restored userData t x)) = <["authToken" := t]> (localStorage (browser x)).
Proof. repeat split. Qed.

(** The mount effect on a stored session that parses. *)
Lemma App_useEffect_restores (JSON_parse : string -> outcome jsval) (w : World)
    (userData : jsval) (t u : string) :
  t <> "" -> u <> "" ->
  JSON_parse u = Ok userData ->
  localStorage (browser w) !! "token" = Some t ->
  localStorage (browser w) !! "user" = Some u ->
  fst (App_useEffect JSON_parse w) = Ok tt
  /\ snd (App_useEffect JSON_parse w) = snd (fetchAllData (restored userData t w)).
Proof.
  intros Ht Hu Hparse Htok Husr.
  assert (E : App_useEffect JSON_parse w = (Ok tt, snd (fetchAllData (restored userData t w)))).
  { unfold App_useEffect. monad_steps.
    rewrite Htok, Husr, (truthy_str_Some _ Ht), (truthy_str_Some _ Hu).
    simpl. rewrite Hparse. reflexivity. }
  rewrite E. split; reflexivity.
Qed.

(** X8.  Logging in and reloading the page is a round trip: after
    [handleLogin] has stored the session, the mount effect of a freshly
    loaded [App] restores the same user and fetches the four collections
    again, provided the token is a non-empty string and [JSON.parse]
    reads back what [JSON.stringify] wrote for the user. *)
Theorem login_then_reload_restores_user
    (JSON_parse : string -> outcome jsval) (w : World) (userData : jsval) (t : string) :
  t <> "" ->
  JSON_parse (JSON_stringify userData) = Ok userData ->
  fst (App_useEffect JSON_parse (reload (snd (handleLogin userData (JStr t) w)))) = Ok tt
  /\ user (app (snd (App_useEffect JSON_parse (reload (snd (handleLogin userData (JStr t) w))))))
     = userData
  /\ sent (browser (snd (App_useEffect JSON_parse (reload (snd (handleLogin userData (JStr t) w))))))
     = (sent (browser (snd (handleLogin userData (JStr t) w)))
        ++ bulk_requests (API_BASE_URL (REACT_APP_API_URL (browser w))))%list
  /\ getAuthHeaders
       (localStorage (browser (snd (App_useEffect JSON_parse
                                      (reload (snd (handleLogin userData (JStr t) w))))))) !! "Authorization"
     = Some ("Bearer " +:+ t).
Proof.
  intros Ht Hparse.
  destruct (handleLogin_facts userData (JStr t) w) as (Hls & _ & Henv & _).
  change (ToString (JStr t)) with t in Hls.
  destruct (stored_session_lookup (localStorage (browser w)) (JSON_stringify userData) t)
    as [Htok Husr].
  rewrite <- Hls in Htok, Husr.
  rewrite <- (reload_browser (snd (handleLogin userData (JStr t) w))) in Htok, Husr.
  destruct (App_useEffect_restores JSON_parse _ userData t (JSON_stringify userData)
              Ht (JSON_stringify_nonempty userData) Hparse Htok Husr) as [E1 E2].
  rewrite E1, E2.
  destruct (fetchAllData_facts
              (restored userData t (reload (snd (handleLogin userData (JStr t) w)))))
    as (_ & _ & Hs & Hl & Hu & _).
  rewrite Hs, Hl, Hu.
  destruct (restored_facts userData t (reload (snd (handleLogin userData (JStr t) w))))
    as (R1 & R2 & R3 & R4).
  rewrite R1, R2, R3, R4, !reload_browser, Henv.
  split; [reflexivity|]. split; [reflexivity|]. split; [reflexivity|].
  apply getAuthHeaders_bearer; [apply lookup_insert_eq|assumption].
Qed.

(** The user of scenario A, logged in at a fresh page and read back by the
    JSON reader. *)
Lemma login_then_reload_restores_user_witness :
  "t1" <> ""
  /\ read_json (JSON_stringify (JObj [("email", JStr "a@b.com"); ("role", JStr "user"); ("name", JStr "A")]))
     = Ok (JObj [("email", JStr "a@b.com"); ("role", JStr "user"); ("name", JStr "A")])
  /\ user (app (snd (App_useEffect read_json
                       (reload (snd (handleLogin
                                       (JObj [("email", JStr "a@b.com"); ("role", JStr "user"); ("name", JStr "A")])
                                       (JStr "t1") fresh))))))
     = JObj [("email", JStr "a@b.com"); ("role", JStr "user"); ("name", JStr "A")].
Proof.
  split; [discriminate|]. split; [vm_compute; reflexivity|].
  exact (proj1 (proj2 (login_then_reload_restores_user read_json fresh
    (JObj [("email", JStr "a@b.com"); ("role", JStr "user"); ("name", JStr "A")]) "t1"
    ltac:(discriminate) ltac:(vm_compute; reflexivity)))).
Defined.

Lemma handleLogout_facts (w : World) :
  Forall (fun k => localStorage (browser (snd (handleLogout w))) !! k = None)
    ["user"; "token"; "authToken"]
  /\ user (app (snd (handleLogout w))) = JNull
  /\ data (app (snd (handleLogout w))) = no_data
  /\ connectionError (app (snd (handleLogout w))) = false
  /\ App_render (app (snd (handleLogout w))) = LoginPage.
Proof.
  rewrite handleLogout_eq. simpl.
  repeat split. repeat constructor; now simplify_map_eq.
Qed.

(** X9.  Logging out undoes logging in: after [handleLogin] followed by
    [handleLogout] the three persisted keys are absent, the user is
    [null], the collections are empty, the connection-error flag is down
    and the login page is what renders, whatever the login data and the
    network were. *)
Theorem logout_undoes_login (w : World) (userData token : jsval) :
  Forall (fun k => localStorage (browser (snd (handleLogout (snd (handleLogin userData token w)))))
                     !! k = None)
    ["user"; "token"; "authToken"]
  /\ user (app (snd (handleLogout (snd (handleLogin userData token w))))) = JNull
  /\ data (app (snd (handleLogout (snd (handleLogin userData token w))))) = no_data
  /\ connectionError (app (snd (handleLogout (snd (handleLogin userData token w))))) = false
  /\ App_render (app (snd (handleLogout (snd (handleLogin userData token w))))) = LoginPage.
Proof. exact (handleLogout_facts (snd (handleLogin userData token w))). Qed.

(** X10.  Without both a non-empty token and a non-empty user record in
    storage the mount effect restores nothing: it sends no request,
    leaves the storage and the user as they are and clears [isLoading];
    a token stored without a user record stays in storage. *)
Theorem no_stored_session_no_restore (JSON_parse : string -> outcome jsval) (w : World) :
  truthy_str (localStorage (browser w) !! "token")
  && truthy_str (localStorage (browser w) !! "user") = false ->
  fst (App_useEffect JSON_parse w) = Ok tt
  /\ browser (snd (App_useEffect JSON_parse w)) = browser w
  /\ user (app (snd (App_useEffect JSON_parse w))) = user (app w)
  /\ isLoading (app (snd (App_useEffect JSON_parse w))) = false.
Proof.
  intros H. unfold App_useEffect. monad_steps. rewrite H. simpl. repeat split.
Qed.

Lemma no_stored_session_no_restore_witness :
  truthy_str (localStorage (browser token_without_user) !! "token")
  && truthy_str (localStorage (browser token_without_user) !! "user") = false
  /\ browser (snd (App_useEffect read_json token_without_user)) = browser token_without_user.
Proof.
  split; [reflexivity|].
  exact (proj1 (proj2 (no_stored_session_no_restore read_json token_without_user eq_refl))).
Defined.

Lemma login_eq (email password : string) (w : World) :
  authAPI.login email password w
  = match answer (upcoming w) with
    | Throw e =>
        (Throw e,
         exchanged (authAPI.login_request (API_BASE_URL (REACT_APP_API_URL (browser w)))
                      email password) w)
    | Ok data =>
        match get data "token" with
        | Throw e =>
            (Throw e,
             exchanged (authAPI.login_request (API_BASE_URL (REACT_APP_API_URL (browser w)))
                          email password) w)
        | Ok token =>
            (Ok data,
             if truthy_opt token then
               with_browser
                 (fun b => set_localStorage (<["authToken" := template token]> (localStorage b)) b)
                 (exchanged (authAPI.login_request (API_BASE_URL (REACT_APP_API_URL (browser w)))
                               email password) w)
             else
               exchanged (authAPI.login_request (API_BASE_URL (REACT_APP_API_URL (browser w)))
                            email password) w)
        end
    end.
Proof.
  unfold authAPI.login. monad_steps. rewrite send_eq.
  destruct (answer (upcoming w)) as [data|e]; [|reflexivity].
  destruct (get data "token") as [[t|]|e]; simpl; try reflexivity.
  destruct (truthy t); reflexivity.
Qed.

(** X11.  A refused or failed login changes nothing but the form: the
    error shown is the message of the failure ([Login failed] when it has
    none), the password field is cleared, the email kept and [loading]
    reset; only the login request was sent, and the storage and the user
    are as before. *)
Theorem refused_login_changes_only_the_form (onLogin : jsval -> jsval -> M unit)
    (s : LoginPage.State) (w : World) (e : exn) :
  LoginPage.email s <> "" ->
  LoginPage.password s <> "" ->
  answer (upcoming w) = Throw e ->
  fst (LoginPage.handleSubmit onLogin s w)
  = Ok {| LoginPage.email := LoginPage.email s;
          LoginPage.password := "";
          LoginPage.error := if String.eqb (exn_message e) "" then "Login failed"
                             else exn_message e;
          LoginPage.loading := false |}
  /\ sent (browser (snd (LoginPage.handleSubmit onLogin s w)))
     = (sent (browser w)
        ++ [authAPI.login_request (API_BASE_URL (REACT_APP_API_URL (browser w)))
              (LoginPage.email s) (LoginPage.password s)])%list
  /\ localStorage (browser (snd (LoginPage.handleSubmit onLogin s w))) = localStorage (browser w)
  /\ app (snd (LoginPage.handleSubmit onLogin s w)) = app w.
Proof.
  intros He Hp Ha. unfold LoginPage.handleSubmit. simpl.
  destruct (String.eqb_spec (LoginPage.email s) ""); [contradiction|].
  destruct (String.eqb_spec (LoginPage.password s) ""); [contradiction|]. simpl.
  monad_steps. rewrite login_eq, Ha. simpl. repeat split.
Qed.

Lemma refused_login_changes_only_the_form_witness :
  LoginPage.email login_form <> ""
  /\ LoginPage.password login_form <> ""
  /\ answer (upcoming login_refused) = Throw (Error "Invalid credentials")
  /\ fst (LoginPage.handleSubmit handleLogin login_form login_refused)
     = Ok {| LoginPage.email := "a@b.com"; LoginPage.password := "";
             LoginPage.error := "Invalid credentials"; LoginPage.loading := false |}.
Proof.
  split; [discriminate|]. split; [discriminate|]. split; [reflexivity|].
  exact (proj1 (refused_login_changes_only_the_form handleLogin login_form login_refused
                  (Error "Invalid credentials")
                  ltac:(discriminate) ltac:(discriminate) eq_refl)).
Defined.

Lemma login_answered_facts (email password t : string) (w : World) :
  localStorage (browser (login_answered email password t w))
  = <["authToken" := t]> (localStorage (browser w))
  /\ REACT_APP_API_URL (browser (login_answered email password t w))
     = REACT_APP_API_URL (browser w)
  /\ sent (browser (login_answered email password t w))
     = (sent (browser w)
        ++ [authAPI.login_request (API_BASE_URL (REACT_APP_API_URL (browser w)))
              email password])%list.
Proof. split; [reflexivity|]. split; reflexivity. Qed.

(** An accepted login hands the user and the token to [onLogin]. *)
Lemma handleSubmit_accepted (onLogin : jsval -> jsval -> M unit)
    (s : LoginPage.State) (w : World) (response u : jsval) (t : string) :
  LoginPage.email s <> "" ->
  LoginPage.password s <> "" ->
  answer (upcoming w) = Ok response ->
  get response "user" = Ok (Some u) ->
  truthy u = true ->
  get response "token" = Ok (Some (JStr t)) ->
  t <> "" ->
  fst (LoginPage.handleSubmit onLogin s w)
  = Ok {| LoginPage.email := LoginPage.email s;
          LoginPage.password := LoginPage.password s;
          LoginPage.error := "";
          LoginPage.loading := false |}
  /\ snd (LoginPage.handleSubmit onLogin s w)
     = snd (onLogin u (JStr t)
              (login_answered (LoginPage.email s) (LoginPage.password s) t w)).
Proof.
  intros He Hp Ha Hu Htu Htok Ht.
  unfold LoginPage.handleSubmit. simpl.
  destruct (String.eqb_spec (LoginPage.email s) ""); [contradiction|].
  destruct (String.eqb_spec (LoginPage.password s) ""); [contradiction|]. simpl.
  monad_steps. rewrite login_eq, Ha, Htok. simpl.
  destruct (String.eqb_spec t ""); [contradiction|]. simpl.
  rewrite Hu, Htok, Htu. simpl.
  destruct (String.eqb_spec t ""); [contradiction|]. split; reflexivity.
Qed.

(** X12.  A successful login (scenario A): when the server answers the
    login with a truthy [user] and a non-empty string [token], the form
    ends with no error and [loading] reset, the storage holds the user
    record as JSON under [user] and the token under [token] and
    [authToken], the user is the one of the answer, and the login request
    was followed by the four list requests. *)
Theorem successful_login_stores_the_session
    (s : LoginPage.State) (w : World) (response u : jsval) (t : string) :
  LoginPage.email s <> "" ->
  LoginPage.password s <> "" ->
  answer (upcoming w) = Ok response ->
  get response "user" = Ok (Some u) ->
  truthy u = true ->
  get response "token" = Ok (Some (JStr t)) ->
  t <> "" ->
  fst (LoginPage.handleSubmit handleLogin s w)
  = Ok {| LoginPage.email := LoginPage.email s;
          LoginPage.password := LoginPage.password s;
          LoginPage.error := "";
          LoginPage.loading := false |}
  /\ localStorage (browser (snd (LoginPage.handleSubmit handleLogin s w)))
     = <["authToken" := t]>
         (<["token" := t]>
            (<["user" := JSON_stringify u]>
               (<["authToken" := t]> (localStorage (browser w)))))
  /\ user (app (snd (LoginPage.handleSubmit handleLogin s w))) = u
  /\ sent (browser (snd (LoginPage.handleSubmit handleLogin s w)))
     = (sent (browser w)
        ++ authAPI.login_request (API_BASE_URL (REACT_APP_API_URL (browser w)))
             (LoginPage.email s) (LoginPage.password s)
        :: bulk_requests (API_BASE_URL (REACT_APP_API_URL (browser w))))%list.
Proof.
  intros He Hp Ha Hu Htu Htok Ht.
  destruct (handleSubmit_accepted handleLogin s w response u t He Hp Ha Hu Htu Htok Ht) as [E1 E2].
  rewrite E1, E2.
  destruct (handleLogin_facts u (JStr t)
              (login_answered (LoginPage.email s) (LoginPage.password s) t w))
    as (Hl & Hus & _ & Hs).
  destruct (login_answered_facts (LoginPage.email s) (LoginPage.password s) t w)
    as (L1 & L2 & L3).
  rewrite Hl, Hus, Hs, L1, L2, L3, <- app_assoc.
  repeat split.
Qed.

Lemma successful_login_stores_the_session_witness :
  LoginPage.email login_form <> ""
  /\ LoginPage.password login_form <> ""
  /\ "t1" <> ""
  /\ localStorage (browser (snd (LoginPage.handleSubmit handleLogin login_form scenario_A))) !! "token"
     = Some "t1"
  /\ user (app (snd (LoginPage.handleSubmit handleLogin login_form scenario_A)))
     = JObj [("email", JStr "a@b.com"); ("role", JStr "user"); ("name", JStr "A")].
Proof.
  split; [discriminate|]. split; [discriminate|]. split; [discriminate|].
  pose proof (successful_login_stores_the_session login_form scenario_A _
                (JObj [("email", JStr "a@b.com"); ("role", JStr "user"); ("name", JStr "A")])
                "t1" ltac:(discriminate) ltac:(discriminate) eq_refl eq_refl eq_refl eq_refl
                ltac:(discriminate))
    as (_ & H2 & H3 & _).
  split; [rewrite H2; reflexivity|exact H3].
Defined.

(** X13.  An answer with a token but no user is shown as a failed login,
    yet its token is already stored: [authAPI.login] writes [authToken]
    before [LoginPage] looks for the user, so the form reports
    [Invalid email or password] while the next authenticated request
    carries the new token; the user and the keys [user] and [token] are
    untouched. *)
Theorem token_without_user_is_stored (onLogin : jsval -> jsval -> M unit)
    (s : LoginPage.State) (w : World) (response : jsval) (t : string) :
  LoginPage.email s <> "" ->
  LoginPage.password s <> "" ->
  answer (upcoming w) = Ok response ->
  get response "user" = Ok None ->
  get response "token" = Ok (Some (JStr t)) ->
  t <> "" ->
  fst (LoginPage.handleSubmit onLogin s w)
  = Ok {| LoginPage.email := LoginPage.email s;
          LoginPage.password := LoginPage.password s;
          LoginPage.error := "Invalid email or password";
          LoginPage.loading := false |}
  /\ getAuthHeaders (localStorage (browser (snd (LoginPage.handleSubmit onLogin s w)))) !! "Authorization"
     = Some ("Bearer " +:+ t)
  /\ localStorage (browser (snd (LoginPage.handleSubmit onLogin s w))) !! "user"
     = localStorage (browser w) !! "user"
  /\ localStorage (browser (snd (LoginPage.handleSubmit onLogin s w))) !! "token"
     = localStorage (browser w) !! "token"
  /\ app (snd (LoginPage.handleSubmit onLogin s w)) = app w.
Proof.
  intros He Hp Ha Hu Htok Ht. unfold LoginPage.handleSubmit. simpl.
  destruct (String.eqb_spec (LoginPage.email s) ""); [contradiction|].
  destruct (String.eqb_spec (LoginPage.password s) ""); [contradiction|]. simpl.
  monad_steps. rewrite login_eq, Ha, Htok. simpl.
  destruct (String.eqb_spec t ""); [contradiction|]. simpl.
  rewrite Hu, Htok. simpl.
  split; [reflexivity|].
  split; [apply getAuthHeaders_bearer; [apply lookup_insert_eq|assumption]|].
  split; [now rewrite lookup_insert_ne|].
  split; [now rewrite lookup_insert_ne|reflexivity].
Qed.

Lemma token_without_user_is_stored_witness :
  LoginPage.email login_form <> ""
  /\ LoginPage.password login_form <> ""
  /\ "t9" <> ""
  /\ LoginPage.error (match fst (LoginPage.handleSubmit handleLogin login_form token_only) with
                      | Ok s => s
                      | Throw _ => login_form
                      end) = "Invalid email or password"
  /\ localStorage (browser (snd (LoginPage.handleSubmit handleLogin login_form token_only))) !! "authToken"
     = Some "t9".
Proof.
  split; [discriminate|]. split; [discriminate|]. split; [discriminate|].
  pose proof (token_without_user_is_stored handleLogin login_form token_only _ "t9"
                ltac:(discriminate) ltac:(discriminate) eq_refl eq_refl eq_refl
                ltac:(discriminate)) as (H1 & _).
  split; [rewrite H1; reflexivity|vm_compute; reflexivity].
Defined.

(** ** The managers' forms *)

Lemma append_cons (c : ascii) (s t : string) : String c s +:+ t = String c (s +:+ t).
Proof. reflexivity. Qed.

Lemma split_lines_not_nil (s : string) : split_lines s <> [].
Proof.
  induction s as [|c s IH]; simpl; [discriminate|].
  destruct (Ascii.eqb c newline); [discriminate|].
  destruct (split_lines s); [contradiction|discriminate].
Qed.

Lemma split_lines_app (p s : string) :
  has_newline p = false ->
  split_lines (p +:+ s)
  = match split_lines s with
    | l :: ls => (p +:+ l) :: ls
    | [] => [p]
    end.
Proof.
  induction p as [|c p IH]; intros Hp.
  - change ("" +:+ s) with s. destruct (split_lines s) eqn:E; [|reflexivity].
    now destruct (split_lines_not_nil s).
  - simpl in Hp. apply orb_false_iff in Hp as [Hc Hp].
    rewrite append_cons. simpl. rewrite Hc, (IH Hp).
    destruct (split_lines s); reflexivity.
Qed.

Lemma split_lines_one (p : string) : has_newline p = false -> split_lines p = [p].
Proof.
  intros Hp. rewrite <- (append_empty_r p) at 1. rewrite (split_lines_app _ _ Hp). simpl.
  now rewrite append_empty_r.
Qed.

(** Splitting at the newlines undoes joining with newlines. *)
Lemma split_lines_join (ls : list string) :
  ls <> [] ->
  Forall (fun l => has_newline l = false) ls ->
  split_lines (join (String newline "") ls) = ls.
Proof.
  induction ls as [|l ls IH]; intros Hne Hall; [contradiction|].
  inversion Hall as [|? ? Hl Hls]; subst.
  destruct ls as [|l' ls'].
  - simpl. now apply split_lines_one.
  - change (join (String newline "") (l :: l' :: ls'))
      with (l +:+ String newline "" +:+ join (String newline "") (l' :: ls')).
    rewrite (split_lines_app _ _ Hl).
    change (String newline "" +:+ ?x) with (String newline x).
    cbn [split_lines]. rewrite Ascii.eqb_refl.
    rewrite IH by (assumption || discriminate).
    now rewrite append_empty_r.
Qed.

Lemma nonblank_lines_id (ls : list string) :
  Forall (fun l => blank l = false) ls -> nonblank_lines ls = ls.
Proof.
  induction 1 as [|l ls Hl _ IH]; [reflexivity|].
  unfold nonblank_lines in *. simpl. now rewrite Hl, IH.
Qed.

Lemma blank_empty : blank "" = true.
Proof. reflexivity. Qed.

Lemma lines_round_trip (ls : list string) :
  Forall (fun l => clean_line l = true) ls ->
  nonblank_lines (split_lines (join (String newline "") ls)) = ls.
Proof.
  intros H. destruct ls as [|l ls]; [reflexivity|].
  rewrite split_lines_join.
  - apply nonblank_lines_id. eapply Forall_impl; [|exact H].
    intros a Ha. unfold clean_line in Ha. apply andb_true_iff in Ha as [_ Hb].
    now apply negb_true_iff.
  - discriminate.
  - eapply Forall_impl; [|exact H].
    intros a Ha. unfold clean_line in Ha. apply andb_true_iff in Ha as [Hn _].
    now apply negb_true_iff.
Qed.

(** X14.  Editing an experience and saving it unchanged sends it back as
    it is: when every highlight is one non-blank line and no file is
    selected, the payload built after [handleEdit] is the JSON object of
    the experience's destination, region, title, description, highlights
    and image URL (the empty string when it has none). *)
Theorem experience_edit_round_trip (experience : ExperienceForm.Experience) (ui : ExperienceForm.UI) :
  Forall (fun h => clean_line h = true) (ExperienceForm.highlights experience) ->
  ExperienceForm.selectedImage ui = None ->
  ExperienceForm.experienceData (ExperienceForm.handleEdit experience ui)
  = Plain (JObj
      [ ("destination", JStr (ExperienceForm.destination experience));
        ("region", JStr (ExperienceForm.region experience));
        ("title", JStr (ExperienceForm.title experience));
        ("description", JStr (ExperienceForm.description experience));
        ("highlights", JArr (List.map JStr (ExperienceForm.highlights experience)));
        ("imageUrl", JStr (default "" (ExperienceForm.imageUrl experience))) ]).
Proof.
  intros Hclean Hsel.
  unfold ExperienceForm.experienceData, ExperienceForm.highlights_of. simpl.
  rewrite Hsel, (lines_round_trip _ Hclean). reflexivity.
Qed.

Lemma experience_edit_round_trip_witness :
  Forall (fun h => clean_line h = true) ["Tea gardens"; "Backwaters"]
  /\ ExperienceForm.experienceData
       (ExperienceForm.handleEdit
          {| ExperienceForm.id := "e1"; ExperienceForm.destination := "Kerala";
             ExperienceForm.region := "South"; ExperienceForm.title := "Slow boats";
             ExperienceForm.description := "Two days on the water";
             ExperienceForm.highlights := ["Tea gardens"; "Backwaters"];
             ExperienceForm.imageUrl := None; ExperienceForm.createdAt := 0 |}
          ExperienceForm.initial)
     = Plain (JObj
         [ ("destination", JStr "Kerala"); ("region", JStr "South");
           ("title", JStr "Slow boats"); ("description", JStr "Two days on the water");
           ("highlights", JArr [JStr "Tea gardens"; JStr "Backwaters"]);
           ("imageUrl", JStr "") ]).
Proof.
  assert (H : Forall (fun h => clean_line h = true) ["Tea gardens"; "Backwaters"])
    by (repeat constructor).
  split; [exact H|].
  exact (experience_edit_round_trip
           {| ExperienceForm.id := "e1"; ExperienceForm.destination := "Kerala";
              ExperienceForm.region := "South"; ExperienceForm.title := "Slow boats";
              ExperienceForm.description := "Two days on the water";
              ExperienceForm.highlights := ["Tea gardens"; "Backwaters"];
              ExperienceForm.imageUrl := None; ExperienceForm.createdAt := 0 |}
           ExperienceForm.initial H eq_refl).
Defined.

Ltac form_steps :=
  cbv beta iota delta
    [mbind M_bind mret M_ret throw lift modify try_catch finally detached run
     toast_ console_error console_log handleUpdateData setData
     ExperienceManager.setExperiences ExperienceManager.setIsLoading
     ItineraryManager.setItineraries ItineraryManager.setIsLoading
     ImageManager.setImages ImageManager.setIsLoading
     experiencesAPI.getAll itinerariesAPI.getAll imagesAPI.getAll
     experiencesAPI.create experiencesAPI.update experiencesAPI.delete
     itinerariesAPI.create itinerariesAPI.update itinerariesAPI.delete
     imagesAPI.delete].

Lemma fetchExperiences_listed (props : AppData) (w : World) (v : jsval) (xs : list jsval) :
  answer (upcoming w) = Ok v -> carries xs v ->
  ExperienceManager.fetchExperiences props w
  = (Ok tt,
     with_experienceManager (set_busy false)
       (with_app (set_data (with_experiences (JArr xs) props))
          (with_experienceManager (set_items (JArr xs))
             (exchanged (experiencesAPI.getAll_request
                           (API_BASE_URL (REACT_APP_API_URL (browser w))) None)
                (with_experienceManager (set_busy true) w))))).
Proof.
  intros H Hc. destruct (carries_extract _ _ Hc) as (d & Hd & Hor).
  unfold ExperienceManager.fetchExperiences. form_steps.
  rewrite send_eq, upcoming_with_experienceManager, H, Hd, Hor. reflexivity.
Qed.

Lemma fetchItineraries_listed (props : AppData) (w : World) (v : jsval) (xs : list jsval) :
  answer (upcoming w) = Ok v -> carries xs v ->
  ItineraryManager.fetchItineraries props w
  = (Ok tt,
     with_itineraryManager (set_busy false)
       (with_app (set_data (with_itineraries (JArr xs) props))
          (with_itineraryManager (set_items (JArr xs))
             (exchanged (itinerariesAPI.getAll_request
                           (API_BASE_URL (REACT_APP_API_URL (browser w))) None)
                (with_itineraryManager (set_busy true) w))))).
Proof.
  intros H Hc. destruct (carries_extract _ _ Hc) as (d & Hd & Hor).
  unfold ItineraryManager.fetchItineraries. form_steps.
  rewrite send_eq, upcoming_with_itineraryManager, H, Hd, Hor. reflexivity.
Qed.

(** X15.  Saving the experience form or the itinerary form is
    mutate-then-refetch: when the create (or, while editing, the update of
    the edited id) succeeds and the list call answers, exactly those two
    requests were sent, the manager's list and the shared snapshot hold
    the list that came back, the busy flag is reset, and the dialog is
    closed with the form reset. *)
Theorem submit_refetches
    (props : AppData) (eui : ExperienceForm.UI) (iui : ItineraryForm.UI) (w : World)
    (o o' : fetch_outcome) (rest : list fetch_outcome) (r v : jsval) (xs : list jsval) :
  net (browser w) = o :: o' :: rest ->
  answer o = Ok r -> answer o' = Ok v -> carries xs v ->
  (fst (ExperienceForm.handleSubmit props eui w)
   = Ok (ExperienceForm.resetForm (ExperienceForm.setIsDialogOpen false eui))
   /\ sent (browser (snd (ExperienceForm.handleSubmit props eui w)))
      = (sent (browser w)
         ++ [ match ExperienceForm.editingExperience eui with
              | Some editing =>
                  experiencesAPI.update_request (API_BASE_URL (REACT_APP_API_URL (browser w)))
                    (localStorage (browser w)) (ExperienceForm.id editing)
                    (ExperienceForm.experienceData eui)
              | None =>
                  experiencesAPI.create_request (API_BASE_URL (REACT_APP_API_URL (browser w)))
                    (localStorage (browser w)) (ExperienceForm.experienceData eui)
              end;
              experiencesAPI.getAll_request (API_BASE_URL (REACT_APP_API_URL (browser w))) None ])%list
   /\ items (experienceManager (snd (ExperienceForm.handleSubmit props eui w))) = JArr xs
   /\ data (app (snd (ExperienceForm.handleSubmit props eui w))) = with_experiences (JArr xs) props
   /\ busy (experienceManager (snd (ExperienceForm.handleSubmit props eui w))) = false)
  /\ (fst (ItineraryForm.handleSubmit props iui w)
   = Ok (ItineraryForm.resetForm (ItineraryForm.setIsDialogOpen false iui))
   /\ sent (browser (snd (ItineraryForm.handleSubmit props iui w)))
      = (sent (browser w)
         ++ [ match ItineraryForm.editingItinerary iui with
              | Some editing =>
                  itinerariesAPI.update_request (API_BASE_URL (REACT_APP_API_URL (browser w)))
                    (localStorage (browser w)) (ItineraryForm.id editing)
                    (ItineraryForm.itineraryData iui)
              | None =>
                  itinerariesAPI.create_request (API_BASE_URL (REACT_APP_API_URL (browser w)))
                    (localStorage (browser w)) (ItineraryForm.itineraryData iui)
              end;
              itinerariesAPI.getAll_request (API_BASE_URL (REACT_APP_API_URL (browser w))) None ])%list
   /\ items (itineraryManager (snd (ItineraryForm.handleSubmit props iui w))) = JArr xs
   /\ data (app (snd (ItineraryForm.handleSubmit props iui w))) = with_itineraries (JArr xs) props
   /\ busy (itineraryManager (snd (ItineraryForm.handleSubmit props iui w))) = false).
Proof.
  intros Hnet Ho Ho' Hc. split.
  - unfold ExperienceForm.handleSubmit.
    destruct (ExperienceForm.editingExperience eui) as [editing|]; form_steps;
      rewrite send_eq, upcoming_with_experienceManager, (upcoming_cons _ _ _ Hnet), Ho;
      match goal with
      | |- context [ExperienceManager.fetchExperiences props ?W] =>
          assert (HW : answer (upcoming W) = Ok v)
            by (unfold upcoming; simpl; rewrite Hnet; exact Ho');
          rewrite (fetchExperiences_listed props W v xs HW Hc)
      end;
      simpl; rewrite <- app_assoc; repeat split.
  - unfold ItineraryForm.handleSubmit.
    destruct (ItineraryForm.editingItinerary iui) as [editing|]; form_steps;
      rewrite send_eq, upcoming_with_itineraryManager, (upcoming_cons _ _ _ Hnet), Ho;
      match goal with
      | |- context [ItineraryManager.fetchItineraries props ?W] =>
          assert (HW : answer (upcoming W) = Ok v)
            by (unfold upcoming; simpl; rewrite Hnet; exact Ho');
          rewrite (fetchItineraries_listed props W v xs HW Hc)
      end;
      simpl; rewrite <- app_assoc; repeat split.
Qed.

Lemma submit_refetches_witness :
  net (browser adding_an_experience)
  = [ ok200 (enveloped [item "e9"]); ok200 (enveloped [item "e1"; item "e9"]) ]
  /\ items (experienceManager
              (snd (ExperienceForm.handleSubmit no_data ExperienceForm.initial adding_an_experience)))
     = JArr [item "e1"; item "e9"].
Proof.
  split; [reflexivity|].
  exact (proj1 (proj2 (proj2 (proj1
    (submit_refetches no_data ExperienceForm.initial ItineraryForm.initial adding_an_experience
       (ok200 (enveloped [item "e9"])) (ok200 (enveloped [item "e1"; item "e9"])) []
       (enveloped [item "e9"]) (enveloped [item "e1"; item "e9"]) [item "e1"; item "e9"]
       eq_refl eq_refl eq_refl
       (carries_wrapped [item "e1"; item "e9"]
          [("data", JArr [item "e1"; item "e9"])] eq_refl)))))).
Defined.

(** X16.  A failed save leaves everything in place, in the experience and
    in the itinerary form alike: when the create or update call fails, no
    list request follows, the manager's list and the shared snapshot are
    unchanged, the dialog stays as it was (open, with what was typed),
    the busy flag is reset and the toast names the operation that
    failed. *)
Theorem failed_submit_keeps_the_form
    (props : AppData) (eui : ExperienceForm.UI) (iui : ItineraryForm.UI) (w : World) (e : exn) :
  answer (upcoming w) = Throw e ->
  (fst (ExperienceForm.handleSubmit props eui w) = Ok eui
   /\ length (sent (browser (snd (ExperienceForm.handleSubmit props eui w))))
      = S (length (sent (browser w)))
   /\ items (experienceManager (snd (ExperienceForm.handleSubmit props eui w)))
      = items (experienceManager w)
   /\ app (snd (ExperienceForm.handleSubmit props eui w)) = app w
   /\ busy (experienceManager (snd (ExperienceForm.handleSubmit props eui w))) = false
   /\ toasts (browser (snd (ExperienceForm.handleSubmit props eui w)))
      = (toasts (browser w)
         ++ [toast_error match ExperienceForm.editingExperience eui with
                         | Some _ => "Failed to update experience"
                         | None => "Failed to add experience"
                         end])%list)
  /\ (fst (ItineraryForm.handleSubmit props iui w) = Ok iui
   /\ length (sent (browser (snd (ItineraryForm.handleSubmit props iui w))))
      = S (length (sent (browser w)))
   /\ items (itineraryManager (snd (ItineraryForm.handleSubmit props iui w)))
      = items (itineraryManager w)
   /\ app (snd (ItineraryForm.handleSubmit props iui w)) = app w
   /\ busy (itineraryManager (snd (ItineraryForm.handleSubmit props iui w))) = false
   /\ toasts (browser (snd (ItineraryForm.handleSubmit props iui w)))
      = (toasts (browser w)
         ++ [toast_error match ItineraryForm.editingItinerary iui with
                         | Some _ => "Failed to update itinerary"
                         | None => "Failed to add itinerary"
                         end])%list).
Proof.
  intros H. split.
  - unfold ExperienceForm.handleSubmit.
    destruct (ExperienceForm.editingExperience eui); form_steps;
      rewrite send_eq, upcoming_with_experienceManager, H; simpl;
      rewrite length_app, Nat.add_comm; repeat split.
  - unfold ItineraryForm.handleSubmit.
    destruct (ItineraryForm.editingItinerary iui); form_steps;
      rewrite send_eq, upcoming_with_itineraryManager, H; simpl;
      rewrite length_app, Nat.add_comm; repeat split.
Qed.

Lemma failed_submit_keeps_the_form_witness :
  answer (upcoming experiences_cached) = Throw (TypeError "Failed to fetch")
  /\ fst (ExperienceForm.handleSubmit no_data (ExperienceForm.handleAdd ExperienceForm.initial)
            experiences_cached)
     = Ok (ExperienceForm.handleAdd ExperienceForm.initial)
  /\ items (experienceManager
              (snd (ExperienceForm.handleSubmit no_data
                      (ExperienceForm.handleAdd ExperienceForm.initial) experiences_cached)))
     = JArr [item "e1"].
Proof.
  split; [reflexivity|].
  pose proof (failed_submit_keeps_the_form no_data
                (ExperienceForm.handleAdd ExperienceForm.initial) ItineraryForm.initial
                experiences_cached (TypeError "Failed to fetch") eq_refl)
    as [(H1 & _ & H3 & _) _].
  split; [exact H1|exact H3].
Defined.

(** X17.  [handleEdit] of the experience and itinerary forms keeps a file
    picked earlier: after opening the add dialog, picking a file within
    the size limit and cancelling, editing an item and saving uploads
    that file as the item's image (a multipart payload headed by the
    file) while the preview shows the item's own image URL; the image
    form's [handleEdit] drops the file instead. *)
Theorem edit_keeps_the_file_picked_earlier
    (f : FileObj) (dataUrl : string) (w : World)
    (experience : ExperienceForm.Experience) (eui : ExperienceForm.UI)
    (itinerary : ItineraryForm.Itinerary) (iui : ItineraryForm.UI)
    (image : ImageForm.DestinationImage) (gui : ImageForm.UI) :
  too_large f = false ->
  (exists picked fields,
     ExperienceForm.handleImageSelect (Some f) dataUrl (ExperienceForm.handleAdd eui) w
     = (Ok picked, w)
     /\ ExperienceForm.experienceData
          (ExperienceForm.handleEdit experience (ExperienceForm.setIsDialogOpen false picked))
        = Multipart (("image", File (file_name f) (file_size f)) :: fields)
     /\ ExperienceForm.imagePreview
          (ExperienceForm.handleEdit experience (ExperienceForm.setIsDialogOpen false picked))
        = default "" (ExperienceForm.imageUrl experience))
  /\ (exists picked fields,
     ItineraryForm.handleImageSelect (Some f) dataUrl (ItineraryForm.handleAdd iui) w
     = (Ok picked, w)
     /\ ItineraryForm.itineraryData
          (ItineraryForm.handleEdit itinerary (ItineraryForm.setIsDialogOpen false picked))
        = Multipart (("image", File (file_name f) (file_size f)) :: fields)
     /\ ItineraryForm.imagePreview
          (ItineraryForm.handleEdit itinerary (ItineraryForm.setIsDialogOpen false picked))
        = default "" (ItineraryForm.imageUrl itinerary))
  /\ ImageForm.uploadedFile (ImageForm.handleEdit image gui) = None.
Proof.
  intros Hf. split; [|split; [|reflexivity]].
  - unfold ExperienceForm.handleImageSelect. rewrite Hf. eexists _, _.
    split; [reflexivity|]. split; reflexivity.
  - unfold ItineraryForm.handleImageSelect. rewrite Hf. eexists _, _.
    split; [reflexivity|]. split; reflexivity.
Qed.

Lemma edit_keeps_the_file_picked_earlier_witness :
  too_large {| file_name := "goa.jpg"; file_size := 5242880; file_type := "image/jpeg" |} = false
  /\ ImageForm.uploadedFile
       (ImageForm.handleEdit
          {| ImageForm.id := "g1"; ImageForm.destination := "Goa"; ImageForm.region := "West";
             ImageForm.url := "http://h/g1.jpg"; ImageForm.caption := "Beach";
             ImageForm.createdAt := 0 |}
          ImageForm.initial) = None.
Proof.
  split; [reflexivity|].
  exact (proj2 (proj2
    (edit_keeps_the_file_picked_earlier
       {| file_name := "goa.jpg"; file_size := 5242880; file_type := "image/jpeg" |}
       "data:image/jpeg;base64,AAAA" fresh
       {| ExperienceForm.id := "e1"; ExperienceForm.destination := "Kerala";
          ExperienceForm.region := "South"; ExperienceForm.title := "Slow boats";
          ExperienceForm.description := ""; ExperienceForm.highlights := [];
          ExperienceForm.imageUrl := None; ExperienceForm.createdAt := 0 |}
       ExperienceForm.initial
       {| ItineraryForm.id := "i1"; ItineraryForm.destination := "Goa";
          ItineraryForm.region := "West"; ItineraryForm.title := "Coast";
          ItineraryForm.duration := "2 days"; ItineraryForm.description := None;
          ItineraryForm.days := []; ItineraryForm.imageUrl := None;
          ItineraryForm.createdAt := 0 |}
       ItineraryForm.initial
       {| ImageForm.id := "g1"; ImageForm.destination := "Goa"; ImageForm.region := "West";
          ImageForm.url := "http://h/g1.jpg"; ImageForm.caption := "Beach";
          ImageForm.createdAt := 0 |}
       ImageForm.initial eq_refl))).
Defined.

(** X18.  An experience payload never carries both a file and an image
    URL.  Typing a URL drops the file picked before, so the payload is the
    JSON object with the trimmed URL; picking a file within the limit
    after a URL was typed gives the multipart payload, none of whose
    fields is the URL, so the typed URL is not sent. *)
Theorem file_and_url_exclude_each_other
    (url dataUrl : string) (f : FileObj) (ui : ExperienceForm.UI) (w : World) :
  too_large f = false ->
  (exists fields,
     ExperienceForm.experienceData (ExperienceForm.handleImageUrlChange url ui)
     = Plain (JObj fields)
     /\ assoc "imageUrl" fields = Some (JStr (trim url))
     /\ assoc "image" fields = None)
  /\ (exists picked fields,
       ExperienceForm.handleImageSelect (Some f) dataUrl
         (ExperienceForm.handleImageUrlChange url ui) w = (Ok picked, w)
       /\ ExperienceForm.experienceData picked = Multipart fields
       /\ List.map fst fields
          = ["image"; "destination"; "region"; "title"; "description"; "highlights"]).
Proof.
  intros Hf. split.
  - eexists. split; [reflexivity|]. split; reflexivity.
  - unfold ExperienceForm.handleImageSelect. rewrite Hf. eexists _, _.
    split; [reflexivity|]. split; reflexivity.
Qed.

Lemma file_and_url_exclude_each_other_witness :
  too_large {| file_name := "goa.jpg"; file_size := 1024; file_type := "image/jpeg" |} = false
  /\ exists fields,
       ExperienceForm.experienceData
         (ExperienceForm.handleImageUrlChange " http://h/a.png " ExperienceForm.initial)
       = Plain (JObj fields)
       /\ assoc "imageUrl" fields = Some (JStr "http://h/a.png")
       /\ assoc "image" fields = None.
Proof.
  split; [reflexivity|].
  exact (proj1 (file_and_url_exclude_each_other " http://h/a.png " ""
                  {| file_name := "goa.jpg"; file_size := 1024; file_type := "image/jpeg" |}
                  ExperienceForm.initial fresh eq_refl)).
Defined.

(** ** ImageManager.tsx: upload, save, orientation filter *)

Lemma fetch_eq (req : request) (w : World) :
  fetch req w = (fetched_response (upcoming w), exchanged req w).
Proof.
  unfold fetch, next_answer, upcoming, exchanged, settle, fetched_response.
  unfold issue, with_browser, set_traffic. simpl.
  destruct (net (browser w)) as [|[|r] rest] eqn:E; simpl; rewrite ?E; reflexivity.
Qed.

Lemma fetchImages_listed (props : AppData) (w : World) (v : jsval) (xs : list jsval) :
  answer (upcoming w) = Ok v -> carries xs v ->
  ImageManager.fetchImages props w
  = (Ok tt,
     with_imageManager (set_busy false)
       (with_app (set_data (with_images (JArr xs) props))
          (with_imageManager (set_items (JArr xs))
             (exchanged (imagesAPI.getAll_request
                           (API_BASE_URL (REACT_APP_API_URL (browser w))) None)
                (with_imageManager (set_busy true) w))))).
Proof.
  intros H Hc. destruct (carries_extract _ _ Hc) as (d & Hd & Hor).
  unfold ImageManager.fetchImages. form_steps.
  rewrite send_eq, upcoming_with_imageManager, H, Hd, Hor. reflexivity.
Qed.

(** X19.  An upload with neither a file nor a URL never reaches the
    network: [handleUploadImage] sends no request, shows the toast
    [Please provide an image file or URL], leaves the manager's list and
    the shared snapshot as they were and resets the busy flag. *)
Theorem upload_without_image_sends_nothing
    (props : AppData) (imageData : ImageForm.ImageUploadData) (ui : ImageForm.UI) (w : World) :
  ImageForm.u_file imageData = None ->
  ImageForm.u_url imageData = "" ->
  fst (ImageForm.handleUploadImage props imageData ui w) = Ok (ImageForm.setUploadProgress 0 ui)
  /\ sent (browser (snd (ImageForm.handleUploadImage props imageData ui w))) = sent (browser w)
  /\ toasts (browser (snd (ImageForm.handleUploadImage props imageData ui w)))
     = (toasts (browser w) ++ [toast_error "Please provide an image file or URL"])%list
  /\ items (imageManager (snd (ImageForm.handleUploadImage props imageData ui w)))
     = items (imageManager w)
  /\ app (snd (ImageForm.handleUploadImage props imageData ui w)) = app w
  /\ busy (imageManager (snd (ImageForm.handleUploadImage props imageData ui w))) = false.
Proof.
  intros Hf Hu. unfold ImageForm.handleUploadImage. rewrite Hf, Hu. simpl.
  form_steps. simpl. repeat split.
Qed.

Lemma upload_without_image_sends_nothing_witness :
  ImageForm.u_file {| ImageForm.u_destination := "Goa"; ImageForm.u_region := "West";
                      ImageForm.u_caption := "Beach"; ImageForm.u_url := "";
                      ImageForm.u_file := None |} = None
  /\ sent (browser (snd (ImageForm.handleUploadImage no_data
                           {| ImageForm.u_destination := "Goa"; ImageForm.u_region := "West";
                              ImageForm.u_caption := "Beach"; ImageForm.u_url := "";
                              ImageForm.u_file := None |}
                           ImageForm.initial images_cached))) = [].
Proof.
  split; [reflexivity|].
  exact (proj1 (proj2 (upload_without_image_sends_nothing no_data
                         {| ImageForm.u_destination := "Goa"; ImageForm.u_region := "West";
                            ImageForm.u_caption := "Beach"; ImageForm.u_url := "";
                            ImageForm.u_file := None |}
                         ImageForm.initial images_cached eq_refl eq_refl))).
Defined.


(** ** ItineraryManager.tsx: the days read off the form *)






(** ** The managers' delete handlers when a call fails *)

(** X21.  A delete the server does not confirm changes nothing: in all
    three managers, when the delete call fails the handler returns
    normally having sent that one request, no list request follows, the
    manager's list and the App state are as they were and the toast is
    [Failed to delete ...]; the image manager's busy flag is reset. *)
Theorem failed_delete_keeps_the_list (props : AppData) (id : string) (w : World) (e : exn) :
  answer (upcoming w) = Throw e ->
  (fst (ExperienceManager.handleDeleteExperience props true id w) = Ok tt
   /\ sent (browser (snd (ExperienceManager.handleDeleteExperience props true id w)))
      = (sent (browser w)
         ++ [experiencesAPI.delete_request (API_BASE_URL (REACT_APP_API_URL (browser w)))
               (localStorage (browser w)) id])%list
   /\ experienceManager (snd (ExperienceManager.handleDeleteExperience props true id w))
      = experienceManager w
   /\ app (snd (ExperienceManager.handleDeleteExperience props true id w)) = app w
   /\ toasts (browser (snd (ExperienceManager.handleDeleteExperience props true id w)))
      = (toasts (browser w) ++ [toast_error "Failed to delete experience"])%list)
  /\ (fst (ItineraryManager.handleDelete props true id w) = Ok tt
   /\ sent (browser (snd (ItineraryManager.handleDelete props true id w)))
      = (sent (browser w)
         ++ [itinerariesAPI.delete_request (API_BASE_URL (REACT_APP_API_URL (browser w)))
               (localStorage (browser w)) id])%list
   /\ itineraryManager (snd (ItineraryManager.handleDelete props true id w))
      = itineraryManager w
   /\ app (snd (ItineraryManager.handleDelete props true id w)) = app w
   /\ toasts (browser (snd (ItineraryManager.handleDelete props true id w)))
      = (toasts (browser w) ++ [toast_error "Failed to delete itinerary"])%list)
  /\ (fst (ImageManager.handleDelete props true id w) = Ok tt
   /\ sent (browser (snd (ImageManager.handleDelete props true id w)))
      = (sent (browser w)
         ++ [imagesAPI.delete_request (API_BASE_URL (REACT_APP_API_URL (browser w)))
               (localStorage (browser w)) id])%list
   /\ items (imageManager (snd (ImageManager.handleDelete props true id w)))
      = items (imageManager w)
   /\ busy (imageManager (snd (ImageManager.handleDelete props true id w))) = false
   /\ app (snd (ImageManager.handleDelete props true id w)) = app w
   /\ toasts (browser (snd (ImageManager.handleDelete props true id w)))
      = (toasts (browser w) ++ [toast_error "Failed to delete image"])%list).
Proof.
  intros H. split; [|split].
  - unfold ExperienceManager.handleDeleteExperience. manager_steps.
    rewrite send_eq, H. cbn. destruct (experienceManager w).
    split; [reflexivity|]. split; [reflexivity|]. split; [reflexivity|]. split; reflexivity.
  - unfold ItineraryManager.handleDelete. manager_steps.
    rewrite send_eq, H. cbn. destruct (itineraryManager w).
    split; [reflexivity|]. split; [reflexivity|]. split; [reflexivity|]. split; reflexivity.
  - unfold ImageManager.handleDelete. manager_steps.
    rewrite send_eq, upcoming_with_imageManager, H. cbn.
    split; [reflexivity|]. split; [reflexivity|]. split; [reflexivity|].
    split; [reflexivity|]. split; reflexivity.
Qed.

Lemma failed_delete_keeps_the_list_witness :
  answer (upcoming images_cached) = Throw (TypeError "Failed to fetch")
  /\ items (imageManager (snd (ImageManager.handleDelete no_data true "a" images_cached)))
     = JArr [item "a"]
  /\ toasts (browser (snd (ImageManager.handleDelete no_data true "a" images_cached)))
     = [toast_error "Failed to delete image"].
Proof.
  split; [reflexivity|].
  pose proof (failed_delete_keeps_the_list no_data "a" images_cached
                (TypeError "Failed to fetch") eq_refl) as (_ & _ & _ & _ & H3 & _ & _ & H6).
  split; [exact H3|exact H6].
Defined.

(** X22.  A delete the server confirms is reported as a success even when
    the refresh after it fails: the experience and itinerary managers show
    the [Failed to load ...] toast and then the [... deleted successfully]
    toast, and the list, fetched before the delete, is left as it was. *)
Theorem delete_with_failed_refresh_reports_success
    (props : AppData) (id : string) (w : World)
    (o o' : fetch_outcome) (rest : list fetch_outcome) (r : jsval) (e : exn) :
  net (browser w) = o :: o' :: rest ->
  answer o = Ok r -> answer o' = Throw e ->
  (fst (ExperienceManager.handleDeleteExperience props true id w) = Ok tt
   /\ items (experienceManager (snd (ExperienceManager.handleDeleteExperience props true id w)))
      = items (experienceManager w)
   /\ app (snd (ExperienceManager.handleDeleteExperience props true id w)) = app w
   /\ toasts (browser (snd (ExperienceManager.handleDeleteExperience props true id w)))
      = (toasts (browser w)
         ++ [toast_error "Failed to load experiences";
             toast_success "Experience deleted successfully"])%list)
  /\ (fst (ItineraryManager.handleDelete props true id w) = Ok tt
   /\ items (itineraryManager (snd (ItineraryManager.handleDelete props true id w)))
      = items (itineraryManager w)
   /\ app (snd (ItineraryManager.handleDelete props true id w)) = app w
   /\ toasts (browser (snd (ItineraryManager.handleDelete props true id w)))
      = (toasts (browser w)
         ++ [toast_error "Failed to load itineraries";
             toast_success "Itinerary deleted successfully"])%list).
Proof.
  intros Hnet Ho Ho'. split.
  - unfold ExperienceManager.handleDeleteExperience, ExperienceManager.fetchExperiences.
    manager_steps.
    rewrite send_eq, (upcoming_cons _ _ _ Hnet), Ho.
    rewrite send_eq, upcoming_with_experienceManager, (upcoming_exchanged _ _ _ _ _ Hnet), Ho'.
    cbn. rewrite <- app_assoc.
    split; [reflexivity|]. split; [reflexivity|]. split; reflexivity.
  - unfold ItineraryManager.handleDelete, ItineraryManager.fetchItineraries.
    manager_steps.
    rewrite send_eq, (upcoming_cons _ _ _ Hnet), Ho.
    rewrite send_eq, upcoming_with_itineraryManager, (upcoming_exchanged _ _ _ _ _ Hnet), Ho'.
    cbn. rewrite <- app_assoc.
    split; [reflexivity|]. split; [reflexivity|]. split; reflexivity.
Qed.

Lemma delete_with_failed_refresh_reports_success_witness :
  net (browser delete_then_offline)
  = [ok200 (JObj [("success", JBool true)]); NetworkFailure]
  /\ items (experienceManager
              (snd (ExperienceManager.handleDeleteExperience no_data true "e1"
                      delete_then_offline)))
     = JArr [item "e1"]
  /\ toasts (browser (snd (ExperienceManager.handleDeleteExperience no_data true "e1"
                             delete_then_offline)))
     = [toast_error "Failed to load experiences";
        toast_success "Experience deleted successfully"].
Proof.
  split; [reflexivity|].
  pose proof (delete_with_failed_refresh_reports_success no_data "e1" delete_then_offline
                (ok200 (JObj [("success", JBool true)])) NetworkFailure []
                (JObj [("success", JBool true)]) (TypeError "Failed to fetch")
                eq_refl eq_refl eq_refl) as [(_ & H2 & _ & H4) _].
  split; [exact H2|exact H4].
Defined.

(** ** ImageManager.tsx: the upload and the save of the dialog *)

Lemma fetchImages_pair (props : AppData) (w : World) :
  ImageManager.fetchImages props w = (Ok tt, snd (ImageManager.fetchImages props w)).
Proof.
  unfold ImageManager.fetchImages. manager_steps. rewrite send_eq.
  destruct (answer (upcoming (with_imageManager (set_busy true) w))) as [v|e]; [|reflexivity].
  destruct (get v "data") as [d|e]; reflexivity.
Qed.

Lemma fetchImages_after (props : AppData) (w : World) :
  sent (browser (snd (ImageManager.fetchImages props w)))
  = (sent (browser w)
     ++ [imagesAPI.getAll_request (API_BASE_URL (REACT_APP_API_URL (browser w))) None])%list
  /\ busy (imageManager (snd (ImageManager.fetchImages props w))) = false.
Proof.
  split; [exact (proj2 (proj2 (refresh_sends_one_request w props)))|].
  unfold ImageManager.fetchImages. manager_steps. rewrite send_eq.
  destruct (answer (upcoming (with_imageManager (set_busy true) w))) as [v|e]; [|reflexivity].
  destruct (get v "data") as [d|e]; reflexivity.
Qed.

(** One case for every way the direct call of the image form can go. *)
Ltac upload_paths props :=
  repeat match goal with
         | |- context [match fetched_response ?o with _ => _ end] =>
             destruct (fetched_response o) as [?response|?e]
         | |- context [negb (ok ?r)] => destruct (ok r); cbn [negb]
         | |- context [match ImageForm.refusal ?r ?a ?b with _ => _ end] =>
             destruct (ImageForm.refusal r a b) as [[]|?e]
         | |- context [match json ?r with _ => _ end] => destruct (json r) as [?result|?e]
         | |- context [match ImageForm.accepted_data ?r with _ => _ end] =>
             destruct (ImageForm.accepted_data r) as [?createdImage|?e]
         | |- context [match get ?v "url" with _ => _ end] =>
             destruct (get v "url") as [?created_url|?e]
         | |- context [truthy_opt ?v] => destruct (truthy_opt v)
         end;
  try match goal with
      | |- context [ImageManager.fetchImages props ?W] =>
          let Hs := fresh "Hsent" in
          let Hb := fresh "Hbusy" in
          let after := fresh "after" in
          let E := fresh in
          destruct (fetchImages_after props W) as [Hs Hb];
          rewrite (fetchImages_pair props W);
          remember (snd (ImageManager.fetchImages props W)) as after eqn:E; clear E
      end.

(** X23.  The upload of the image form does not go through [imagesAPI].
    Given a file or a URL, [handleUploadImage] never throws and resets the
    busy flag whatever the network answers, and the first request it
    sends is a POST of the destination, region and caption followed by
    the file (or, without a file, the URL) to the configured base URL with
    no localhost default (the relative URL [undefined/images] when none is
    configured), under the single header [Authorization], which reads
    [Bearer null] when no token is stored; at most the list request
    follows it. *)
Theorem upload_request_as_sent
    (props : AppData) (imageData : ImageForm.ImageUploadData) (ui : ImageForm.UI) (w : World) :
  (ImageForm.u_file imageData = None -> ImageForm.u_url imageData <> "") ->
  fst (ImageForm.handleUploadImage props imageData ui w) = Ok (ImageForm.setUploadProgress 0 ui)
  /\ busy (imageManager (snd (ImageForm.handleUploadImage props imageData ui w))) = false
  /\ exists more,
       sent (browser (snd (ImageForm.handleUploadImage props imageData ui w)))
       = (sent (browser w)
          ++ formdata_request
               (match REACT_APP_API_URL (browser w) with Some u => u | None => "undefined" end
                +:+ "/images")
               POST
               {["Authorization" :=
                   "Bearer " +:+ match localStorage (browser w) !! "authToken" with
                                 | Some t => t
                                 | None => "null"
                                 end]}
               [ ("destination", Text (ImageForm.u_destination imageData));
                 ("region", Text (ImageForm.u_region imageData));
                 ("caption", Text (ImageForm.u_caption imageData));
                 match ImageForm.u_file imageData with
                 | Some file => ("image", File (file_name file) (file_size file))
                 | None => ("url", Text (ImageForm.u_url imageData))
                 end ]
          :: more)%list
       /\ (more = []
           \/ more = [imagesAPI.getAll_request (API_BASE_URL (REACT_APP_API_URL (browser w)))
                        None]).
Proof.
  intros Hgiven. unfold ImageForm.handleUploadImage.
  destruct (ImageForm.u_file imageData) as [file|].
  - form_steps. rewrite fetch_eq. upload_paths props.
    all: cbn [fst snd imageManager browser with_imageManager busy set_busy sent].
    all: split; [reflexivity|]; split; [reflexivity|].
    all: try rewrite Hsent.
    all: eexists; split;
      [cbn; rewrite <- ?app_assoc; reflexivity|(now left) || (now right)].
  - specialize (Hgiven eq_refl).
    destruct (String.eqb_spec (ImageForm.u_url imageData) ""); [contradiction|].
    cbn [negb]. form_steps. rewrite fetch_eq. upload_paths props.
    all: cbn [fst snd imageManager browser with_imageManager busy set_busy sent].
    all: split; [reflexivity|]; split; [reflexivity|].
    all: try rewrite Hsent.
    all: eexists; split;
      [cbn; rewrite <- ?app_assoc; reflexivity|(now left) || (now right)].
Qed.

Lemma upload_request_as_sent_witness :
  (ImageForm.u_file image_by_url = None -> ImageForm.u_url image_by_url <> "")
  /\ exists more,
       sent (browser (snd (ImageForm.handleUploadImage no_data image_by_url ImageForm.initial
                             fresh)))
       = formdata_request "undefined/images" POST {["Authorization" := "Bearer null"]}
           [ ("destination", Text "Goa"); ("region", Text "West"); ("caption", Text "Beach");
             ("url", Text "http://h/a.png") ]
         :: more.
Proof.
  split; [intros _; discriminate|].
  destruct (upload_request_as_sent no_data image_by_url ImageForm.initial fresh
              (fun _ => ltac:(discriminate))) as (_ & _ & more & H & _).
  exists more. exact H.
Defined.

Lemma upcoming_logged (line : string) (f : ManagerState -> ManagerState) (w : World) :
  upcoming (with_browser (add_console line) (with_imageManager f w)) = upcoming w.
Proof. reflexivity. Qed.

(** X24.  A 2xx answer is not enough for the upload.  When the body of
    the answer is [null], or has no truthy [success], or has a truthy
    [success] but no truthy [data], [handleUploadImage] shows an error
    toast and does not refresh, so the upload request is the only one
    sent and the manager's list and the App state stay as they were.  The
    toast reads [Invalid response from server], except for the [null]
    body, where reading [success] throws and the toast is the message of
    that [TypeError]. *)
Theorem unconfirmed_upload_is_a_failure
    (props : AppData) (imageData : ImageForm.ImageUploadData) (ui : ImageForm.UI) (w : World)
    (response : Response) (result : jsval) (success created : option jsval) :
  (ImageForm.u_file imageData = None -> ImageForm.u_url imageData <> "") ->
  fetched_response (upcoming w) = Ok response ->
  ok response = true ->
  json response = Ok result ->
  result = JNull
  \/ (get result "success" = Ok success /\ truthy_opt success = false)
  \/ (get result "success" = Ok success /\ truthy_opt success = true
      /\ get result "data" = Ok created /\ truthy_opt created = false) ->
  toasts (browser (snd (ImageForm.handleUploadImage props imageData ui w)))
  = (toasts (browser w)
     ++ [toast_error match result with
                     | JNull => "Cannot read properties of null (reading 'success')"
                     | _ => "Invalid response from server"
                     end])%list
  /\ length (sent (browser (snd (ImageForm.handleUploadImage props imageData ui w))))
     = S (length (sent (browser w)))
  /\ items (imageManager (snd (ImageForm.handleUploadImage props imageData ui w)))
     = items (imageManager w)
  /\ app (snd (ImageForm.handleUploadImage props imageData ui w)) = app w.
Proof.
  intros Hgiven Hr Hok Hj Hbody.
  assert (Hrefused :
            ImageForm.accepted_data result
            = Throw match result with
                    | JNull => TypeError "Cannot read properties of null (reading 'success')"
                    | _ => Error "Invalid response from server"
                    end).
  { unfold ImageForm.accepted_data.
    destruct Hbody as [-> | [(Hs & Hf) | (Hs & Ht & Hd & Hf)]]; [reflexivity|..].
    - rewrite Hs, Hf. destruct result; try reflexivity. discriminate Hs.
    - rewrite Hs, Ht, Hd.
      assert (Hnn : result <> JNull) by (intros ->; discriminate Hs).
      destruct created as [d|]; [cbn [truthy_opt] in Hf; rewrite Hf|];
        destruct result; try reflexivity; contradiction. }
  assert (Hmsg :
            exn_message match result with
                        | JNull => TypeError "Cannot read properties of null (reading 'success')"
                        | _ => Error "Invalid response from server"
                        end
            = match result with
              | JNull => "Cannot read properties of null (reading 'success')"
              | _ => "Invalid response from server"
              end) by (destruct result; reflexivity).
  unfold ImageForm.handleUploadImage.
  destruct (ImageForm.u_file imageData) as [file|].
  - form_steps. rewrite fetch_eq, upcoming_logged, Hr, Hok. cbn [negb].
    rewrite Hj, Hrefused. cbn. rewrite Hmsg, length_app, Nat.add_comm.
    split; [reflexivity|]. split; [reflexivity|]. split; reflexivity.
  - specialize (Hgiven eq_refl).
    destruct (String.eqb_spec (ImageForm.u_url imageData) ""); [contradiction|].
    cbn [negb]. form_steps. rewrite fetch_eq, upcoming_logged, Hr, Hok. cbn [negb].
    rewrite Hj, Hrefused. cbn. rewrite Hmsg, length_app, Nat.add_comm.
    split; [reflexivity|]. split; [reflexivity|]. split; reflexivity.
Qed.

Lemma unconfirmed_upload_is_a_failure_witness :
  (ImageForm.u_file image_by_url = None -> ImageForm.u_url image_by_url <> "")
  /\ ok {| status := 200; json := Ok (JObj [("data", JObj [("url", JStr "http://h/a.png")])]) |}
     = true
  /\ toasts (browser (snd (ImageForm.handleUploadImage no_data image_by_url ImageForm.initial
                             upload_unconfirmed)))
     = [toast_error "Invalid response from server"].
Proof.
  split; [intros _; discriminate|]. split; [reflexivity|].
  exact (proj1 (unconfirmed_upload_is_a_failure no_data image_by_url ImageForm.initial
                  upload_unconfirmed _ _ None None (fun _ => ltac:(discriminate))
                  eq_refl eq_refl eq_refl (or_intror (or_introl (conj eq_refl eq_refl))))).
Defined.

(** X25.  A confirmed upload is followed by a refresh through
    [imagesAPI]: when the answer is 2xx with a truthy [success] and a
    [data] object that has a truthy [url], and the list call answers, the
    upload request and the list request are the two requests sent, the
    list goes to the base URL with the localhost default, the manager's
    list and the shared snapshot hold the list that came back, and the
    one toast is the success message. *)
Theorem confirmed_upload_refetches
    (props : AppData) (imageData : ImageForm.ImageUploadData) (ui : ImageForm.UI) (w : World)
    (o o' : fetch_outcome) (rest : list fetch_outcome)
    (response : Response) (result success createdImage created_url v : jsval)
    (xs : list jsval) :
  (ImageForm.u_file imageData = None -> ImageForm.u_url imageData <> "") ->
  net (browser w) = o :: o' :: rest ->
  fetched_response o = Ok response ->
  ok response = true ->
  json response = Ok result ->
  get result "success" = Ok (Some success) -> truthy success = true ->
  get result "data" = Ok (Some createdImage) -> truthy createdImage = true ->
  get createdImage "url" = Ok (Some created_url) -> truthy created_url = true ->
  answer o' = Ok v -> carries xs v ->
  items (imageManager (snd (ImageForm.handleUploadImage props imageData ui w))) = JArr xs
  /\ data (app (snd (ImageForm.handleUploadImage props imageData ui w)))
     = with_images (JArr xs) props
  /\ List.map url (sent (browser (snd (ImageForm.handleUploadImage props imageData ui w))))
     = (List.map url (sent (browser w))
        ++ [ match REACT_APP_API_URL (browser w) with Some u => u | None => "undefined" end
             +:+ "/images";
             API_BASE_URL (REACT_APP_API_URL (browser w)) +:+ "/images" ])%list
  /\ toasts (browser (snd (ImageForm.handleUploadImage props imageData ui w)))
     = (toasts (browser w)
        ++ [toast_success match ImageForm.u_file imageData with
                          | Some _ => "Image uploaded to Cloudinary successfully!"
                          | None => "Image added successfully!"
                          end])%list.
Proof.
  intros Hgiven Hnet Hr Hok Hj Hs Hts Hd Htd Hu Htu Ho' Hc.
  unfold ImageForm.handleUploadImage.
  destruct (ImageForm.u_file imageData) as [file|].
  - form_steps. rewrite fetch_eq, upcoming_logged, (upcoming_cons _ _ _ Hnet), Hr, Hok.
    cbn [negb]. rewrite Hj. unfold ImageForm.accepted_data. rewrite Hs. cbn [truthy_opt].
    rewrite Hts, Hd, Htd, Hu. cbn [truthy_opt]. rewrite Htu.
    match goal with
    | |- context [ImageManager.fetchImages ?p ?W] =>
        assert (HW : answer (upcoming W) = Ok v)
          by (unfold upcoming; cbn; rewrite Hnet; exact Ho');
        rewrite (fetchImages_listed p W v xs HW Hc)
    end.
    cbn. rewrite !map_app, <- !app_assoc.
    split; [reflexivity|]. split; [reflexivity|]. split; reflexivity.
  - specialize (Hgiven eq_refl).
    destruct (String.eqb_spec (ImageForm.u_url imageData) ""); [contradiction|].
    cbn [negb].
    form_steps. rewrite fetch_eq, upcoming_logged, (upcoming_cons _ _ _ Hnet), Hr, Hok.
    cbn [negb]. rewrite Hj. unfold ImageForm.accepted_data. rewrite Hs. cbn [truthy_opt].
    rewrite Hts, Hd, Htd, Hu. cbn [truthy_opt]. rewrite Htu.
    match goal with
    | |- context [ImageManager.fetchImages ?p ?W] =>
        assert (HW : answer (upcoming W) = Ok v)
          by (unfold upcoming; cbn; rewrite Hnet; exact Ho');
        rewrite (fetchImages_listed p W v xs HW Hc)
    end.
    cbn. rewrite !map_app, <- !app_assoc.
    split; [reflexivity|]. split; [reflexivity|]. split; reflexivity.
Qed.

Lemma confirmed_upload_refetches_witness :
  (ImageForm.u_file image_by_url = None -> ImageForm.u_url image_by_url <> "")
  /\ net (browser upload_confirmed)
     = [ ok200 (JObj [("success", JBool true);
                      ("data", JObj [("id", JStr "g9"); ("url", JStr "http://h/a.png")])]);
         ok200 (enveloped [item "g9"]) ]
  /\ items (imageManager (snd (ImageForm.handleUploadImage no_data image_by_url
                                 ImageForm.initial upload_confirmed)))
     = JArr [item "g9"]
  /\ List.map url (sent (browser (snd (ImageForm.handleUploadImage no_data image_by_url
                                         ImageForm.initial upload_confirmed))))
     = ["undefined/images"; "http://localhost:5000/api/images"].
Proof.
  split; [intros _; discriminate|]. split; [reflexivity|].
  pose proof (confirmed_upload_refetches no_data image_by_url ImageForm.initial upload_confirmed
                (ok200 (JObj [("success", JBool true);
                              ("data", JObj [("id", JStr "g9");
                                             ("url", JStr "http://h/a.png")])]))
                (ok200 (enveloped [item "g9"])) []
                {| status := 200;
                   json := Ok (JObj [("success", JBool true);
                                     ("data", JObj [("id", JStr "g9");
                                                    ("url", JStr "http://h/a.png")])]) |}
                (JObj [("success", JBool true);
                       ("data", JObj [("id", JStr "g9"); ("url", JStr "http://h/a.png")])])
                (JBool true)
                (JObj [("id", JStr "g9"); ("url", JStr "http://h/a.png")])
                (JStr "http://h/a.png")
                (enveloped [item "g9"]) [item "g9"]
                (fun _ => ltac:(discriminate))
                eq_refl eq_refl eq_refl eq_refl eq_refl eq_refl eq_refl eq_refl eq_refl eq_refl
                eq_refl (carries_wrapped [item "g9"] [("data", JArr [item "g9"])] eq_refl))
    as (H1 & _ & H3 & _).
  split; [exact H1|exact H3].
Defined.

Lemma handleUploadImage_pair
    (props : AppData) (imageData : ImageForm.ImageUploadData) (ui : ImageForm.UI) (w : World) :
  ImageForm.handleUploadImage props imageData ui w
  = (Ok (ImageForm.setUploadProgress 0 ui),
     snd (ImageForm.handleUploadImage props imageData ui w))
  /\ busy (imageManager (snd (ImageForm.handleUploadImage props imageData ui w))) = false.
Proof.
  unfold ImageForm.handleUploadImage.
  destruct (ImageForm.u_file imageData) as [file|];
    [|destruct (negb (ImageForm.u_url imageData =? ""))%string];
    form_steps; rewrite ?fetch_eq; upload_paths props;
    cbn [fst snd imageManager browser with_imageManager with_browser busy set_busy];
    split; reflexivity.
Qed.

(** X26.  Saving the image dialog closes it whatever happens to the call:
    with a file or a URL in the form, [handleSubmit] never throws and ends
    with the dialog closed, the form emptied, no image being edited and
    the busy flag reset, for the upload of a new image and for the update
    of an edited one alike, also when the server refuses or the network
    fails. *)
Theorem image_submit_always_closes (props : AppData) (ui : ImageForm.UI) (w : World) :
  (ImageForm.uploadedFile ui = None -> ImageForm.f_url (ImageForm.formData ui) <> "") ->
  exists ui',
    fst (ImageForm.handleSubmit props ui w) = Ok ui'
    /\ ImageForm.isDialogOpen ui' = false
    /\ ImageForm.formData ui' = ImageForm.empty_form
    /\ ImageForm.editingImage ui' = None
    /\ ImageForm.uploadedFile ui' = None
    /\ busy (imageManager (snd (ImageForm.handleSubmit props ui w))) = false.
Proof.
  intros Hgiven. unfold ImageForm.handleSubmit.
  assert (Hguard :
            match ImageForm.uploadedFile ui with Some _ => false | None => true end
            && (ImageForm.f_url (ImageForm.formData ui) =? "")%string = false).
  { destruct (ImageForm.uploadedFile ui); [reflexivity|].
    specialize (Hgiven eq_refl).
    now destruct (String.eqb_spec (ImageForm.f_url (ImageForm.formData ui)) ""). }
  rewrite Hguard.
  destruct (ImageForm.editingImage ui) as [editing|].
  - destruct (ImageForm.uploadedFile ui) as [file|];
      [|destruct (negb (ImageForm.f_url (ImageForm.formData ui) =? ""))%string];
      form_steps; rewrite fetch_eq; upload_paths props;
      cbn [fst snd imageManager browser with_imageManager with_browser busy set_busy];
      eexists; (split; [reflexivity|]); repeat split.
  - form_steps.
    match goal with
    | |- context [ImageForm.handleUploadImage ?p ?d ?u ?W] =>
        destruct (handleUploadImage_pair p d u W) as [E Hb]; rewrite E;
        remember (snd (ImageForm.handleUploadImage p d u W)) as after eqn:Ea; clear Ea E
    end.
    cbn [fst snd]. eexists. split; [reflexivity|]. repeat split. exact Hb.
Qed.

Lemma image_submit_always_closes_witness :
  (ImageForm.uploadedFile url_typed = None
   -> ImageForm.f_url (ImageForm.formData url_typed) <> "")
  /\ exists ui',
       fst (ImageForm.handleSubmit no_data url_typed images_cached) = Ok ui'
       /\ ImageForm.isDialogOpen ui' = false.
Proof.
  split; [intros _; vm_compute; discriminate|].
  destruct (image_submit_always_closes no_data url_typed images_cached
              (fun _ => ltac:(vm_compute; discriminate))) as (ui' & H1 & H2 & _).
  exists ui'. split; assumption.
Defined.

(** ** ImageManager.tsx: the orientation filter *)

Lemma get_not_null (v : jsval) (k : string) : v <> JNull -> exists r, get v k = Ok r.
Proof. destruct v; intros H; [contradiction|..]; eexists; reflexivity. Qed.

(** The filter keeps the order and chooses by the recorded orientation. *)
Lemma filter_shown_spec (o : ImageForm.orientation) (m : gmap string ImageForm.orientation)
    (imgs : list jsval) :
  Forall (fun x => x <> JNull) imgs ->
  exists shown,
    ImageForm.filter_shown o m imgs = Ok shown
    /\ forall x, In x shown
                 <-> In x imgs /\ exists key, get x "id" = Ok key /\ m !! template key = Some o.
Proof.
  induction 1 as [|img imgs Himg _ (shown & E & IH)].
  - exists []. split; [reflexivity|]. intros x. simpl. tauto.
  - destruct (get_not_null img "id" Himg) as [key Hkey].
    cbn [ImageForm.filter_shown]. unfold ImageForm.shown_as. rewrite Hkey, E.
    destruct (bool_decide_reflect (m !! template key = Some o)) as [Hm|Hm];
      eexists; (split; [reflexivity|]); intros x; simpl; rewrite IH.
    + split; [intros [<-|[Hin Hx]]|intros [[<-|Hin] Hx]]; eauto.
    + split; [intros [Hin Hx]; eauto|].
      intros [[<-|Hin] (key' & Hk' & Hm')]; eauto.
      rewrite Hkey in Hk'. injection Hk' as <-. contradiction.
Qed.

(** X27.  The orientation filter follows what [handleImageLoad] measured:
    in a list without [null] entries, an image that has not loaded yet is
    hidden by the landscape and by the portrait filter; once it has
    loaded it is shown by exactly one of them, landscape when it is wider
    than high and portrait otherwise (a square image counts as portrait);
    the filter [all] shows the list as it is. *)
Theorem orientation_filter_follows_the_load
    (ui : ImageForm.UI) (imgs : list jsval) (img : jsval) (id : string)
    (naturalWidth naturalHeight : Z) (o : ImageForm.orientation) :
  Forall (fun x => x <> JNull) imgs ->
  In img imgs ->
  get img "id" = Ok (Some (JStr id)) ->
  exists before after,
    ImageForm.getFilteredImages (JArr imgs)
      (ImageForm.setOrientationFilter (ImageForm.only o) ui) = Ok (JArr before)
    /\ ImageForm.getFilteredImages (JArr imgs)
         (ImageForm.setOrientationFilter (ImageForm.only o)
            (ImageForm.handleImageLoad naturalWidth naturalHeight id ui)) = Ok (JArr after)
    /\ (ImageForm.imageOrientations ui !! id = None -> In img before -> False)
    /\ (In img after
        <-> o = if naturalHeight <? naturalWidth then ImageForm.landscape
                else ImageForm.portrait)
    /\ ImageForm.getFilteredImages (JArr imgs)
         (ImageForm.setOrientationFilter ImageForm.all ui) = Ok (JArr imgs).
Proof.
  intros Hall Hin Hid.
  destruct (filter_shown_spec o (ImageForm.imageOrientations ui) imgs Hall)
    as (before & Eb & Hb).
  destruct (filter_shown_spec o
              (<[id := if naturalHeight <? naturalWidth then ImageForm.landscape
                       else ImageForm.portrait]> (ImageForm.imageOrientations ui))
              imgs Hall) as (after & Ea & Ha).
  exists before, after.
  unfold ImageForm.getFilteredImages, ImageForm.handleImageLoad.
  cbn [ImageForm.orientationFilter ImageForm.setOrientationFilter
       ImageForm.imageOrientations ImageForm.setImageOrientations].
  rewrite Eb, Ea.
  split; [reflexivity|]. split; [reflexivity|]. split; [|split; [|reflexivity]].
  - intros Hnone Hshown. apply Hb in Hshown as (_ & key & Hk & Hm).
    rewrite Hid in Hk. injection Hk as <-. cbn [template ToString] in Hm.
    rewrite Hnone in Hm. discriminate.
  - rewrite Ha. split.
    + intros (_ & key & Hk & Hm). rewrite Hid in Hk. injection Hk as <-.
      cbn [template ToString] in Hm. rewrite lookup_insert_eq in Hm. now injection Hm.
    + intros ->. split; [exact Hin|]. exists (Some (JStr id)). split; [exact Hid|].
      cbn [template ToString]. apply lookup_insert_eq.
Qed.

Lemma orientation_filter_follows_the_load_witness :
  Forall (fun x => x <> JNull) [item "a"; item "b"]
  /\ exists before after,
       ImageForm.getFilteredImages (JArr [item "a"; item "b"])
         (ImageForm.setOrientationFilter (ImageForm.only ImageForm.portrait) ImageForm.initial)
       = Ok (JArr before)
       /\ ImageForm.getFilteredImages (JArr [item "a"; item "b"])
            (ImageForm.setOrientationFilter (ImageForm.only ImageForm.portrait)
               (ImageForm.handleImageLoad 600 600 "b" ImageForm.initial)) = Ok (JArr after)
       /\ In (item "b") after.
Proof.
  assert (H : Forall (fun x => x <> JNull) [item "a"; item "b"])
    by (repeat constructor; discriminate).
  split; [exact H|].
  destruct (orientation_filter_follows_the_load ImageForm.initial [item "a"; item "b"]
              (item "b") "b" 600 600 ImageForm.portrait H
              (or_intror (or_introl eq_refl)) eq_refl)
    as (before & after & H1 & H2 & _ & H4 & _).
  exists before, after. split; [exact H1|]. split; [exact H2|].
  apply H4. reflexivity.
Defined.

(** ** ItineraryManager.tsx: the days field read back *)

Lemma append_assoc (a b c : string) : (a +:+ b) +:+ c = a +:+ (b +:+ c).
Proof. induction a as [|x a IH]; [reflexivity|]. rewrite !append_cons. now rewrite IH. Qed.

Lemma length_append (a b : string) :
  String.length (a +:+ b) = (String.length a + String.length b)%nat.
Proof. induction a as [|x a IH]; [reflexivity|]. rewrite append_cons. simpl. now rewrite IH. Qed.

Lemma append_nil_l (s : string) : "" +:+ s = s.
Proof. reflexivity. Qed.

(** *** Reversal *)

Lemma string_rev_onto_eq (s acc : string) :
  string_rev_onto s acc = string_rev s +:+ acc.
Proof.
  unfold string_rev. revert acc. induction s as [|c s IH]; intros acc; [reflexivity|].
  simpl. rewrite (IH (String c acc)), (IH (String c "")), append_assoc. reflexivity.
Qed.

Lemma string_rev_cons (c : ascii) (s : string) :
  string_rev (String c s) = string_rev s +:+ String c "".
Proof. unfold string_rev at 1. simpl. apply string_rev_onto_eq. Qed.

Lemma string_rev_app (a b : string) : string_rev (a +:+ b) = string_rev b +:+ string_rev a.
Proof.
  induction a as [|c a IH].
  - rewrite append_nil_l. change (string_rev "") with "". now rewrite append_empty_r.
  - rewrite append_cons, !string_rev_cons, IH, append_assoc. reflexivity.
Qed.

Lemma string_rev_involutive (s : string) : string_rev (string_rev s) = s.
Proof.
  induction s as [|c s IH]; [reflexivity|].
  rewrite string_rev_cons, string_rev_app, IH. reflexivity.
Qed.

(** *** [trim] on a block of the days field *)

Lemma trimStart_upto_none (fuel : nat) (s : string) :
  drop_space s = None -> trimStart_upto fuel s = s.
Proof. intros H. destruct fuel; simpl; [reflexivity|]. now rewrite H. Qed.

Lemma trimEnd_upto_none (fuel : nat) (s : string) :
  drop_space_rev s = None -> trimEnd_upto fuel s = s.
Proof. intros H. destruct fuel; simpl; [reflexivity|]. now rewrite H. Qed.

(** A newline after [t] does not complete a white-space code point. *)
Lemma drop_space_before_newline (t r : string) :
  drop_space t = None -> t <> "" -> drop_space (t +:+ String newline r) = None.
Proof.
  intros H Hne. destruct t as [|c [|c1 [|c2 t]]]; [contradiction|..];
    rewrite ?append_cons, ?append_nil_l; unfold drop_space in *;
    destruct (is_space_byte c); try discriminate.
  - cbn. rewrite !andb_false_r. destruct r; reflexivity.
  - destruct ((N_of_ascii c =? 194) && (N_of_ascii c1 =? 160))%N; [discriminate|].
    cbn. rewrite !andb_false_r. reflexivity.
  - repeat match type of H with
           | (if ?b then _ else _) = None => destruct b; [discriminate|]
           end.
    reflexivity.
Qed.

Lemma trim_block (t x : string) :
  starts_with_space t = false ->
  ends_with_space t = false ->
  t <> "" ->
  x = "" \/ x = String newline (String newline "") ->
  trim (String newline t +:+ x) = t.
Proof.
  unfold starts_with_space, ends_with_space. intros Hs He Hne Hx.
  destruct (drop_space t) eqn:Ds; [discriminate|].
  destruct (drop_space_rev (string_rev t)) eqn:De; [discriminate|].
  assert (Hstart : trimStart (String newline t +:+ x) = t +:+ x).
  { unfold trimStart. rewrite append_cons. cbn [String.length trimStart_upto].
    change (drop_space (String newline (t +:+ x))) with (Some (t +:+ x)).
    apply trimStart_upto_none.
    destruct Hx as [->| ->]; [now rewrite append_empty_r|].
    now apply drop_space_before_newline. }
  unfold trim. rewrite Hstart. unfold trimEnd.
  destruct Hx as [->| ->].
  - rewrite append_empty_r, (trimEnd_upto_none _ _ De). apply string_rev_involutive.
  - rewrite string_rev_app, length_append, Nat.add_comm.
    change (string_rev (String newline (String newline "")))
      with (String newline (String newline "")).
    rewrite !append_cons, append_nil_l.
    cbn [String.length Nat.add trimEnd_upto].
    change (drop_space_rev (String newline (String newline (string_rev t))))
      with (Some (String newline (string_rev t))).
    cbn iota.
    change (drop_space_rev (String newline (string_rev t))) with (Some (string_rev t)).
    cbn iota.
    rewrite (trimEnd_upto_none _ _ De). apply string_rev_involutive.
Qed.

(** *** The day marker *)

Lemma count_digits_before_newline (s r : string) :
  ItineraryForm.count_digits (s +:+ String newline r) = ItineraryForm.count_digits s.
Proof.
  induction s as [|c s IH]; [reflexivity|].
  rewrite append_cons. simpl. now rewrite IH.
Qed.

Lemma get_at_digits (s r : string) :
  String.get (ItineraryForm.count_digits s) (s +:+ String newline r)
  = String.get (ItineraryForm.count_digits s) s
  \/ (String.get (ItineraryForm.count_digits s) (s +:+ String newline r) = Some newline
      /\ String.get (ItineraryForm.count_digits s) s = None).
Proof.
  induction s as [|c s IH]; [right; split; reflexivity|].
  rewrite append_cons. simpl. destruct (ItineraryForm.is_digit c); [exact IH|now left].
Qed.

(** A newline is no part of a day marker: what follows it does not count. *)
Lemma day_marker_before_newline (p r : string) :
  ItineraryForm.day_marker (p +:+ String newline r) = ItineraryForm.day_marker p.
Proof.
  destruct p as [|d [|a [|y [|sp s]]]]; rewrite ?append_cons, ?append_nil_l.
  - destruct r as [|? [|? [|? ?]]]; reflexivity.
  - destruct r as [|? [|? ?]]; cbn; destruct (Ascii.eqb (lower d) "d");
      reflexivity.
  - destruct r as [|? ?]; cbn;
      destruct (Ascii.eqb (lower d) "d"), (Ascii.eqb (lower a) "a"); reflexivity.
  - cbn. destruct (Ascii.eqb (lower d) "d"), (Ascii.eqb (lower a) "a"),
      (Ascii.eqb (lower y) "y"); reflexivity.
  - unfold ItineraryForm.day_marker.
    destruct (Ascii.eqb (lower d) "d" && Ascii.eqb (lower a) "a" && Ascii.eqb (lower y) "y"
              && Ascii.eqb sp " "); [|reflexivity].
    cbv zeta. rewrite count_digits_before_newline.
    pose proof (get_at_digits s r) as G.
    remember (ItineraryForm.count_digits s) as k eqn:Ek. destruct k as [|k]; [reflexivity|].
    destruct G as [E|[E1 E2]]; [now rewrite E|now rewrite E1, E2].
Qed.

Lemma count_digits_uint (d : Decimal.uint) (c : ascii) (r : string) :
  ItineraryForm.is_digit c = false ->
  ItineraryForm.count_digits (NilEmpty.string_of_uint d +:+ String c r)
  = String.length (NilEmpty.string_of_uint d).
Proof.
  intros Hc. induction d as [|d IH|d IH|d IH|d IH|d IH|d IH|d IH|d IH|d IH|d IH];
    cbn [NilEmpty.string_of_uint]; rewrite ?append_cons, ?append_nil_l;
    cbn [ItineraryForm.count_digits String.length];
    [now rewrite Hc|..]; now rewrite IH.
Qed.

Lemma get_after (s : string) (c : ascii) (r : string) :
  String.get (String.length s) (s +:+ String c r) = Some c.
Proof. induction s as [|x s IH]; [reflexivity|]. rewrite append_cons. exact IH. Qed.

Lemma count_digits_nz (d : Decimal.uint) (c : ascii) (r : string) :
  ItineraryForm.is_digit c = false ->
  ItineraryForm.count_digits (NilZero.string_of_uint d +:+ String c r)
  = String.length (NilZero.string_of_uint d)
  /\ (0 < String.length (NilZero.string_of_uint d))%nat.
Proof.
  intros Hc. unfold NilZero.string_of_uint. destruct d.
  1: { rewrite append_cons, append_nil_l. cbn [ItineraryForm.count_digits String.length].
       change (ItineraryForm.is_digit "0") with true. cbn iota. rewrite Hc.
       split; [reflexivity|lia]. }
  all: rewrite (count_digits_uint _ c r Hc); split; [reflexivity|];
    cbn [NilEmpty.string_of_uint String.length]; lia.
Qed.

Lemma count_digits_number (n : Z) (c : ascii) (r : string) :
  0 <= n ->
  ItineraryForm.is_digit c = false ->
  ItineraryForm.count_digits (Z_toString n +:+ String c r) = String.length (Z_toString n)
  /\ (0 < String.length (Z_toString n))%nat.
Proof.
  intros Hn Hc. unfold Z_toString.
  destruct n as [|p|p]; [| |lia]; cbn [Z.to_int NilZero.string_of_int];
    now apply count_digits_nz.
Qed.

(** The marker [handleEdit] writes is one. *)
Lemma day_marker_written (n : Z) (r : string) :
  0 <= n ->
  ItineraryForm.day_marker
    (String "D" (String "a" (String "y" (String " " (Z_toString n +:+ String ":" r)))))
  = Some (4 + String.length (Z_toString n) + 1)%nat.
Proof.
  intros Hn. destruct (count_digits_number n ":" r Hn eq_refl) as [Hk Hpos].
  unfold ItineraryForm.day_marker. cbn [lower Ascii.eqb N_of_ascii andb]. cbv zeta.
  rewrite Hk. pose proof (get_after (Z_toString n) ":" r) as G.
  remember (String.length (Z_toString n)) as k eqn:Ek.
  destruct k as [|k]; [lia|]. now rewrite G.
Qed.

(** *** Splitting at the markers *)

Lemma split_days_not_nil (skip : nat) (s : string) : ItineraryForm.split_days skip s <> [].
Proof.
  revert skip. induction s as [|c s IH]; intros skip; [discriminate|].
  cbn [ItineraryForm.split_days]. destruct skip as [|k]; [|apply IH].
  destruct (ItineraryForm.day_marker (String c s)); [discriminate|].
  destruct (ItineraryForm.split_days 0 s); discriminate.
Qed.

Lemma split_days_skip (p r : string) :
  ItineraryForm.split_days (String.length p) (p +:+ r) = ItineraryForm.split_days 0 r.
Proof. induction p as [|c p IH]; [reflexivity|]. rewrite append_cons. exact IH. Qed.

Lemma split_days_marker (n : Z) (r : string) :
  0 <= n ->
  ItineraryForm.split_days 0 ("Day " +:+ Z_toString n +:+ ":" +:+ r)
  = "" :: ItineraryForm.split_days 0 r.
Proof.
  intros Hn. rewrite !append_cons, !append_nil_l.
  cbn [ItineraryForm.split_days]. rewrite (day_marker_written n r Hn).
  cbn [Nat.add Nat.pred ItineraryForm.split_days]. f_equal.
  replace (Z_toString n +:+ String ":" r) with ((Z_toString n +:+ ":") +:+ r)
    by (now rewrite append_assoc).
  replace (String.length (Z_toString n) + 1)%nat with (String.length (Z_toString n +:+ ":"))
    by (now rewrite length_append).
  apply split_days_skip.
Qed.

Lemma split_days_newline (x : string) :
  ItineraryForm.split_days 0 (String newline x)
  = match ItineraryForm.split_days 0 x with
    | piece :: pieces => String newline piece :: pieces
    | [] => [String newline ""]
    end.
Proof.
  cbn [ItineraryForm.split_days].
  now rewrite <- (append_nil_l (String newline x)), day_marker_before_newline.
Qed.

(** Text without a marker stays in one piece. *)
Lemma split_days_text (t r : string) :
  has_day_marker t = false ->
  r = "" \/ (exists r', r = String newline r') ->
  ItineraryForm.split_days 0 (t +:+ r)
  = match ItineraryForm.split_days 0 r with
    | piece :: pieces => (t +:+ piece) :: pieces
    | [] => [t]
    end.
Proof.
  intros Ht Hr. induction t as [|c t IH].
  - rewrite append_nil_l. destruct (ItineraryForm.split_days 0 r) eqn:E; [|reflexivity].
    now destruct (split_days_not_nil 0 r).
  - cbn [has_day_marker] in Ht. apply orb_false_iff in Ht as [Hm Ht].
    rewrite append_cons. cbn [ItineraryForm.split_days].
    assert (Hnone : ItineraryForm.day_marker (String c (t +:+ r)) = None).
    { rewrite <- append_cons. destruct Hr as [->|[r' ->]].
      - rewrite append_empty_r. now destruct (ItineraryForm.day_marker (String c t)).
      - rewrite day_marker_before_newline.
        now destruct (ItineraryForm.day_marker (String c t)). }
    rewrite Hnone, (IH Ht).
    destruct (ItineraryForm.split_days 0 r); reflexivity.
Qed.

Lemma split_days_written (ds : list ItineraryForm.Day) :
  Forall (fun d => 0 <= ItineraryForm.day d
                   /\ has_day_marker (join (String newline "") (ItineraryForm.activities d))
                      = false) ds ->
  ds <> [] ->
  ItineraryForm.split_days 0 (ItineraryForm.daysData_of ds) = "" :: blocks_of ds.
Proof.
  unfold ItineraryForm.daysData_of.
  induction 1 as [|d ds [Hd Hfree] Hall IH]; intros Hne; [contradiction|].
  destruct ds as [|d' ds'].
  - cbn [List.map join blocks_of]. unfold ItineraryForm.day_text.
    rewrite (split_days_marker _ _ Hd), !append_cons, !append_nil_l, split_days_newline.
    rewrite append_empty_r.
    rewrite <- (append_empty_r (join _ _)) at 1.
    rewrite (split_days_text _ "" Hfree (or_introl eq_refl)).
    cbn [ItineraryForm.split_days]. now rewrite append_empty_r.
  - change (join ?sep (List.map ?f (d :: d' :: ds')))
      with (f d +:+ sep +:+ join sep (List.map f (d' :: ds'))).
    unfold ItineraryForm.day_text at 1. rewrite !append_assoc.
    rewrite (split_days_marker _ _ Hd).
    rewrite !append_cons, !append_nil_l, split_days_newline.
    rewrite (split_days_text _ _ Hfree (or_intror (ex_intro _ _ eq_refl))).
    rewrite !split_days_newline, IH by discriminate.
    cbn [blocks_of]. now rewrite ?append_cons, ?append_nil_l.
Qed.

(** *** Reading the days back *)

Lemma join_not_empty (a : string) (rest : list string) :
  a <> "" -> join (String newline "") (a :: rest) <> "".
Proof.
  intros Ha. destruct a as [|c a]; [contradiction|].
  destruct rest; cbn [join]; rewrite ?append_cons; discriminate.
Qed.

Lemma reads_back_facts (d : ItineraryForm.Day) :
  reads_back d = true ->
  Forall (fun a => clean_line a = true) (ItineraryForm.activities d)
  /\ join (String newline "") (ItineraryForm.activities d) <> ""
  /\ has_day_marker (join (String newline "") (ItineraryForm.activities d)) = false
  /\ starts_with_space (join (String newline "") (ItineraryForm.activities d)) = false
  /\ ends_with_space (join (String newline "") (ItineraryForm.activities d)) = false.
Proof.
  unfold reads_back. cbv zeta. rewrite !andb_true_iff, !negb_true_iff.
  intros [[[[Hne Hclean] Hm] Hs] He].
  assert (Hall : Forall (fun a => clean_line a = true) (ItineraryForm.activities d)).
  { apply List.Forall_forall. now apply List.forallb_forall. }
  repeat split; try assumption.
  destruct (ItineraryForm.activities d) as [|a rest]; [discriminate|].
  apply join_not_empty. inversion Hall as [|? ? Ha _]; subst.
  unfold clean_line in Ha. apply andb_true_iff in Ha as [_ Hb].
  intros ->. discriminate.
Qed.

Lemma days_read_back (k : nat) (ds : list ItineraryForm.Day) :
  Forall (fun d => reads_back d = true) ds ->
  List.map ItineraryForm.day ds = List.map Z.of_nat (seq k (length ds)) ->
  ItineraryForm.number_from (Z.of_nat k) (nonblank_lines (blocks_of ds)) = ds.
Proof.
  intros Hall. revert k. induction Hall as [|d ds Hd _ IH]; intros k Hnum; [reflexivity|].
  destruct (reads_back_facts d Hd) as (Hclean & Hne & _ & Hs & He).
  cbn [List.map length seq] in Hnum. injection Hnum as Hday Hrest.
  cbn [blocks_of].
  assert (Htrim : trim (String newline (join (String newline "") (ItineraryForm.activities d))
                        +:+ match ds with
                            | [] => ""
                            | _ :: _ => String newline (String newline "")
                            end)
                  = join (String newline "") (ItineraryForm.activities d)).
  { apply trim_block; try assumption. destruct ds; [now left|now right]. }
  unfold nonblank_lines at 1. cbn [List.filter]. unfold blank at 1. rewrite Htrim.
  destruct (String.eqb_spec (join (String newline "") (ItineraryForm.activities d)) "");
    [contradiction|].
  cbn [negb ItineraryForm.number_from]. rewrite Htrim, (lines_round_trip _ Hclean).
  replace (Z.of_nat k + 1) with (Z.of_nat (S k)) by lia.
  fold (nonblank_lines (blocks_of ds)). rewrite (IH (S k) Hrest), <- Hday.
  now destruct d.
Qed.

Lemma numbered_days_nonnegative (ds : list ItineraryForm.Day) (l : list nat) :
  List.map ItineraryForm.day ds = List.map Z.of_nat l ->
  Forall (fun d => 0 <= ItineraryForm.day d) ds.
Proof.
  revert l. induction ds as [|d ds IH]; intros l H; [constructor|].
  destruct l as [|n l]; [discriminate|]. injection H as Hd Hrest.
  constructor; [lia|exact (IH l Hrest)].
Qed.

(** What [handleSubmit] reads off the text [handleEdit] wrote. *)
Lemma days_of_daysData_of (ds : list ItineraryForm.Day) :
  Forall (fun d => reads_back d = true) ds ->
  List.map ItineraryForm.day ds = List.map Z.of_nat (seq 1 (length ds)) ->
  ItineraryForm.days_of (ItineraryForm.daysData_of ds) = ds.
Proof.
  intros Hall Hnum. destruct ds as [|d ds]; [reflexivity|].
  unfold ItineraryForm.days_of. rewrite split_days_written; [| |discriminate].
  - unfold nonblank_lines at 1. cbn [List.filter]. change (blank "") with true.
    cbn [negb]. exact (days_read_back 1 _ Hall Hnum).
  - pose proof (numbered_days_nonnegative _ _ Hnum) as Hpos.
    apply List.Forall_forall. intros x Hx. split.
    + exact (proj1 (List.Forall_forall _ _) Hpos x Hx).
    + exact (proj1 (proj2 (proj2 (reads_back_facts x
                (proj1 (List.Forall_forall _ _) Hall x Hx))))).
Qed.

(** X28.  Editing an itinerary and saving it unchanged sends its days back
    as they are, provided the days are numbered 1, 2, ... in order and
    every day reads back: it has an activity, every activity is one line
    that is not blank, no day marker (the word Day, a space, digits and a
    colon) occurs in the activities, and the day's activities neither
    start nor end with white space.  With no file selected the payload is
    then the JSON object of the itinerary's destination, region, title,
    duration, days and image URL (the empty string when it has none). *)
Theorem itinerary_edit_round_trip (itinerary : ItineraryForm.Itinerary) (ui : ItineraryForm.UI) :
  Forall (fun d => reads_back d = true) (ItineraryForm.days itinerary) ->
  List.map ItineraryForm.day (ItineraryForm.days itinerary)
  = List.map Z.of_nat (seq 1 (length (ItineraryForm.days itinerary))) ->
  ItineraryForm.selectedImage ui = None ->
  ItineraryForm.days_of
    (ItineraryForm.f_daysData (ItineraryForm.formData (ItineraryForm.handleEdit itinerary ui)))
  = ItineraryForm.days itinerary
  /\ ItineraryForm.itineraryData (ItineraryForm.handleEdit itinerary ui)
     = Plain (JObj
         [ ("destination", JStr (ItineraryForm.destination itinerary));
           ("region", JStr (ItineraryForm.region itinerary));
           ("title", JStr (ItineraryForm.title itinerary));
           ("duration", JStr (ItineraryForm.duration itinerary));
           ("days", JArr (List.map ItineraryForm.Day_json (ItineraryForm.days itinerary)));
           ("imageUrl", JStr (default "" (ItineraryForm.imageUrl itinerary))) ]).
Proof.
  intros Hall Hnum Hsel.
  pose proof (days_of_daysData_of _ Hall Hnum) as Hdays.
  split; [exact Hdays|].
  unfold ItineraryForm.itineraryData.
  cbn [ItineraryForm.handleEdit ItineraryForm.selectedImage ItineraryForm.formData
       ItineraryForm.f_daysData ItineraryForm.f_destination ItineraryForm.f_region
       ItineraryForm.f_title ItineraryForm.f_duration ItineraryForm.f_imageUrl].
  cbv zeta. now rewrite Hsel, Hdays.
Qed.

Lemma itinerary_edit_round_trip_witness :
  Forall (fun d => reads_back d = true) (ItineraryForm.days two_days)
  /\ ItineraryForm.f_daysData
       (ItineraryForm.formData (ItineraryForm.handleEdit two_days ItineraryForm.initial))
     = "Day 1:" +:+ String newline "Arrive" +:+ String newline "Tea gardens"
       +:+ String newline (String newline "Day 2:") +:+ String newline "Houseboat"
  /\ ItineraryForm.days_of
       (ItineraryForm.f_daysData
          (ItineraryForm.formData (ItineraryForm.handleEdit two_days ItineraryForm.initial)))
     = ItineraryForm.days two_days.
Proof.
  assert (H : Forall (fun d => reads_back d = true) (ItineraryForm.days two_days))
    by (repeat constructor).
  split; [exact H|]. split; [reflexivity|].
  exact (proj1 (itinerary_edit_round_trip two_days ItineraryForm.initial H eq_refl eq_refl)).
Defined.

(** ** App.tsx: retrying after a connection error *)

(** X29.  Retrying decides the page anew.  With a user logged in,
    [handleRetry] runs the bulk fetch, which takes the connection-error
    flag down before it starts: whatever the flag was, the dashboard
    renders afterwards unless one of the four list calls resolves to
    [null], in which case the connection-error page renders again. *)
Theorem retry_decides_the_page_anew (w : World) :
  truthy (user (app w)) = true ->
  fst (handleRetry w) = Ok tt
  /\ sent (browser (snd (handleRetry w)))
     = (sent (browser w) ++ bulk_requests (API_BASE_URL (REACT_APP_API_URL (browser w))))%list
  /\ (In (Ok JNull) (next_four w)
      -> App_render (app (snd (handleRetry w))) = ConnectionErrorPage)
  /\ ((In (Ok JNull) (next_four w) -> False)
      -> App_render (app (snd (handleRetry w))) = Dashboard).
Proof.
  intros Hu. unfold handleRetry, App_render. rewrite Hu.
  unfold detached. cbn [fst snd].
  destruct (fetchAllData_facts w) as (_ & Hl & Hs & _ & Hus & _).
  rewrite Hus, Hu, Hl, Hs. cbn [negb].
  split; [reflexivity|]. split; [reflexivity|].
  rewrite fetchAllData_eq, <- upcoming_chain, <- In_guarded. simpl List.map.
  match goal with
  | |- context [bulk_data ?v1 ?v2 ?v3 ?v4] =>
      destruct (bulk_data_cases v1 v2 v3 v4) as [(e & -> & Hin) | (d & -> & Hnot)]
  end; simpl.
  - split; [reflexivity|]. intros H. now destruct (H Hin).
  - rewrite !after_guarded_app. simpl. split; [intros H; contradiction|reflexivity].
Qed.

Lemma retry_decides_the_page_anew_witness :
  truthy (user (app server_back)) = true
  /\ App_render (app server_back) = ConnectionErrorPage
  /\ App_render (app (snd (handleRetry server_back))) = Dashboard.
Proof.
  split; [reflexivity|]. split; [reflexivity|].
  apply (proj2 (proj2 (proj2 (retry_decides_the_page_anew server_back eq_refl)))).
  intros H. vm_compute in H. repeat destruct H as [H|H]; try discriminate H. exact H.
Defined.

(** ** The URL check of the three dialogs *)

Lemma lowercase_append (a b : string) : lowercase (a +:+ b) = lowercase a +:+ lowercase b.
Proof.
  induction a as [|c a IH]; [reflexivity|].
  rewrite append_cons. cbn [lowercase]. now rewrite IH, append_cons.
Qed.

Lemma length_lowercase (a : string) : String.length (lowercase a) = String.length a.
Proof. induction a as [|c a IH]; [reflexivity|]. cbn. now rewrite IH. Qed.

Lemma prefix_append (a b : string) : String.prefix a (a +:+ b) = true.
Proof.
  induction a as [|c a IH]; [now destruct b|].
  rewrite append_cons. cbn [String.prefix]. now destruct (ascii_dec c c).
Qed.

Lemma substring_skip (a b : string) (m : nat) :
  String.substring (String.length a) m (a +:+ b) = String.substring 0 m b.
Proof. induction a as [|c a IH]; [reflexivity|]. rewrite append_cons. exact IH. Qed.

Lemma substring_all (b : string) (m : nat) :
  (String.length b <= m)%nat -> String.substring 0 m b = b.
Proof.
  revert m. induction b as [|c b IH]; intros m Hm; [now destruct m|].
  destruct m as [|m]; [cbn in Hm; lia|].
  cbn [String.substring]. rewrite IH; [reflexivity|cbn in Hm; lia].
Qed.

Lemma extension_to_end_ok (ext q : string) :
  In (lowercase ext) ["jpg"; "jpeg"; "png"; "gif"; "webp"; "bmp"; "svg"] ->
  query_to_end q = true ->
  extension_to_end (ext +:+ q) = true.
Proof.
  intros Hext Hq. unfold extension_to_end. apply List.existsb_exists.
  exists (lowercase ext). split; [exact Hext|].
  rewrite lowercase_append, prefix_append, length_lowercase, substring_skip.
  rewrite substring_all by (rewrite length_append; lia). exact Hq.
Qed.

Lemma has_image_extension_ok (p x : string) :
  extension_to_end x = true -> has_image_extension (p +:+ String "." x) = true.
Proof.
  intros Hx. induction p as [|c p IH].
  - rewrite append_nil_l. cbn [has_image_extension]. now rewrite Hx.
  - rewrite append_cons. cbn [has_image_extension]. rewrite IH. apply orb_true_r.
Qed.

Lemma contains_ok (p a s : string) : contains a (p +:+ a +:+ s) = true.
Proof.
  induction p as [|c p IH].
  - rewrite append_nil_l. destruct a as [|c a].
    + rewrite append_nil_l. now destruct s.
    + rewrite append_cons. cbn [contains].
      now rewrite <- append_cons, prefix_append.
  - rewrite append_cons. cbn [contains]. rewrite IH. apply orb_true_r.
Qed.

(** X30.  The URLs the three dialogs take without a warning: a URL that,
    once trimmed, ends in a dot and one of the seven image extensions in
    any letter case, alone or followed by a question mark and a query of
    one line, and a URL in which one of the five image hosts occurs
    anywhere, pass the check; typing one adds no warning in the
    experience, the itinerary or the image dialog. *)
Theorem direct_image_urls_raise_no_warning
    (raw p ext query host s : string)
    (eui : ExperienceForm.UI) (iui : ItineraryForm.UI) (gui : ImageForm.UI) :
  (In (lowercase ext) ["jpg"; "jpeg"; "png"; "gif"; "webp"; "bmp"; "svg"]
   /\ one_line query = true
   /\ (trim raw = p +:+ "." +:+ ext \/ trim raw = p +:+ "." +:+ ext +:+ "?" +:+ query))
  \/ (In host ["unsplash.com"; "pexels.com"; "pixabay.com"; "cloudinary.com"; "imgur.com"]
      /\ trim raw = p +:+ host +:+ s) ->
  isValidImageUrl (trim raw) = true
  /\ ExperienceForm.warnings (ExperienceForm.handleImageUrlChange raw eui)
     = ExperienceForm.warnings eui
  /\ ItineraryForm.warnings (ItineraryForm.handleImageUrlChange raw iui)
     = ItineraryForm.warnings iui
  /\ ImageForm.warnings (ImageForm.handleUrlChange raw gui) = ImageForm.warnings gui.
Proof.
  intros Hshape.
  assert (Hvalid : isValidImageUrl (trim raw) = true).
  { unfold isValidImageUrl.
    destruct Hshape as [(Hext & Hq & [-> | ->]) | (Hhost & ->)].
    - rewrite append_cons, append_nil_l, <- (append_empty_r ext).
      rewrite has_image_extension_ok; [reflexivity|].
      now apply extension_to_end_ok.
    - rewrite !append_cons, !append_nil_l.
      rewrite has_image_extension_ok; [reflexivity|].
      now apply extension_to_end_ok.
    - apply orb_true_iff. right. unfold on_image_host. apply List.existsb_exists.
      exists host. split; [exact Hhost|apply contains_ok]. }
  split; [exact Hvalid|].
  unfold ExperienceForm.handleImageUrlChange, ItineraryForm.handleImageUrlChange,
    ImageForm.handleUrlChange.
  cbv zeta. rewrite Hvalid. cbn [negb]. rewrite !andb_false_r.
  split; [reflexivity|]. split; reflexivity.
Qed.

Lemma direct_image_urls_raise_no_warning_witness :
  trim " http://h/A.PNG?x=1 " = "http://h/A" +:+ "." +:+ "PNG" +:+ "?" +:+ "x=1"
  /\ isValidImageUrl (trim " http://h/A.PNG?x=1 ") = true.
Proof.
  split; [reflexivity|].
  exact (proj1 (direct_image_urls_raise_no_warning " http://h/A.PNG?x=1 " "http://h/A" "PNG"
                  "x=1" "" "" ExperienceForm.initial ItineraryForm.initial ImageForm.initial
                  (or_introl (conj (or_intror (or_intror (or_introl eq_refl)))
                                (conj eq_refl (or_intror eq_refl)))))).
Defined.

(** ** Two refreshes at once, in every manager *)

(** A resumed refresh whose answer carries a list stores that list. *)
Lemma fetchExperiences_resumed_stores
    (props : AppData) (o : fetch_outcome) (v : jsval) (xs : list jsval) (w : World) :
  answer o = Ok v -> carries xs v ->
  items (experienceManager (run (ExperienceManager.fetchExperiences_resumed props o) w))
  = JArr xs.
Proof.
  intros Ho Hc. destruct (carries_extract _ _ Hc) as (d & Hd & Hor).
  destruct o as [|r]; [discriminate Ho|]. cbn [answer] in Ho.
  unfold ExperienceManager.fetchExperiences_resumed, settle. manager_steps.
  rewrite Ho, Hd, Hor. reflexivity.
Qed.

Lemma fetchItineraries_resumed_stores
    (props : AppData) (o : fetch_outcome) (v : jsval) (xs : list jsval) (w : World) :
  answer o = Ok v -> carries xs v ->
  items (itineraryManager (run (ItineraryManager.fetchItineraries_resumed props o) w))
  = JArr xs.
Proof.
  intros Ho Hc. destruct (carries_extract _ _ Hc) as (d & Hd & Hor).
  destruct o as [|r]; [discriminate Ho|]. cbn [answer] in Ho.
  unfold ItineraryManager.fetchItineraries_resumed, settle. manager_steps.
  rewrite Ho, Hd, Hor. reflexivity.
Qed.

Lemma fetchImages_resumed_stores
    (props : AppData) (o : fetch_outcome) (v : jsval) (xs : list jsval) (w : World) :
  answer o = Ok v -> carries xs v ->
  items (imageManager (run (ImageManager.fetchImages_resumed props o) w)) = JArr xs.
Proof.
  intros Ho Hc. destruct (carries_extract _ _ Hc) as (d & Hd & Hor).
  destruct o as [|r]; [discriminate Ho|]. cbn [answer] in Ho.
  unfold ImageManager.fetchImages_resumed, settle. manager_steps.
  rewrite Ho, Hd, Hor. reflexivity.
Qed.

(** Two calls made before either answer is back leave two requests
    outstanding. *)
Lemma two_calls_two_outstanding (w : World) :
  (pending (browser (ExperienceManager.fetchExperiences_called w))
   = (pending (browser w) ++ [ExperienceManager.list_request w])%list
   /\ pending (browser (ExperienceManager.fetchExperiences_called
                         (ExperienceManager.fetchExperiences_called w)))
      = (pending (browser w)
         ++ [ExperienceManager.list_request w; ExperienceManager.list_request w])%list)
  /\ (pending (browser (ItineraryManager.fetchItineraries_called w))
      = (pending (browser w) ++ [ItineraryManager.list_request w])%list
      /\ pending (browser (ItineraryManager.fetchItineraries_called
                            (ItineraryManager.fetchItineraries_called w)))
         = (pending (browser w)
            ++ [ItineraryManager.list_request w; ItineraryManager.list_request w])%list)
  /\ (pending (browser (ImageManager.fetchImages_called w))
      = (pending (browser w) ++ [ImageManager.list_request w])%list
      /\ pending (browser (ImageManager.fetchImages_called (ImageManager.fetchImages_called w)))
         = (pending (browser w)
            ++ [ImageManager.list_request w; ImageManager.list_request w])%list).
Proof.
  unfold ExperienceManager.fetchExperiences_called, ExperienceManager.list_request,
    ItineraryManager.fetchItineraries_called, ItineraryManager.list_request,
    ImageManager.fetchImages_called, ImageManager.list_request, issue.
  cbn. rewrite <- !app_assoc. repeat split.
Qed.

(** C4, amended.  There is no coalescing.  Every refresh sends its own
    request, whatever is outstanding: a call of [fetchExperiences],
    [fetchItineraries] or [fetchImages] its list request, a call of
    [fetchAllData] its four.  Cut at its [await], a call of any of the
    three managers' refreshes adds its request to the outstanding ones, so
    two calls made before either answer is back leave two outstanding
    requests for the same list.  A call whose answer is a 2xx response
    carrying a list, bare or in a [data] envelope, stores the list of its
    own answer when it is resumed; of two such calls the one resumed last
    decides what the manager holds. *)
Theorem C4_every_refresh_sends_its_own_request
    (w : World) (props : AppData) (o o' : fetch_outcome) (v v' : jsval)
    (xs ys : list jsval) :
  answer o = Ok v -> carries xs v ->
  answer o' = Ok v' -> carries ys v' ->
  (sent (browser (snd (ExperienceManager.fetchExperiences props w)))
   = (sent (browser w)
      ++ [experiencesAPI.getAll_request (API_BASE_URL (REACT_APP_API_URL (browser w))) None])%list
   /\ sent (browser (snd (ItineraryManager.fetchItineraries props w)))
      = (sent (browser w)
         ++ [itinerariesAPI.getAll_request (API_BASE_URL (REACT_APP_API_URL (browser w))) None])%list
   /\ sent (browser (snd (ImageManager.fetchImages props w)))
      = (sent (browser w)
         ++ [imagesAPI.getAll_request (API_BASE_URL (REACT_APP_API_URL (browser w))) None])%list
   /\ sent (browser (snd (fetchAllData w)))
      = (sent (browser w)
         ++ [ experiencesAPI.getAll_request (API_BASE_URL (REACT_APP_API_URL (browser w))) None;
              itinerariesAPI.getAll_request (API_BASE_URL (REACT_APP_API_URL (browser w))) None;
              imagesAPI.getAll_request (API_BASE_URL (REACT_APP_API_URL (browser w))) None;
              updatesAPI.getAll_request (API_BASE_URL (REACT_APP_API_URL (browser w))) ])%list)
  /\ (pending (browser (ExperienceManager.fetchExperiences_called w))
      = (pending (browser w) ++ [ExperienceManager.list_request w])%list
      /\ pending (browser (ExperienceManager.fetchExperiences_called
                            (ExperienceManager.fetchExperiences_called w)))
         = (pending (browser w)
            ++ [ExperienceManager.list_request w; ExperienceManager.list_request w])%list
      /\ items (experienceManager
                  (run (ExperienceManager.fetchExperiences_resumed props o) w)) = JArr xs
      /\ items (experienceManager
                  (run (ExperienceManager.fetchExperiences_resumed props o')
                     (run (ExperienceManager.fetchExperiences_resumed props o) w))) = JArr ys)
  /\ (pending (browser (ItineraryManager.fetchItineraries_called w))
      = (pending (browser w) ++ [ItineraryManager.list_request w])%list
      /\ pending (browser (ItineraryManager.fetchItineraries_called
                            (ItineraryManager.fetchItineraries_called w)))
         = (pending (browser w)
            ++ [ItineraryManager.list_request w; ItineraryManager.list_request w])%list
      /\ items (itineraryManager
                  (run (ItineraryManager.fetchItineraries_resumed props o) w)) = JArr xs
      /\ items (itineraryManager
                  (run (ItineraryManager.fetchItineraries_resumed props o')
                     (run (ItineraryManager.fetchItineraries_resumed props o) w))) = JArr ys)
  /\ (pending (browser (ImageManager.fetchImages_called w))
      = (pending (browser w) ++ [ImageManager.list_request w])%list
      /\ pending (browser (ImageManager.fetchImages_called (ImageManager.fetchImages_called w)))
         = (pending (browser w)
            ++ [ImageManager.list_request w; ImageManager.list_request w])%list
      /\ items (imageManager (run (ImageManager.fetchImages_resumed props o) w)) = JArr xs
      /\ items (imageManager
                  (run (ImageManager.fetchImages_resumed props o')
                     (run (ImageManager.fetchImages_resumed props o) w))) = JArr ys).
Proof.
  intros Ho Hc Ho' Hc'.
  destruct (refresh_sends_one_request w props) as (S1 & S2 & S3).
  destruct (fetchAllData_facts w) as (_ & _ & S4 & _).
  destruct (two_calls_two_outstanding w) as ((P1 & P2) & (P3 & P4) & (P5 & P6)).
  split; [split; [exact S1|split; [exact S2|split; [exact S3|exact S4]]]|].
  split; [|split].
  - split; [exact P1|]. split; [exact P2|].
    split; [exact (fetchExperiences_resumed_stores props o v xs w Ho Hc)|].
    exact (fetchExperiences_resumed_stores props o' v' ys _ Ho' Hc').
  - split; [exact P3|]. split; [exact P4|].
    split; [exact (fetchItineraries_resumed_stores props o v xs w Ho Hc)|].
    exact (fetchItineraries_resumed_stores props o' v' ys _ Ho' Hc').
  - split; [exact P5|]. split; [exact P6|].
    split; [exact (fetchImages_resumed_stores props o v xs w Ho Hc)|].
    exact (fetchImages_resumed_stores props o' v' ys _ Ho' Hc').
Qed.

(** Two refreshes of the image manager, the first answered with a bare
    list and the second with an enveloped one. *)
Lemma C4_every_refresh_sends_its_own_request_witness :
  answer (ok200 (JArr [item "g1"])) = Ok (JArr [item "g1"])
  /\ answer (ok200 (enveloped [item "g1"; item "g2"])) = Ok (enveloped [item "g1"; item "g2"])
  /\ pending (browser (ImageManager.fetchImages_called (ImageManager.fetchImages_called idle)))
     = [ plain_get "http://localhost:5000/api/images";
         plain_get "http://localhost:5000/api/images" ]
  /\ items (imageManager
              (run (ImageManager.fetchImages_resumed no_data
                      (ok200 (enveloped [item "g1"; item "g2"])))
                 (run (ImageManager.fetchImages_resumed no_data (ok200 (JArr [item "g1"])))
                    idle)))
     = JArr [item "g1"; item "g2"].
Proof.
  split; [reflexivity|]. split; [reflexivity|].
  pose proof (C4_every_refresh_sends_its_own_request idle no_data
                (ok200 (JArr [item "g1"])) (ok200 (enveloped [item "g1"; item "g2"]))
                (JArr [item "g1"]) (enveloped [item "g1"; item "g2"])
                [item "g1"] [item "g1"; item "g2"]
                eq_refl (carries_bare _) eq_refl
                (carries_wrapped [item "g1"; item "g2"]
                   [("data", JArr [item "g1"; item "g2"])] eq_refl))
    as (_ & _ & _ & (_ & P & _ & I)).
  split; [exact P|exact I].
Defined.
